(** * PathFinder: the path matching engine ([src/lib/engines/path-matcher.ts])

    A shallow embedding of the decision engine and of the records of
    [src/lib/types.ts] it works on, followed by the properties the
    specification states about it.

    Conventions of the embedding.
    - A JavaScript [number] that takes part in arithmetic is an IEEE 754
      binary64 value ([spec_float] with precision 53 and [emax] 1024), so
      that [NaN] and the rounding of [0.2], [0.15] and [0.1] are the ones the
      program sees.  The two fields of a university that enter the
      arithmetic ([workloadIntensity], [internationalStudentSupport]) are
      such numbers, integral or not; the numeric fields that are only
      compared with a constant or printed ([ranking], [acceptanceRate],
      [annualCost]) are kept in [Z].
    - The catalog module [../data/seed-data] is data, not logic:
      [UNIVERSITIES], [SCHOLARSHIPS] and [COUNTRIES] are Section variables,
      hence arguments of every function that reads them.
    - [new Date()] reads the wall clock; the clock is an explicit argument.
    - A property access on [undefined] throws; the engine therefore lives in
      a small exception monad ([Completion]).

    The code around the engine follows it: the API route that serves it,
    the journey flow of [src/lib/ai-reasoning/outcome-generator.ts] and the
    form of [src/app/profile/page.tsx], which build the profiles it is
    called with, and the merge of catalog data in
    [src/lib/scrapers/university-scraper.ts]. *)

From Stdlib Require Import ZArith String Ascii List Bool Lia.
From Stdlib Require Import SpecFloat DecimalString Permutation Sorted.
Import ListNotations.

Local Open Scope string_scope.
Local Open Scope Z_scope.

Set Implicit Arguments.

(* ================================================================= *)
(** ** JavaScript numbers *)

Module JsNumber.

Definition prec : Z := 53.
Definition emax : Z := 1024.

Definition number := spec_float.

Definition NaN : number := S754_nan.

(** The number a (small) integer literal or integer field denotes. *)
Definition of_Z (z : Z) : number := binary_normalize prec emax z 0 false.
Arguments of_Z : simpl never.

Definition add : number -> number -> number := SFadd prec emax.
Definition sub : number -> number -> number := SFsub prec emax.
Definition mul : number -> number -> number := SFmul prec emax.
Definition div : number -> number -> number := SFdiv prec emax.

(** [x < y], [x <= y], [x > y], [x >= y]: every comparison with [NaN] is
    false. *)
Definition ltb (x y : number) : bool := SFltb x y.
Definition leb (x y : number) : bool := SFleb x y.
Definition gtb (x y : number) : bool := SFltb y x.
Definition geb (x y : number) : bool := SFleb y x.

(** A decimal literal [n/d] denotes the binary64 value nearest to the
    rational; the correctly rounded quotient of two exact integers is that
    value. *)
Definition literal (n d : Z) : number := div (of_Z n) (of_Z d).

(** [ToNumber(undefined)] is [NaN]. *)
Definition ToNumber (v : option number) : number :=
  match v with
  | Some x => x
  | None => NaN
  end.

(** [Math.max(x, y)]: [NaN] if either argument is; [+0] is larger
    than [-0]. *)
Definition Math_max (x y : number) : number :=
  match x, y with
  | S754_nan, _ | _, S754_nan => S754_nan
  | S754_zero sx, S754_zero sy => S754_zero (sx && sy)
  | _, _ => if SFltb x y then y else x
  end.

(** [Math.round(x)]: the integer nearest to [x], ties towards
    [+Infinity]; [NaN], the infinities and the zeros are returned as they
    are, and a result of zero keeps the sign of [x]. A finite [x] is
    [(-1)^s * m * 2^e]; the integer [floor (x + 1/2)] is computed exactly. *)
Definition Math_round (x : number) : number :=
  match x with
  | S754_finite s m e =>
      let sm := cond_Zopp s (Zpos m) in
      let n :=
        if 0 <=? e then sm * 2 ^ e
        else (2 * sm + 2 ^ (- e)) / (2 * 2 ^ (- e)) in
      binary_normalize prec emax n 0 s
  | _ => x
  end.

(** Structural equality of representations (not [===]: it tells [+0]
    from [-0] and equates [NaN] with itself); used to compare results. *)
Definition same (x y : number) : bool :=
  match x, y with
  | S754_zero a, S754_zero b => Bool.eqb a b
  | S754_infinity a, S754_infinity b => Bool.eqb a b
  | S754_nan, S754_nan => true
  | S754_finite a m e, S754_finite b m' e' =>
      Bool.eqb a b && Pos.eqb m m' && Z.eqb e e'
  | _, _ => false
  end.

(** The integer a number holds, when it holds one. *)
Definition to_Z (x : number) : option Z :=
  match x with
  | S754_zero _ => Some 0
  | S754_finite s m e =>
      if 0 <=? e then Some (cond_Zopp s (Zpos m) * 2 ^ e)
      else if (Zpos m) mod 2 ^ (- e) =? 0
           then Some (cond_Zopp s (Zpos m) / 2 ^ (- e))
           else None
  | _ => None
  end.

(** [Number.prototype.toString] on an integer below [10^21]: its decimal
    digits. *)
Definition show_Z (z : Z) : string := NilZero.string_of_int (Z.to_int z).

(** [Number.prototype.toString] on any number: the shortest decimal
    [s * 10^p] that rounds to the number, laid out as ECMAScript
    prescribes.  [a * 10^p] and [b * 2^e] compared as rationals: *)
Definition compareScaled (a p b e : Z) : comparison :=
  (a * 10 ^ Z.max p 0 * 2 ^ Z.max (- e) 0
   ?= b * 2 ^ Z.max e 0 * 10 ^ Z.max (- p) 0).

(** The decimals [s * 10^p] that round to the positive number [m * 2^e]:
    those between the midpoints to its two neighbours, the midpoints
    included when [m] is even.  In units of [2^(e-2)] the number is [4m],
    the upper midpoint [4m + 2] and the lower one [4m - 2], or [4m - 1]
    just above a power of two. *)
Definition roundsTo (m e s p : Z) : bool :=
  let lo := if (m =? 2 ^ (prec - 1)) && (3 - emax - prec <? e)
            then 4 * m - 1 else 4 * m - 2 in
  let hi := 4 * m + 2 in
  match compareScaled s p lo (e - 2), compareScaled s p hi (e - 2) with
  | Gt, Lt => true
  | Eq, Lt | Gt, Eq => Z.even m
  | _, _ => false
  end.

(** The distance of [s * 10^p] to [m * 2^e], in units of
    [2^min(e,0) * 10^min(p,0)]. *)
Definition distance (m e s p : Z) : Z :=
  Z.abs (s * 10 ^ Z.max p 0 * 2 ^ Z.max (- e) 0
         - m * 2 ^ Z.max e 0 * 10 ^ Z.max (- p) 0).

(** Of two candidates the one nearer to [m * 2^e], the even one on a
    tie. *)
Definition nearer (m e p s t : Z) : Z :=
  match distance m e s p ?= distance m e t p with
  | Lt => s
  | Gt => t
  | Eq => if Z.even s then s else t
  end.

(** The candidates at the exponent [p]: the multiples of [10^p] next to
    [m * 2^e] on either side, if they round to it. *)
Definition candidates (m e p : Z) : list Z :=
  let below := (m * 2 ^ Z.max e 0 * 10 ^ Z.max (- p) 0)
               / (10 ^ Z.max p 0 * 2 ^ Z.max (- e) 0) in
  filter (fun s => (0 <? s) && roundsTo m e s p) [below; below + 1].

(** The shortest decimal: the largest [p] that has a candidate, tried from
    [p] downwards.  Seventeen digits always suffice, so the search ends
    long before the fuel does. *)
Fixpoint shortest (fuel : nat) (m e p : Z) : Z * Z :=
  match candidates m e p with
  | s :: rest => (fold_left (nearer m e p) rest s, p)
  | [] =>
      match fuel with
      | O => (m, e)
      | S fuel' => shortest fuel' m e (p - 1)
      end
  end.

Fixpoint zeros (n : nat) : string :=
  match n with
  | O => ""
  | S n' => "0" ++ zeros n'
  end.

(** The layout of the [k] digits of [s] with the decimal point after the
    [n]-th: plain up to [10^21], with leading zeros down to [10^-6], and
    with an exponent otherwise. *)
Definition showPositive (m e : Z) : string :=
  let start := (e + prec + 1) * 30103 / 100000 + 1 in
  let '(s, p) := shortest 40 m e start in
  let digits := show_Z s in
  let k := Z.of_nat (String.length digits) in
  let n := k + p in
  if (k <=? n) && (n <=? 21) then digits ++ zeros (Z.to_nat (n - k))
  else if (0 <? n) && (n <=? 21)
  then substring 0 (Z.to_nat n) digits ++ "."
       ++ substring (Z.to_nat n) (Z.to_nat (k - n)) digits
  else if (-6 <? n) && (n <=? 0)
  then "0." ++ zeros (Z.to_nat (- n)) ++ digits
  else
    let exponent :=
      (if 0 <=? n - 1 then "+" else "-") ++ show_Z (Z.abs (n - 1)) in
    if k =? 1 then digits ++ "e" ++ exponent
    else substring 0 1 digits ++ "." ++ substring 1 (Z.to_nat (k - 1)) digits
         ++ "e" ++ exponent.

Definition Number_toString (x : number) : string :=
  match x with
  | S754_nan => "NaN"
  | S754_zero _ => "0"
  | S754_infinity s => if s then "-Infinity" else "Infinity"
  | S754_finite s m e => (if s then "-" else "") ++ showPositive (Zpos m) e
  end.


End JsNumber.

Import JsNumber.
Arguments of_Z : simpl never.

(* ================================================================= *)
(** ** Data model ([src/lib/types.ts]) *)

(** ["low" | "medium" | "high"]: [BudgetLevel], [ConfidenceLevel], risk
    severities, cost-of-living tiers, competitiveness and importance are the
    same union of string literals. *)
Inductive Level := low | medium | high.

Definition BudgetLevel := Level.
Definition ConfidenceLevel := Level.

Inductive FearType := money | visa | failure | time.

Inductive EducationStage :=
  high_school | bachelors | masters | phd | bootcamp | working.

Inductive SituationType :=
  dont_know | study_abroad | unsure_choice | something_wrong | explore_safely.

Inductive TeachingStyle :=
  lecture_heavy | project_based | research_focused | mixed.

Inductive TuitionTier := tier_free | tier_low | tier_medium | tier_high.

Inductive Difficulty := easy | moderate | hard.

Inductive Proficiency := basic | intermediate | advanced.

Inductive Coverage := full | partial.

(** A [Date] is its time value in milliseconds since the epoch; [None] is
    the invalid date. *)
Definition Date := option Z.

Record LanguageRequirements := {
  primary : string;
  alternatives : option (list string);
  proficiencyRequired : Proficiency
}.

Record Tuition := {
  currency : string;
  annualCost : Z;
  tier : TuitionTier
}.

Record DataSource := {
  src_tuition : string;
  src_ranking : string;
  src_workload : string;
  src_visa : string;
  src_acceptance : string
}.

Record University := {
  uni_id : string;
  uni_name : string;
  uni_country : string;
  city : string;
  ranking : Z;
  teachingStyle : TeachingStyle;
  workloadIntensity : number;
  languageRequirements : LanguageRequirements;
  tuition : Tuition;
  visaDifficulty : Difficulty;
  internationalStudentSupport : number;
  acceptanceRate : Z;
  uni_website : string;
  imageUrl : option string;
  dataSource : option DataSource;
  uni_scrapedAt : Date
}.

Record Eligibility := {
  countries : list string;
  minGPA : option number;
  educationStage : list EducationStage;
  ageLimit : option Z;
  workExperienceRequired : option bool
}.

Record Amount := {
  amt_currency : string;
  value : Z;
  coverage : Coverage
}.

Record Scholarship := {
  sch_id : string;
  sch_name : string;
  provider : string;
  sch_country : string;
  eligibility : Eligibility;
  amount : Amount;
  deadline : Date;
  competitiveness : Level;
  applicationComplexity : Z;
  sch_website : string;
  sch_scrapedAt : Date
}.

Record CostOfLiving := {
  col_tier : Level;
  monthlyAverage : Z;
  col_currency : string
}.

Record VisaProcessing := {
  difficulty : Difficulty;
  averageProcessingDays : Z;
  successRate : Z;
  requirements : list string
}.

Record PostStudyWork := {
  allowed : bool;
  duration : option string;
  restrictions : option string
}.

Record Country := {
  code : string;
  cty_name : string;
  costOfLiving : CostOfLiving;
  languageBarrier : Z;
  cultureShockRisk : Z;
  visaProcessing : VisaProcessing;
  postStudyWork : PostStudyWork;
  safetyRating : Z;
  cty_scrapedAt : Date
}.

(** [StudentProfile] as the interface declares it: the three enum fields are
    required, [targetCountry] is optional. *)
Record StudentProfile := {
  sp_id : string;
  sp_situation : SituationType;
  sp_currentCountry : string;
  sp_targetCountry : option string;
  sp_educationStage : EducationStage;
  sp_budgetLevel : BudgetLevel;
  sp_mainFear : FearType;
  sp_confidenceLevel : ConfidenceLevel;
  sp_createdAt : Date
}.

(** The object the engine receives at run time.  The interface is erased by
    the compiler and the API route casts the parsed JSON body to
    [StudentProfile] without looking at it, so [budgetLevel], [mainFear]
    and [confidenceLevel] may be [undefined] ([None]). *)
Record ProfileObject := {
  profile_id : string;
  situation : SituationType;
  currentCountry : string;
  targetCountry : option string;
  profileStage : EducationStage;
  budgetLevel : option BudgetLevel;
  mainFear : option FearType;
  confidenceLevel : option ConfidenceLevel;
  createdAt : Date
}.

(** A well-typed profile seen as a run-time object. *)
Definition asObject (p : StudentProfile) : ProfileObject :=
  {| profile_id := sp_id p;
     situation := sp_situation p;
     currentCountry := sp_currentCountry p;
     targetCountry := sp_targetCountry p;
     profileStage := sp_educationStage p;
     budgetLevel := Some (sp_budgetLevel p);
     mainFear := Some (sp_mainFear p);
     confidenceLevel := Some (sp_confidenceLevel p);
     createdAt := sp_createdAt p |}.

Coercion asObject : StudentProfile >-> ProfileObject.

Record Breakdown := {
  bd_teaching : number;
  bd_workload : number;
  bd_language : number;
  bd_cost : number;
  bd_visa : number;
  bd_support : number
}.

Record FitScore := {
  overall : number;
  breakdown : Breakdown
}.

Record Risk := {
  severity : Level;
  likelihood : Z;
  risk_description : string;
  mitigation : list string
}.

Record RiskAssessment := {
  financial : Risk;
  risk_visa : Risk;
  academic : Risk;
  risk_time : Risk
}.

Inductive EventType :=
  ev_decision | ev_deadline | ev_milestone | ev_risk | ev_fallback.

Record TimelineEvent := {
  evt_id : string;
  date : Date;
  title : string;
  evt_description : string;
  evt_type : EventType;
  importance : Level;
  completed : option bool
}.

Inductive PathType :=
  path_university | path_bootcamp | path_internship | path_alternative.

Record Path := {
  path_id : string;
  path_type : PathType;
  path_name : string;
  path_description : string;
  fitScore : FitScore;
  risks : RiskAssessment;
  notForYouIf : list string;
  details : University;
  scholarships : option (list Scholarship);
  timeline : list TimelineEvent
}.

(** Enum values as they print inside template literals. *)
Definition show_Level (l : Level) : string :=
  match l with low => "low" | medium => "medium" | high => "high" end.

Definition show_TeachingStyle (t : TeachingStyle) : string :=
  match t with
  | lecture_heavy => "lecture-heavy"
  | project_based => "project-based"
  | research_focused => "research-focused"
  | mixed => "mixed"
  end.

Definition show_Difficulty (d : Difficulty) : string :=
  match d with easy => "easy" | moderate => "medium" | hard => "hard" end.

(** [`${v}`] for a possibly missing enum field prints ["undefined"]. *)
Definition show_opt {A} (show : A -> string) (v : option A) : string :=
  match v with Some a => show a | None => "undefined" end.

(** [===] on the enumerations. *)
Definition Level_eqb (a b : Level) : bool :=
  match a, b with
  | low, low | medium, medium | high, high => true
  | _, _ => false
  end.

Definition TuitionTier_eqb (a b : TuitionTier) : bool :=
  match a, b with
  | tier_free, tier_free | tier_low, tier_low
  | tier_medium, tier_medium | tier_high, tier_high => true
  | _, _ => false
  end.

Definition Difficulty_eqb (a b : Difficulty) : bool :=
  match a, b with
  | easy, easy | moderate, moderate | hard, hard => true
  | _, _ => false
  end.

Definition FearType_eqb (a b : FearType) : bool :=
  match a, b with
  | money, money | visa, visa | failure, failure | time, time => true
  | _, _ => false
  end.

Definition TeachingStyle_eqb (a b : TeachingStyle) : bool :=
  match a, b with
  | lecture_heavy, lecture_heavy | project_based, project_based
  | research_focused, research_focused | mixed, mixed => true
  | _, _ => false
  end.

Definition EducationStage_eqb (a b : EducationStage) : bool :=
  match a, b with
  | high_school, high_school | bachelors, bachelors | masters, masters
  | phd, phd | bootcamp, bootcamp | working, working => true
  | _, _ => false
  end.

(** [v === lit] where [v] may be [undefined]. *)
Definition strictEq {A} (eqb : A -> A -> bool) (v : option A) (lit : A) : bool :=
  match v with Some a => eqb a lit | None => false end.

(** [Array.prototype.includes] on strings and on education stages. *)
Definition includes (l : list string) (s : string) : bool :=
  existsb (String.eqb s) l.

Definition includesStage (l : list EducationStage) (s : EducationStage) : bool :=
  existsb (EducationStage_eqb s) l.

(* ================================================================= *)
(** ** Completions: a call returns or throws *)

Inductive Exception := TypeError.

Inductive Completion (A : Type) :=
| Normal (a : A)
| Throw (e : Exception).

Arguments Normal {A} a.
Arguments Throw {A} e.

Definition bind {A B} (c : Completion A) (k : A -> Completion B) : Completion B :=
  match c with
  | Normal a => k a
  | Throw e => Throw e
  end.

Notation "x <- c ;; k" := (bind c (fun x => k))
  (at level 61, c at next level, right associativity).

(** [Array.prototype.map] with a callback that may throw: the first
    exception ends the traversal. *)
Fixpoint mapM {A B} (f : A -> Completion B) (l : list A) : Completion (list B) :=
  match l with
  | [] => Normal []
  | a :: l' => b <- f a ;; bs <- mapM f l' ;; Normal (b :: bs)
  end.

(** An object literal used as a lookup table: its properties in source
    order. [get] is the property access [obj[k]]; a missing key reads
    [undefined]. *)
Definition Obj (K V : Type) := list (K * V).

Fixpoint get {K V} (eqb : K -> K -> bool) (obj : Obj K V) (k : K) : option V :=
  match obj with
  | [] => None
  | (k', v) :: rest => if eqb k' k then Some v else get eqb rest k
  end.

(** [Array.prototype.push]. *)
Definition push {A} (l : list A) (a : A) : list A := (l ++ [a])%list.

(** Truthiness of a string: every string but the empty one. *)
Definition truthy (s : string) : bool := negb (String.eqb s "").

(** [new Date(t)] for an integral time value: values beyond 8.64e15 ms give
    the invalid date. *)
Definition Date_new (t : Z) : Date :=
  if Z.abs t <=? 8640000000000000 then Some t else None.

(* ================================================================= *)
(** ** Fit scorer *)

Definition calculateTeachingFit (profile : ProfileObject) (uni : University) : number :=
  if strictEq Level_eqb (confidenceLevel profile) high
     && TeachingStyle_eqb (teachingStyle uni) research_focused
  then of_Z 90
  else if strictEq Level_eqb (confidenceLevel profile) low
          && TeachingStyle_eqb (teachingStyle uni) lecture_heavy
  then of_Z 85
  else if TeachingStyle_eqb (teachingStyle uni) mixed
  then of_Z 80
  else of_Z 70.

Definition confidenceMap : Obj ConfidenceLevel Z :=
  [(low, 5); (medium, 7); (high, 10)].

(** [confidenceMap[profile.confidenceLevel]]: [undefined] when the field is
    missing, which the arithmetic turns into [NaN]. *)
Definition lookupLevel (m : Obj Level Z) (v : option Level) : number :=
  ToNumber
    (match v with
     | Some c => option_map of_Z (get Level_eqb m c)
     | None => None
     end).

Definition calculateWorkloadFit (profile : ProfileObject) (uni : University) : number :=
  let maxWorkload := lookupLevel confidenceMap (confidenceLevel profile) in
  let w := workloadIntensity uni in
  if leb w maxWorkload
  then sub (of_Z 100) (mul (sub maxWorkload w) (of_Z 5))
  else Math_max (of_Z 0) (sub (of_Z 100) (mul (sub w maxWorkload) (of_Z 15))).

(** [alternatives?.includes("English")]: [undefined] (falsy) when the list
    is absent. *)
Definition alternativesInclude (uni : University) (s : string) : bool :=
  match alternatives (languageRequirements uni) with
  | Some l => includes l s
  | None => false
  end.

Definition calculateLanguageFit (profile : ProfileObject) (uni : University) : number :=
  if String.eqb (primary (languageRequirements uni)) "English"
  then of_Z 95
  else if alternativesInclude uni "English"
  then of_Z 80
  else of_Z 60.

Definition budgetMap : Obj BudgetLevel (Obj TuitionTier Z) :=
  [ (low,    [(tier_free, 100); (tier_low, 90); (tier_medium, 40); (tier_high, 10)]);
    (medium, [(tier_free, 100); (tier_low, 95); (tier_medium, 85); (tier_high, 50)]);
    (high,   [(tier_free, 100); (tier_low, 95); (tier_medium, 90); (tier_high, 85)]) ].

(** [budgetMap[profile.budgetLevel][uni.tuition.tier]]. With the budget
    missing the outer access reads [undefined] and the inner one throws.
    Every row lists the four tiers ([budgetMap_total]), so the inner access
    always finds a number. *)
Definition calculateCostFit (profile : ProfileObject) (uni : University)
  : Completion number :=
  match budgetLevel profile with
  | None => Throw TypeError
  | Some b =>
      match get Level_eqb budgetMap b with
      | None => Throw TypeError
      | Some row =>
          Normal (ToNumber (option_map of_Z
                    (get TuitionTier_eqb row (tier (tuition uni)))))
      end
  end.

Definition difficultyMap_strict : Obj Difficulty Z :=
  [(easy, 100); (moderate, 60); (hard, 20)].

Definition difficultyMap_lenient : Obj Difficulty Z :=
  [(easy, 100); (moderate, 85); (hard, 70)].

Definition calculateVisaFit (profile : ProfileObject) (uni : University) : number :=
  if strictEq FearType_eqb (mainFear profile) visa
  then ToNumber (option_map of_Z
         (get Difficulty_eqb difficultyMap_strict (visaDifficulty uni)))
  else ToNumber (option_map of_Z
         (get Difficulty_eqb difficultyMap_lenient (visaDifficulty uni))).

(** The weights, as the decimal literals of the source. *)
Definition w_teaching : number := literal 2 10.
Definition w_workload : number := literal 15 100.
Definition w_language : number := literal 15 100.
Definition w_cost : number := literal 25 100.
Definition w_visa : number := literal 15 100.
Definition w_support : number := literal 1 10.

Definition weightedSum (scores : Breakdown) : number :=
  add (add (add (add (add
    (mul (bd_teaching scores) w_teaching)
    (mul (bd_workload scores) w_workload))
    (mul (bd_language scores) w_language))
    (mul (bd_cost scores) w_cost))
    (mul (bd_visa scores) w_visa))
    (mul (bd_support scores) w_support).

Definition calculateFitScore (profile : ProfileObject) (uni : University)
  : Completion FitScore :=
  let teaching := calculateTeachingFit profile uni in
  let workload := calculateWorkloadFit profile uni in
  let language := calculateLanguageFit profile uni in
  cost <- calculateCostFit profile uni ;;
  let scores :=
    {| bd_teaching := teaching;
       bd_workload := workload;
       bd_language := language;
       bd_cost := cost;
       bd_visa := calculateVisaFit profile uni;
       bd_support := mul (internationalStudentSupport uni) (of_Z 10) |} in
  let overall := Math_round (weightedSum scores) in
  Normal {| overall := overall; breakdown := scores |}.

(* ================================================================= *)
(** ** Diversity selector *)

(** One element of [scoredUniversities]. *)
Record Scored := {
  university : University;
  sc_fitScore : FitScore
}.

(** The comparator handed to [sort]: [b.fitScore.overall - a.fitScore.overall]. *)
Definition byOverallDesc (a b : Scored) : number :=
  sub (overall (sc_fitScore b)) (overall (sc_fitScore a)).

(** [Array.prototype.sort] is a stable sort: [a] stays in front of [b]
    unless the comparator says [> 0] (a [NaN] counts as [0]). Insertion from
    the right is such a sort. *)
Section Sort.
Variable A : Type.
Variable cmp : A -> A -> number.

Fixpoint insert (a : A) (l : list A) : list A :=
  match l with
  | [] => [a]
  | b :: l' => if gtb (cmp a b) (of_Z 0) then b :: insert a l' else a :: l
  end.

Definition sort (l : list A) : list A := fold_right insert [] l.
End Sort.

(** The objects of [scored] are told apart by identity
    ([selected.includes(item)]), not by content: two catalog entries may be
    equal records. Each object is fresh from [map], so its identity is its
    position in the array, and the selector works on the positions. *)
Definition Ref := nat.

Definition tagged (scored : list Scored) : list (Ref * Scored) :=
  combine (seq 0 (length scored)) scored.

Definition includesRef (selected : list (Ref * Scored)) (item : Ref * Scored) : bool :=
  existsb (fun s => Nat.eqb (fst s) (fst item)) selected.

(** The [for ... of] loop: [selected] and the [countries] set are the loop
    state; a [Set] of strings is the list of its members in insertion
    order. *)
Definition setAdd (s : list string) (c : string) : list string :=
  if includes s c then s else push s c.

Fixpoint selectLoop (count : nat) (items : list (Ref * Scored))
    (selected : list (Ref * Scored)) (countries : list string)
  : list (Ref * Scored) * list string :=
  match items with
  | [] => (selected, countries)
  | item :: rest =>
      if (count <=? length selected)%nat then (selected, countries)
      else if (length selected <? 2)%nat
              || negb (includes countries (uni_country (university (snd item))))
      then selectLoop count rest (push selected item)
             (setAdd countries (uni_country (university (snd item))))
      else selectLoop count rest selected countries
  end.

(** The [while] loop that fills the remaining slots. Each turn pushes one
    more object, so [count] turns are enough ([fillLoop_fuel]). *)
Fixpoint fillLoop (fuel count : nat) (scored selected : list (Ref * Scored))
  : list (Ref * Scored) :=
  match fuel with
  | O => selected
  | S fuel' =>
      if (length selected <? count)%nat && (length selected <? length scored)%nat
      then
        match filter (fun item => negb (includesRef selected item)) scored with
        | r :: _ => fillLoop fuel' count scored (push selected r)
        | [] => selected
        end
      else selected
  end.

Definition selectDiversePaths (scored : list Scored) (count : nat) : list Scored :=
  let objs := tagged scored in
  let selected := fst (selectLoop count objs [] []) in
  map snd (fillLoop count count objs selected).

(* ================================================================= *)
(** ** The engine over a catalog *)

Section Engine.

Variable UNIVERSITIES : list University.
Variable SCHOLARSHIPS : list Scholarship.
Variable COUNTRIES : list Country.

(** [clock k] is the time value of the [k]-th [new Date()] of a run. *)
Variable clock : nat -> Z.

(** *** Eligibility filter *)

Definition eligible (profile : ProfileObject) (uni : University) : bool :=
  if match targetCountry profile with
     | Some t => truthy t && negb (String.eqb t (uni_country uni))
     | None => false
     end
  then false
  else if strictEq Level_eqb (budgetLevel profile) low
          && TuitionTier_eqb (tier (tuition uni)) tier_high
  then false
  else if strictEq FearType_eqb (mainFear profile) visa
          && Difficulty_eqb (visaDifficulty uni) hard
  then false
  else if strictEq Level_eqb (confidenceLevel profile) low
          && geb (workloadIntensity uni) (of_Z 9)
  then false
  else true.

Definition filterEligibleUniversities (profile : ProfileObject) : list University :=
  filter (eligible profile) UNIVERSITIES.

(** *** Risk assessor *)

Definition budgetMismatch (profile : ProfileObject) (uni : University) : bool :=
  (strictEq Level_eqb (budgetLevel profile) low
   && TuitionTier_eqb (tier (tuition uni)) tier_medium)
  || (strictEq Level_eqb (budgetLevel profile) medium
      && TuitionTier_eqb (tier (tuition uni)) tier_high).

(** [country?.costOfLiving.tier === "high"]. *)
Definition highCostOfLiving (uni : University) : bool :=
  match find (fun c => String.eqb (cty_name c) (uni_country uni)) COUNTRIES with
  | Some country => Level_eqb (col_tier (costOfLiving country)) high
  | None => false
  end.

Definition assessFinancialRisk (profile : ProfileObject) (uni : University) : Risk :=
  {| severity :=
       if budgetMismatch profile uni || highCostOfLiving uni then high else low;
     likelihood := if budgetMismatch profile uni then 70 else 30;
     risk_description :=
       if budgetMismatch profile uni
       then "Tuition (" ++ currency (tuition uni) ++ " "
            ++ show_Z (annualCost (tuition uni)) ++ ") may exceed your "
            ++ show_opt show_Level (budgetLevel profile) ++ " budget"
       else "Costs are manageable with "
            ++ show_opt show_Level (budgetLevel profile) ++ " budget";
     mitigation :=
       [ "Apply for scholarships";
         "Look for part-time work opportunities";
         "Consider student loans";
         "Budget carefully for living expenses" ] |}.

Definition assessVisaRisk (profile : ProfileObject) (uni : University) : Risk :=
  let difficulty := visaDifficulty uni in
  {| severity :=
       match difficulty with easy => low | moderate => medium | hard => high end;
     likelihood :=
       match difficulty with easy => 10 | moderate => 30 | hard => 60 end;
     risk_description :=
       "Visa difficulty is " ++ show_Difficulty difficulty
       ++ " for " ++ uni_country uni;
     mitigation :=
       [ "Start visa process early";
         "Prepare all documents thoroughly";
         "Seek visa consultation";
         "Have backup country options" ] |}.

Definition capacityMap : Obj ConfidenceLevel Z :=
  [(low, 3); (medium, 7); (high, 10)].

Definition assessAcademicRisk (profile : ProfileObject) (uni : University) : Risk :=
  let studentCapacity := lookupLevel capacityMap (confidenceLevel profile) in
  let overload := gtb (workloadIntensity uni) studentCapacity in
  {| severity := if overload then high else low;
     likelihood := if overload then 60 else 20;
     risk_description :=
       if overload
       then "Workload intensity (" ++ Number_toString (workloadIntensity uni)
            ++ "/10) may be challenging for your "
            ++ show_opt show_Level (confidenceLevel profile)
            ++ " confidence level"
       else "Workload is manageable for your confidence level";
     mitigation :=
       [ "Start with lighter course load";
         "Use university tutoring services";
         "Form study groups";
         "Manage time effectively" ] |}.

Definition assessTimeRisk (profile : ProfileObject) (uni : University) : Risk :=
  {| severity := medium;
     likelihood := 40;
     risk_description := "Potential delays in graduation or visa processing";
     mitigation :=
       [ "Plan for buffer time";
         "Stay on top of deadlines";
         "Have contingency plans" ] |}.

Definition assessRisks (profile : ProfileObject) (uni : University) : RiskAssessment :=
  {| financial := assessFinancialRisk profile uni;
     risk_visa := assessVisaRisk profile uni;
     academic := assessAcademicRisk profile uni;
     risk_time := assessTimeRisk profile uni |}.

(** *** Path assembler *)

Definition generateExclusions (profile : ProfileObject) (uni : University) : list string :=
  let exclusions : list string := [] in
  let exclusions :=
    if geb (workloadIntensity uni) (of_Z 9)
    then push exclusions "you prefer a relaxed academic environment"
    else exclusions in
  let exclusions :=
    if TuitionTier_eqb (tier (tuition uni)) tier_high
    then push exclusions "you have strict budget constraints"
    else exclusions in
  let exclusions :=
    if negb (String.eqb (primary (languageRequirements uni)) "English")
       && negb (alternativesInclude uni "English")
    then push exclusions ("you're not comfortable learning in "
                          ++ primary (languageRequirements uni))
    else exclusions in
  let exclusions :=
    if acceptanceRate uni <? 10
    then push exclusions "you need a safer acceptance option"
    else exclusions in
  exclusions.

Definition qualifies (profile : ProfileObject) (uni : University) (sch : Scholarship) : bool :=
  if negb (String.eqb (sch_country sch) (uni_country uni)) then false
  else if negb (includesStage (educationStage (eligibility sch)) (profileStage profile))
  then false
  else if (0 <? length (countries (eligibility sch)))%nat
          && negb (includes (countries (eligibility sch)) (currentCountry profile))
          && negb (includes (countries (eligibility sch)) "All")
  then false
  else true.

Definition findMatchingScholarships (profile : ProfileObject) (uni : University)
  : list Scholarship :=
  firstn 3 (filter (qualifies profile uni) SCHOLARSHIPS).

Definition day : Z := 24 * 60 * 60 * 1000.

Definition generateTimeline (now : Z) (profile : ProfileObject) (uni : University)
  : list TimelineEvent :=
  [ {| evt_id := "evt-1";
       date := Date_new (now + 180 * day);
       title := "Application Deadline";
       evt_description := "Submit application to " ++ uni_name uni;
       evt_type := ev_deadline;
       importance := high;
       completed := None |};
    {| evt_id := "evt-2";
       date := Date_new (now + 270 * day);
       title := "Visa Application";
       evt_description := "Apply for student visa";
       evt_type := ev_decision;
       importance := high;
       completed := None |};
    {| evt_id := "evt-3";
       date := Date_new (now + 365 * day);
       title := "Program Starts";
       evt_description := "Begin studies";
       evt_type := ev_milestone;
       importance := high;
       completed := None |} ].

(** [buildPath]; [now] is what the [new Date()] inside [generateTimeline]
    reads. *)
Definition buildPath (now : Z) (profile : ProfileObject) (uni : University)
    (fit : FitScore) : Path :=
  let risks := assessRisks profile uni in
  let notForYouIf := generateExclusions profile uni in
  let scholarships := findMatchingScholarships profile uni in
  let timeline := generateTimeline now profile uni in
  {| path_id := "path-" ++ uni_id uni;
     path_type := path_university;
     path_name := "Study at " ++ uni_name uni;
     path_description :=
       (if ranking uni <=? 50 then "Top-ranked" else "Quality") ++ " "
       ++ show_TeachingStyle (teachingStyle uni) ++ " university in "
       ++ city uni ++ ", " ++ uni_country uni;
     fitScore := fit;
     risks := risks;
     notForYouIf := notForYouIf;
     details := uni;
     scholarships := Some scholarships;
     timeline := timeline |}.

(** [selectedPaths.map(item => buildPath(...))]: the [k]-th call reads the
    clock for the [k]-th time. *)
Fixpoint buildPaths (k : nat) (profile : ProfileObject) (items : list Scored)
  : list Path :=
  match items with
  | [] => []
  | item :: rest =>
      buildPath (clock k) profile (university item) (sc_fitScore item)
      :: buildPaths (S k) profile rest
  end.

Definition generatePaths (profile : ProfileObject) : Completion (list Path) :=
  let eligibleUniversities := filterEligibleUniversities profile in
  scoredUniversities <-
    mapM (fun uni =>
            fit <- calculateFitScore profile uni ;;
            Normal {| university := uni; sc_fitScore := fit |})
         eligibleUniversities ;;
  let scoredUniversities := sort byOverallDesc scoredUniversities in
  let selectedPaths := selectDiversePaths scoredUniversities 3 in
  Normal (buildPaths 0 profile selectedPaths).

End Engine.

(* ================================================================= *)
(** ** Vocabulary of the specification *)

(** [round (n/d)] over the rationals, ties upwards: [floor (n/d + 1/2)]. *)
Definition roundHalfUp (n d : Z) : Z := (2 * n + d) / (2 * d).

(** The weighted sum in hundredths, with the weights 20, 15, 15, 25, 15 and
    10 percent. *)
Definition weightedHundredths (t w l c v s : Z) : Z :=
  20 * t + 15 * w + 15 * l + 25 * c + 15 * v + 10 * s.

Definition percent (z : Z) : Prop := 0 <= z <= 100.


(** The cells of a two-level lookup table: (row key, column key, value). *)
Definition cells {K K' V} (m : Obj K (Obj K' V)) : list (K * K' * V) :=
  flat_map (fun row => map (fun cell => (fst row, fst cell, snd cell)) (snd row)) m.

(** [budgetMap[b][t]]. *)
Definition costCell (b : BudgetLevel) (t : TuitionTier) : option Z :=
  match get Level_eqb budgetMap b with
  | Some row => get TuitionTier_eqb row t
  | None => None
  end.

(** The values each dimension of the breakdown can take for a catalog entry
    whose scales hold integers within 1..10. *)
Definition teachingValues : list Z := [90; 85; 80; 70].
Definition workloadValues : list Z :=
  [25; 40; 55; 60; 65; 70; 75; 80; 85; 90; 95; 100].
Definition languageValues : list Z := [95; 80; 60].
Definition costValues : list Z := [100; 90; 40; 10; 95; 85; 50].
Definition visaValues : list Z := [100; 60; 20; 85; 70].
Definition supportValues : list Z := [10; 20; 30; 40; 50; 60; 70; 80; 90; 100].

(** [calculateWorkloadFit] at a confidence level and an integer workload. *)
Definition workloadFitAt (c : ConfidenceLevel) (w : Z) : number :=
  let maxWorkload := lookupLevel confidenceMap (Some c) in
  if leb (of_Z w) maxWorkload
  then sub (of_Z 100) (mul (sub maxWorkload (of_Z w)) (of_Z 5))
  else Math_max (of_Z 0)
         (sub (of_Z 100) (mul (sub (of_Z w) maxWorkload) (of_Z 15))).

Definition scale : list Z := [1; 2; 3; 4; 5; 6; 7; 8; 9; 10].

Definition mkBreakdown (t w l c v s : Z) : Breakdown :=
  {| bd_teaching := of_Z t; bd_workload := of_Z w; bd_language := of_Z l;
     bd_cost := of_Z c; bd_visa := of_Z v; bd_support := of_Z s |}.



(** What is checked of one combination of dimension values: the binary64
    computation of the source lands on the exactly rounded weighted sum,
    and that is a percentage. *)
Definition overallAgrees (t w l c v s : Z) : bool :=
  let r := roundHalfUp (weightedHundredths t w l c v s) 100 in
  same (Math_round (weightedSum (mkBreakdown t w l c v s))) (of_Z r)
  && (0 <=? r) && (r <=? 100).

Definition forall6 (T W L C V S : list Z) (f : Z -> Z -> Z -> Z -> Z -> Z -> bool) : bool :=
  forallb (fun t => forallb (fun w => forallb (fun l => forallb (fun c =>
    forallb (fun v => forallb (fun s => f t w l c v s) S) V) C) L) W) T.

(** The identities of a list of objects. *)
Definition refs (l : list (Ref * Scored)) : list Ref := map fst l.

Definition countryOf (s : Scored) : string := uni_country (university s).

(** The comparator does not place [b] in front of [a]. *)
Definition scoreGe (a b : Scored) : Prop :=
  gtb (byOverallDesc a b) (of_Z 0) = false.

(** Sorted by descending score: no entry is outranked by a later one. *)
Definition sortedByScore (scored : list Scored) : Prop :=
  StronglySorted scoreGe scored.

(** A scored candidate whose overall score is an integer percentage. *)
Definition percentScore (s : Scored) : Prop :=
  exists o, percent o /\ overall (sc_fitScore s) = of_Z o.

(** The scale field [x] holds the integer [z]. *)
Definition holds (x : number) (z : Z) : Prop := x = of_Z z.

(** A catalog entry whose two scale fields hold integers within 1..10. *)
Definition inScale (u : University) : Prop :=
  exists w s,
    holds (workloadIntensity u) w /\ holds (internationalStudentSupport u) s
    /\ 1 <= w <= 10 /\ 1 <= s <= 10.

(** The hard constraints of the eligibility filter. A target country is
    set when the field holds a non-empty string: that is what the guard
    [profile.targetCountry && ...] tests. *)
Definition hardConstraints (p : StudentProfile) (u : University) : Prop :=
  (forall c, sp_targetCountry p = Some c -> c <> "" -> uni_country u = c)
  /\ ~ (sp_budgetLevel p = low /\ tier (tuition u) = tier_high)
  /\ ~ (sp_mainFear p = visa /\ visaDifficulty u = hard)
  /\ ~ (sp_confidenceLevel p = low
        /\ geb (workloadIntensity u) (of_Z 9) = true).

Definition strictBudget : string := "you have strict budget constraints".

Definition tuitionMismatch (b : BudgetLevel) (t : TuitionTier) : Prop :=
  (b = low /\ t = tier_medium) \/ (b = medium /\ t = tier_high).

(** The [Country] record of a university: the first one of that name. *)
Definition countryRecord (COUNTRIES : list Country) (u : University) : option Country :=
  find (fun c => String.eqb (cty_name c) (uni_country u)) COUNTRIES.

Definition highCostCountry (COUNTRIES : list Country) (u : University) : Prop :=
  exists c, countryRecord COUNTRIES u = Some c /\ col_tier (costOfLiving c) = high.

Definition scholarshipQualifies (p : StudentProfile) (u : University)
    (sch : Scholarship) : Prop :=
  sch_country sch = uni_country u
  /\ In (sp_educationStage p) (educationStage (eligibility sch))
  /\ (countries (eligibility sch) = []
      \/ In (sp_currentCountry p) (countries (eligibility sch))
      \/ In "All" (countries (eligibility sch))).

(** The visa fit of a profile whose main fear is not the visa. *)
Definition lenientVisaFit (d : Difficulty) : number :=
  match d with
  | easy => of_Z 100
  | moderate => of_Z 85
  | hard => of_Z 70
  end.

(** A required enum field is missing from the object. *)
Definition missingRequired (p : ProfileObject) : Prop :=
  budgetLevel p = None \/ mainFear p = None \/ confidenceLevel p = None.

(** A path with the dates of its timeline blanked. *)
Definition forgetDate (e : TimelineEvent) : TimelineEvent :=
  {| evt_id := evt_id e; date := None; title := title e;
     evt_description := evt_description e; evt_type := evt_type e;
     importance := importance e; completed := completed e |}.

Definition forgetDates (path : Path) : Path :=
  {| path_id := path_id path; path_type := path_type path;
     path_name := path_name path; path_description := path_description path;
     fitScore := fitScore path; risks := risks path;
     notForYouIf := notForYouIf path; details := details path;
     scholarships := scholarships path;
     timeline := map forgetDate (timeline path) |}.

Definition mapCompletion {A B} (f : A -> B) (c : Completion A) : Completion B :=
  match c with
  | Normal a => Normal (f a)
  | Throw e => Throw e
  end.

(** The dates of a timeline built at time [now]. *)
Definition timelineDates (now : Z) : list Date :=
  [Date_new (now + 180 * day); Date_new (now + 270 * day);
   Date_new (now + 365 * day)].


(* ================================================================= *)
(** ** Sample data

    Three entries of the curated list in
    [src/lib/scrapers/university-scraper.ts], used to run the definitions
    on concrete inputs. *)

Definition mit : University :=
  {| uni_id := "uni-mit";
     uni_name := "Massachusetts Institute of Technology";
     uni_country := "United States";
     city := "Cambridge";
     ranking := 1;
     teachingStyle := research_focused;
     workloadIntensity := of_Z 10;
     languageRequirements :=
       {| primary := "English"; alternatives := None;
          proficiencyRequired := advanced |};
     tuition := {| currency := "USD"; annualCost := 53790; tier := tier_high |};
     visaDifficulty := moderate;
     internationalStudentSupport := of_Z 9;
     acceptanceRate := 4;
     uni_website := "https://www.mit.edu";
     imageUrl := None;
     dataSource := None;
     uni_scrapedAt := Some 0 |}.

Definition tum : University :=
  {| uni_id := "uni-tum";
     uni_name := "Technical University of Munich";
     uni_country := "Germany";
     city := "Munich";
     ranking := 37;
     teachingStyle := research_focused;
     workloadIntensity := of_Z 8;
     languageRequirements :=
       {| primary := "German"; alternatives := Some ["English"];
          proficiencyRequired := intermediate |};
     tuition := {| currency := "EUR"; annualCost := 0; tier := tier_free |};
     visaDifficulty := easy;
     internationalStudentSupport := of_Z 8;
     acceptanceRate := 8;
     uni_website := "https://www.tum.de";
     imageUrl := None;
     dataSource := None;
     uni_scrapedAt := Some 0 |}.

Definition nus : University :=
  {| uni_id := "uni-nus";
     uni_name := "National University of Singapore";
     uni_country := "Singapore";
     city := "Singapore";
     ranking := 8;
     teachingStyle := mixed;
     workloadIntensity := of_Z 9;
     languageRequirements :=
       {| primary := "English"; alternatives := None;
          proficiencyRequired := advanced |};
     tuition := {| currency := "SGD"; annualCost := 17550; tier := tier_medium |};
     visaDifficulty := easy;
     internationalStudentSupport := of_Z 9;
     acceptanceRate := 5;
     uni_website := "https://www.nus.edu.sg";
     imageUrl := None;
     dataSource := None;
     uni_scrapedAt := Some 0 |}.

Definition sampleProfile : StudentProfile :=
  {| sp_id := "profile-1";
     sp_situation := study_abroad;
     sp_currentCountry := "India";
     sp_targetCountry := None;
     sp_educationStage := bachelors;
     sp_budgetLevel := medium;
     sp_mainFear := visa;
     sp_confidenceLevel := high;
     sp_createdAt := Some 0 |}.

(** A high-tuition, hard-visa university in the United States. *)
Definition usUniversity : University :=
  {| uni_id := "uni-us";
     uni_name := "A University";
     uni_country := "United States";
     city := "Boston";
     ranking := 60;
     teachingStyle := lecture_heavy;
     workloadIntensity := of_Z 7;
     languageRequirements :=
       {| primary := "English"; alternatives := None;
          proficiencyRequired := advanced |};
     tuition := {| currency := "USD"; annualCost := 60000; tier := tier_high |};
     visaDifficulty := hard;
     internationalStudentSupport := of_Z 7;
     acceptanceRate := 20;
     uni_website := "https://example.edu";
     imageUrl := None;
     dataSource := None;
     uni_scrapedAt := Some 0 |}.

(** A free, lecture-heavy English-speaking university in Germany whose two
    scale values are not integers: workload 8.4 and support 1.9. *)
Definition fractionalUniversity : University :=
  {| uni_id := "uni-frac";
     uni_name := "Another University";
     uni_country := "Germany";
     city := "Berlin";
     ranking := 120;
     teachingStyle := lecture_heavy;
     workloadIntensity := literal 84 10;
     languageRequirements :=
       {| primary := "English"; alternatives := None;
          proficiencyRequired := intermediate |};
     tuition := {| currency := "EUR"; annualCost := 0; tier := tier_free |};
     visaDifficulty := easy;
     internationalStudentSupport := literal 19 10;
     acceptanceRate := 30;
     uni_website := "https://example.de";
     imageUrl := None;
     dataSource := None;
     uni_scrapedAt := Some 0 |}.

(** The profile of the specification's example: low budget, afraid of the
    visa, low confidence, bound for Germany. *)
Definition thriftyProfile : StudentProfile :=
  {| sp_id := "profile-2";
     sp_situation := study_abroad;
     sp_currentCountry := "India";
     sp_targetCountry := Some "Germany";
     sp_educationStage := bachelors;
     sp_budgetLevel := low;
     sp_mainFear := visa;
     sp_confidenceLevel := low;
     sp_createdAt := Some 0 |}.

(** A request body without [mainFear]. *)
Definition noFearProfile : ProfileObject :=
  {| profile_id := "profile-3";
     situation := study_abroad;
     currentCountry := "India";
     targetCountry := None;
     profileStage := bachelors;
     budgetLevel := Some medium;
     mainFear := None;
     confidenceLevel := Some high;
     createdAt := None |}.

(** A request body without [budgetLevel]. *)
Definition noBudgetProfile : ProfileObject :=
  {| profile_id := "profile-4";
     situation := study_abroad;
     currentCountry := "India";
     targetCountry := None;
     profileStage := bachelors;
     budgetLevel := None;
     mainFear := Some money;
     confidenceLevel := Some medium;
     createdAt := None |}.

(** The three sample universities scored for [sampleProfile] and sorted. *)
Definition sampleScored : list Scored :=
  [ {| university := tum;
       sc_fitScore := {| overall := of_Z 92;
                         breakdown := mkBreakdown 90 90 80 100 100 80 |} |};
    {| university := nus;
       sc_fitScore := {| overall := of_Z 90;
                         breakdown := mkBreakdown 80 95 95 85 100 90 |} |};
    {| university := mit;
       sc_fitScore := {| overall := of_Z 78;
                         breakdown := mkBreakdown 90 100 95 50 60 90 |} |} ].

Definition clockAt (t : Z) : nat -> Z := fun _ => t.

(* ================================================================= *)
(** ** The callers of the engine *)

(** *** The API route ([POST /api/generate-paths]) *)

Inductive ResponseBody :=
| PathsBody (paths : list Path)
| ErrorBody (error : string).

Record Response := {
  status : Z;
  body : ResponseBody
}.

(** What [await request.json()] gives the route.  The profile objects are
    those of the engine: [budgetLevel], [mainFear] and [confidenceLevel]
    are each absent or a value of their type; bodies that hold other
    values in these fields are not covered. *)
Inductive RequestBody :=
| Malformed
| JsonNull
| JsonProfile (profile : ProfileObject).

Section Route.
Variable UNIVERSITIES : list University.
Variable SCHOLARSHIPS : list Scholarship.
Variable COUNTRIES : list Country.
Variable clock : nat -> Z.

(** [generatePaths(null)]: the callback of [UNIVERSITIES.filter] reads
    [profile.targetCountry], which throws on [null], at its first call;
    when the catalog is empty the callback is never called, and mapping,
    sorting and selecting on the empty array return the empty array. *)
Definition generatePathsOfNull : Completion (list Path) :=
  kept <- mapM (fun _ : University => @Throw bool TypeError) UNIVERSITIES ;;
  Normal [].

(** The [try] block ends with the answer [{ paths }], of status 200; a
    rejected [request.json()] and an exception of the engine both end in
    the [catch] block. *)
Definition POST (request : RequestBody) : Response :=
  let failed :=
    {| status := 500; body := ErrorBody "Failed to generate paths" |} in
  match request with
  | Malformed => failed
  | JsonNull =>
      match generatePathsOfNull with
      | Normal paths => {| status := 200; body := PathsBody paths |}
      | Throw _ => failed
      end
  | JsonProfile profile =>
      match generatePaths UNIVERSITIES SCHOLARSHIPS COUNTRIES clock profile with
      | Normal paths => {| status := 200; body := PathsBody paths |}
      | Throw _ => failed
      end
  end.
End Route.

(** *** The journey flow ([src/lib/ai-reasoning/outcome-generator.ts]) *)

(** The answers of a journey: a [Record<string, string>]. *)
Definition Answers := Obj string string.

(** [answers[key] || d]: a missing or empty answer gives [d]. *)
Definition orElse (v : option string) (d : string) : string :=
  match v with
  | Some s => if truthy s then s else d
  | None => d
  end.

(** [answers[key] || undefined]. *)
Definition orUndefined (v : option string) : option string :=
  match v with
  | Some s => if truthy s then Some s else None
  | None => None
  end.

(** [String.prototype.includes]. *)
Fixpoint includesSub (s sub : string) : bool :=
  String.prefix sub s
  || match s with
     | EmptyString => false
     | String _ s' => includesSub s' sub
     end.

(** [String.prototype.toLowerCase] on text made of ASCII characters. *)
Definition lowerAscii (c : ascii) : ascii :=
  let n := nat_of_ascii c in
  if (65 <=? n)%nat && (n <=? 90)%nat then ascii_of_nat (n + 32) else c.

Fixpoint asciiLowerCase (s : string) : string :=
  match s with
  | EmptyString => EmptyString
  | String c s' => String (lowerAscii c) (asciiLowerCase s')
  end.

Inductive OutcomeType :=
  exploration_map | university_paths | decision_validation | recovery_plan
  | info_board.

(** A [JourneyOutcome] whose [data] is [{ paths, profile }] or
    [{ paths: [] }]. *)
Record JourneyOutcome := {
  jo_type : OutcomeType;
  jo_title : string;
  jo_message : string;
  jo_paths : list Path;
  jo_profile : option StudentProfile
}.

Section OutcomeGenerator.
(** [String.prototype.toLowerCase], whatever it does to the text. *)
Variable toLowerCase : string -> string.

Definition mapBudgetLevel (input : string) : BudgetLevel :=
  let lower := toLowerCase input in
  if includesSub lower "low" then low
  else if includesSub lower "high" then high
  else medium.

Definition mapEducationStage (input : string) : EducationStage :=
  let lower := toLowerCase input in
  if includesSub lower "high school" then high_school
  else if includesSub lower "master" then masters
  else if includesSub lower "phd" then phd
  else bachelors.

Variable UNIVERSITIES : list University.
Variable SCHOLARSHIPS : list Scholarship.
Variable COUNTRIES : list Country.
Variable clock : nat -> Z.

(** The profile [generateUniversityPaths] maps the answers to. *)
Definition answersProfile (answers : Answers) : StudentProfile :=
  {| sp_id := "ai-generated";
     sp_situation := study_abroad;
     sp_currentCountry :=
       orElse (get String.eqb answers "current-country") "Unknown";
     sp_targetCountry := orUndefined (get String.eqb answers "target-country");
     sp_educationStage :=
       mapEducationStage
         (orElse (get String.eqb answers "education-stage")
            (orElse (get String.eqb answers "stage") ""));
     sp_budgetLevel := mapBudgetLevel (orElse (get String.eqb answers "budget") "");
     sp_mainFear := failure;
     sp_confidenceLevel := medium;
     sp_createdAt := Some (clock 0) |}.

Definition pathGenerationError : JourneyOutcome :=
  {| jo_type := university_paths;
     jo_title := "Path Generation Error";
     jo_message := "We couldn't generate paths at this moment.";
     jo_paths := [];
     jo_profile := None |}.

(** [parsed] is what [JSON.parse(context)] gives: [None] when it throws.
    The profile reads the clock first ([createdAt]); the engine reads it
    after that. *)
Definition generateUniversityPaths (parsed : option Answers) : JourneyOutcome :=
  match parsed with
  | None => pathGenerationError
  | Some answers =>
      let profile := answersProfile answers in
      match generatePaths UNIVERSITIES SCHOLARSHIPS COUNTRIES
              (fun k => clock (S k)) profile with
      | Normal paths =>
          {| jo_type := university_paths;
             jo_title := "Recommended Universities";
             jo_message :=
               "We found " ++ show_Z (Z.of_nat (length paths))
               ++ " optimized paths for you in "
               ++ match sp_targetCountry profile with
                  | Some t => t
                  | None => "your preferred destinations"
                  end ++ ".";
             jo_paths := paths;
             jo_profile := Some profile |}
      | Throw _ => pathGenerationError
      end
  end.
End OutcomeGenerator.

(** The options the fallback question offers for the budget. *)
Definition budgetOptions : list string :=
  ["Low (need scholarships)"; "Medium ($5k-20k/year)"; "High (flexible)"].

(** A text contains [sub]. *)
Definition contains (s sub : string) : Prop :=
  exists pre post, s = pre ++ sub ++ post.

(** *** The profile form (src/app/profile/page.tsx) *)

Record FormData := {
  fd_currentCountry : string;
  fd_targetCountry : string;
  fd_educationStage : option EducationStage;
  fd_budgetLevel : option BudgetLevel;
  fd_mainFear : option FearType;
  fd_confidenceLevel : Z
}.

(** The initial value of the [formData] state. *)
Definition initialFormData : FormData :=
  {| fd_currentCountry := "";
     fd_targetCountry := "";
     fd_educationStage := None;
     fd_budgetLevel := None;
     fd_mainFear := None;
     fd_confidenceLevel := 5 |}.

(** [c <= 3 ? "low" : c <= 7 ? "medium" : "high"] on the slider position. *)
Definition confidenceBand (c : Z) : ConfidenceLevel :=
  if c <=? 3 then low else if c <=? 7 then medium else high.

(** What a click on a button of the form leads to: the page is rendered
    again with a new state, or the profile is stored and the browser is sent
    to the paths page. *)
Inductive Reaction (W : Type) :=
  | Rendered (w : W)
  | Navigated (profile : StudentProfile).
Arguments Rendered {W} w.
Arguments Navigated {W} profile.

Record Wizard := {
  wz_step : Z;
  wz_formData : FormData
}.

Inductive Event :=
  | SelectCurrentCountry (country : string)
  | SelectStage (stage : EducationStage)
  | SelectTargetCountry (country : string)
  | SelectBudget (budget : BudgetLevel)
  | SelectFear (fear : FearType)
  | Slide (position : Z)
  | ClickNext
  | ClickBack.

Section ProfilePage.
Variable situation : SituationType.
(** [Date.now()] is the first reading of the clock, [new Date()] the next. *)
Variable clock : nat -> Z.

(** [None] is the early [return]: nothing is stored and the page stays. *)
Definition handleSubmit (formData : FormData) : option StudentProfile :=
  match fd_educationStage formData, fd_budgetLevel formData,
        fd_mainFear formData with
  | Some stage, Some budget, Some fear =>
      Some {| sp_id := "profile-" ++ show_Z (clock 0);
              sp_situation := situation;
              sp_currentCountry := fd_currentCountry formData;
              sp_targetCountry := Some (fd_targetCountry formData);
              sp_educationStage := stage;
              sp_budgetLevel := budget;
              sp_mainFear := fear;
              sp_confidenceLevel :=
                confidenceBand (fd_confidenceLevel formData);
              sp_createdAt := Some (clock 1) |}
  | _, _, _ => None
  end.

Definition isSet {A} (v : option A) : bool :=
  match v with Some _ => true | None => false end.

Definition canProceed (w : Wizard) : bool :=
  let formData := wz_formData w in
  match wz_step w with
  | 1 => negb (String.eqb (fd_currentCountry formData) "")
  | 2 => isSet (fd_educationStage formData)
  | 3 => negb (String.eqb (fd_targetCountry formData) "")
  | 4 => isSet (fd_budgetLevel formData)
  | 5 => isSet (fd_mainFear formData)
  | 6 => true
  | _ => false
  end.

Definition handleNext (w : Wizard) : Reaction Wizard :=
  if wz_step w <? 6 then
    Rendered {| wz_step := wz_step w + 1; wz_formData := wz_formData w |}
  else
    match handleSubmit (wz_formData w) with
    | Some profile => Navigated profile
    | None => Rendered w
    end.

Definition handleBack (w : Wizard) : Wizard :=
  if 1 <? wz_step w then
    {| wz_step := wz_step w - 1; wz_formData := wz_formData w |}
  else w.

Definition setFormData (w : Wizard) (formData : FormData) : Wizard :=
  {| wz_step := wz_step w; wz_formData := formData |}.

(** The controls the page shows: each input belongs to one step, and the
    two navigation buttons carry a [disabled] attribute. *)
Definition enabled (w : Wizard) (e : Event) : bool :=
  match e with
  | SelectCurrentCountry _ => wz_step w =? 1
  | SelectStage _ => wz_step w =? 2
  | SelectTargetCountry _ => wz_step w =? 3
  | SelectBudget _ => wz_step w =? 4
  | SelectFear _ => wz_step w =? 5
  | Slide _ => wz_step w =? 6
  | ClickNext => canProceed w
  | ClickBack => negb (wz_step w =? 1)
  end.

Definition handle (w : Wizard) (e : Event) : Reaction Wizard :=
  let formData := wz_formData w in
  match e with
  | SelectCurrentCountry country =>
      Rendered (setFormData w
        {| fd_currentCountry := country;
           fd_targetCountry := fd_targetCountry formData;
           fd_educationStage := fd_educationStage formData;
           fd_budgetLevel := fd_budgetLevel formData;
           fd_mainFear := fd_mainFear formData;
           fd_confidenceLevel := fd_confidenceLevel formData |})
  | SelectStage stage =>
      Rendered (setFormData w
        {| fd_currentCountry := fd_currentCountry formData;
           fd_targetCountry := fd_targetCountry formData;
           fd_educationStage := Some stage;
           fd_budgetLevel := fd_budgetLevel formData;
           fd_mainFear := fd_mainFear formData;
           fd_confidenceLevel := fd_confidenceLevel formData |})
  | SelectTargetCountry country =>
      Rendered (setFormData w
        {| fd_currentCountry := fd_currentCountry formData;
           fd_targetCountry := country;
           fd_educationStage := fd_educationStage formData;
           fd_budgetLevel := fd_budgetLevel formData;
           fd_mainFear := fd_mainFear formData;
           fd_confidenceLevel := fd_confidenceLevel formData |})
  | SelectBudget budget =>
      Rendered (setFormData w
        {| fd_currentCountry := fd_currentCountry formData;
           fd_targetCountry := fd_targetCountry formData;
           fd_educationStage := fd_educationStage formData;
           fd_budgetLevel := Some budget;
           fd_mainFear := fd_mainFear formData;
           fd_confidenceLevel := fd_confidenceLevel formData |})
  | SelectFear fear =>
      Rendered (setFormData w
        {| fd_currentCountry := fd_currentCountry formData;
           fd_targetCountry := fd_targetCountry formData;
           fd_educationStage := fd_educationStage formData;
           fd_budgetLevel := fd_budgetLevel formData;
           fd_mainFear := Some fear;
           fd_confidenceLevel := fd_confidenceLevel formData |})
  | Slide position =>
      Rendered (setFormData w
        {| fd_currentCountry := fd_currentCountry formData;
           fd_targetCountry := fd_targetCountry formData;
           fd_educationStage := fd_educationStage formData;
           fd_budgetLevel := fd_budgetLevel formData;
           fd_mainFear := fd_mainFear formData;
           fd_confidenceLevel := position |})
  | ClickNext => handleNext w
  | ClickBack => Rendered (handleBack w)
  end.

(** The form after a sequence of clicks, each on a control that is shown
    and not disabled; [None] once a click is impossible or the browser has
    left the page. *)
Fixpoint run (w : Wizard) (events : list Event) : option Wizard :=
  match events with
  | [] => Some w
  | e :: rest =>
      if enabled w e then
        match handle w e with
        | Rendered w' => run w' rest
        | Navigated _ => None
        end
      else None
  end.
End ProfilePage.

Definition initialWizard : Wizard :=
  {| wz_step := 1; wz_formData := initialFormData |}.

(** What the form has collected once step [k] is on screen. *)
Definition collected (w : Wizard) : Prop :=
  1 <= wz_step w <= 6
  /\ (1 < wz_step w -> fd_currentCountry (wz_formData w) <> "")
  /\ (2 < wz_step w -> fd_educationStage (wz_formData w) <> None)
  /\ (3 < wz_step w -> fd_targetCountry (wz_formData w) <> "")
  /\ (4 < wz_step w -> fd_budgetLevel (wz_formData w) <> None)
  /\ (5 < wz_step w -> fd_mainFear (wz_formData w) <> None).

(** *** Merging scraped data (src/lib/scrapers/university-scraper.ts) *)

(** [u.name === newUni.name && u.country === newUni.country]. *)
Definition sameKey (newUni u : University) : bool :=
  String.eqb (uni_name u) (uni_name newUni)
  && String.eqb (uni_country u) (uni_country newUni).

(** [Array.prototype.findIndex]; [None] is the index -1. *)
Fixpoint findIndex {A} (f : A -> bool) (l : list A) : option nat :=
  match l with
  | [] => None
  | x :: rest => if f x then Some 0%nat else option_map S (findIndex f rest)
  end.

(** [l[i] = v] for an index of the array. *)
Fixpoint updateAt {A} (i : nat) (v : A) (l : list A) : list A :=
  match l, i with
  | [], _ => []
  | _ :: rest, O => v :: rest
  | x :: rest, S j => x :: updateAt j v rest
  end.

(** The object spread of two universities: every property the new object
    has wins; the two optional properties are kept from the old object when
    the new one lacks them. *)
Definition spread (old newUni : University) : University :=
  {| uni_id := uni_id newUni;
     uni_name := uni_name newUni;
     uni_country := uni_country newUni;
     city := city newUni;
     ranking := ranking newUni;
     teachingStyle := teachingStyle newUni;
     workloadIntensity := workloadIntensity newUni;
     languageRequirements := languageRequirements newUni;
     tuition := tuition newUni;
     visaDifficulty := visaDifficulty newUni;
     internationalStudentSupport := internationalStudentSupport newUni;
     acceptanceRate := acceptanceRate newUni;
     uni_website := uni_website newUni;
     imageUrl := match imageUrl newUni with
                 | Some i => Some i
                 | None => imageUrl old
                 end;
     dataSource := match dataSource newUni with
                   | Some d => Some d
                   | None => dataSource old
                   end;
     uni_scrapedAt := uni_scrapedAt newUni |}.

(** One turn of the loop of [mergeUniversityData]. *)
Definition mergeStep (merged : list University) (newUni : University)
    : list University :=
  match findIndex (sameKey newUni) merged with
  | Some existingIndex =>
      match nth_error merged existingIndex with
      | Some old => updateAt existingIndex (spread old newUni) merged
      | None => merged
      end
  | None => push merged newUni
  end.

Definition mergeUniversityData (existing newData : list University)
    : list University :=
  fold_left mergeStep newData existing.

(** The pair a university is identified by when data is merged. *)
Definition keyOf (u : University) : string * string :=
  (uni_name u, uni_country u).

(** The turn of the loop by recursion on the array. *)
Fixpoint upsert (newUni : University) (merged : list University)
    : list University :=
  match merged with
  | [] => [newUni]
  | u :: rest =>
      if sameKey newUni u then spread u newUni :: rest
      else u :: upsert newUni rest
  end.

(** [scrapeUniversityDetails]: the tier given to a scraped tuition;
    [None] is the NaN that [parseInt] gives when no digit was matched. *)
Definition scrapedTier (tuitionCost : option Z) : TuitionTier :=
  match tuitionCost with
  | Some c =>
      if c =? 0 then tier_free
      else if c <? 10000 then tier_low
      else if c <? 30000 then tier_medium
      else tier_high
  | None => tier_high
  end.

(* ================================================================= *)
(** ** Vocabulary of the further properties *)

(** A candidate from a country other than those of the first two picks. *)
Definition newCountry (a b s : Scored) : bool :=
  negb (String.eqb (countryOf s) (countryOf a))
  && negb (String.eqb (countryOf s) (countryOf b)).

(** The third pick among [c :: rest] after [a] and [b]: the first candidate
    from a new country, and the next in line when there is none. *)
Definition thirdPick (a b c : Scored) (rest : list Scored) : Scored :=
  match find (newCountry a b) (c :: rest) with
  | Some x => x
  | None => c
  end.

(** [l] keeps some of the entries of [m], in the order of [m]. *)
Inductive subseq {A : Type} : list A -> list A -> Prop :=
| subseq_nil : subseq [] []
| subseq_take : forall x l m, subseq l m -> subseq (x :: l) (x :: m)
| subseq_skip : forall x l m, subseq l m -> subseq l (x :: m).

(** The overall score of a path, as an integer. *)
Definition pathScore (path : Path) : option Z := to_Z (overall (fitScore path)).

(** The overall score the engine gives a university, as an integer. *)
Definition overallOf (profile : ProfileObject) (uni : University) : option Z :=
  match calculateFitScore profile uni with
  | Normal fit => to_Z (overall fit)
  | Throw _ => None
  end.

Definition relaxedEnvironment : string :=
  "you prefer a relaxed academic environment".

Definition saferOption : string := "you need a safer acceptance option".

(** The exclusion that names the language of instruction. *)
Definition languageExclusion (u : University) : string :=
  "you're not comfortable learning in " ++ primary (languageRequirements u).

(** English is neither the primary language nor an alternative. *)
Definition noEnglish (u : University) : Prop :=
  primary (languageRequirements u) <> "English"
  /\ alternativesInclude u "English" = false.

(** The workload a confidence level is taken to sustain, for the academic
    risk and for the workload fit. *)
Definition capacityOf (c : ConfidenceLevel) : Z :=
  match c with low => 3 | medium => 7 | high => 10 end.

Definition toleratedWorkload (c : ConfidenceLevel) : Z :=
  match c with low => 5 | medium => 7 | high => 10 end.

(** The workload fit over the integers. *)
Definition workloadSpec (m w : Z) : Z :=
  if w <=? m then 100 - 5 * (m - w) else Z.max 0 (100 - 15 * (w - m)).

(** [assessAcademicRisk]'s test as a function of the two fields it reads. *)
Definition overloadAt (c : ConfidenceLevel) (w : Z) : bool :=
  gtb (of_Z w) (lookupLevel capacityMap (Some c)).

Definition span (lo hi : Z) : list Z :=
  map (fun k => lo + Z.of_nat k) (seq 0 (Z.to_nat (hi - lo + 1))).

(** The two constraints of the filter that are left on the journey flow. *)
Definition journeyEligible (target : option string) (b : BudgetLevel)
    (u : University) : bool :=
  match target with
  | Some t => String.eqb t (uni_country u)
  | None => true
  end
  && negb (Level_eqb b low && TuitionTier_eqb (tier (tuition u)) tier_high).

(* ================================================================= *)
(** ** Further sample data *)

(** The sample profile with another fear. *)
Definition moneyFearProfile : StudentProfile :=
  {| sp_id := "profile-3";
     sp_situation := study_abroad;
     sp_currentCountry := "India";
     sp_targetCountry := None;
     sp_educationStage := bachelors;
     sp_budgetLevel := medium;
     sp_mainFear := money;
     sp_confidenceLevel := high;
     sp_createdAt := Some 0 |}.

(** A pass through the six steps of the form. *)
Definition sampleClicks : list Event :=
  [ SelectCurrentCountry "India"; ClickNext;
    SelectStage bachelors; ClickNext;
    SelectTargetCountry "Germany"; ClickNext;
    SelectBudget low; ClickNext;
    SelectFear visa; ClickNext;
    Slide 3 ].

Definition sampleForm : FormData :=
  {| fd_currentCountry := "India";
     fd_targetCountry := "Germany";
     fd_educationStage := Some bachelors;
     fd_budgetLevel := Some low;
     fd_mainFear := Some visa;
     fd_confidenceLevel := 3 |}.

Definition sampleWizard : Wizard :=
  {| wz_step := 6; wz_formData := sampleForm |}.

(** The profile the form submits at time 0. *)
Definition submittedProfile : StudentProfile :=
  {| sp_id := "profile-0";
     sp_situation := study_abroad;
     sp_currentCountry := "India";
     sp_targetCountry := Some "Germany";
     sp_educationStage := bachelors;
     sp_budgetLevel := low;
     sp_mainFear := visa;
     sp_confidenceLevel := low;
     sp_createdAt := Some 0 |}.

(* ================================================================= *)
(** ** Properties *)

(** *** Numbers *)

Lemma same_eq (x y : number) : same x y = true -> x = y.
Proof.
  destruct x as [a|a| |a m e], y as [b|b| |b m' e']; simpl; try discriminate;
    try (intros H; apply Bool.eqb_prop in H; now subst); auto.
  intros H. apply andb_prop in H as [H He]. apply andb_prop in H as [Hs Hm].
  apply Bool.eqb_prop in Hs. apply Pos.eqb_eq in Hm. apply Z.eqb_eq in He.
  now subst.
Qed.

Lemma forall6_spec T W L C V S f t w l c v s :
  forall6 T W L C V S f = true ->
  In t T -> In w W -> In l L -> In c C -> In v V -> In s S ->
  f t w l c v s = true.
Proof.
  unfold forall6. intros H Ht Hw Hl Hc Hv Hs.
  rewrite forallb_forall in H. specialize (H _ Ht).
  rewrite forallb_forall in H. specialize (H _ Hw).
  rewrite forallb_forall in H. specialize (H _ Hl).
  rewrite forallb_forall in H. specialize (H _ Hc).
  rewrite forallb_forall in H. specialize (H _ Hv).
  rewrite forallb_forall in H. exact (H _ Hs).
Qed.

(** Every combination of attainable dimension values: 50400 binary64
    evaluations of the weighted sum. *)
Lemma overallAgrees_everywhere :
  forall6 teachingValues workloadValues languageValues costValues visaValues
          supportValues overallAgrees = true.
Proof. vm_compute. reflexivity. Qed.

Lemma scale_cases (z : Z) :
  1 <= z <= 10 -> In z scale.
Proof.
  intros H. unfold scale. simpl.
  assert (z = 1 \/ z = 2 \/ z = 3 \/ z = 4 \/ z = 5 \/ z = 6 \/ z = 7 \/ z = 8
          \/ z = 9 \/ z = 10) as D by lia.
  intuition auto.
Qed.

(** An integer percentage is held exactly. *)
Lemma to_Z_of_Z_percent (z : Z) : percent z -> to_Z (of_Z z) = Some z.
Proof.
  unfold percent. intros H.
  assert (forallb (fun k => match to_Z (of_Z k) with
                            | Some k' => k' =? k
                            | None => false
                            end)
                  (map Z.of_nat (seq 0 101)) = true) as A
    by (vm_compute; reflexivity).
  rewrite forallb_forall in A.
  specialize (A z).
  destruct (to_Z (of_Z z)) as [k'|].
  - f_equal. apply Z.eqb_eq. apply A.
    apply in_map_iff. exists (Z.to_nat z). split; [lia|].
    apply in_seq. lia.
  - exfalso. assert (false = true); [|discriminate]. apply A.
    apply in_map_iff. exists (Z.to_nat z). split; [lia|].
    apply in_seq. lia.
Qed.

(** *** Fit scorer: the values of the six dimensions *)

Section Dimensions.
Variable p : StudentProfile.
Variable u : University.

Lemma teaching_value :
  exists t, In t teachingValues /\ calculateTeachingFit p u = of_Z t.
Proof.
  unfold calculateTeachingFit, teachingValues. simpl confidenceLevel.
  destruct (sp_confidenceLevel p), (teachingStyle u); simpl;
    eexists; (split; [|reflexivity]); simpl; auto.
Qed.

Lemma workload_value (z : Z) :
  holds (workloadIntensity u) z -> 1 <= z <= 10 ->
  exists w, In w workloadValues /\ calculateWorkloadFit p u = of_Z w.
Proof.
  intros Hz H. apply scale_cases in H.
  assert (calculateWorkloadFit p u
          = workloadFitAt (sp_confidenceLevel p) z) as ->
    by (unfold holds in Hz; unfold calculateWorkloadFit, workloadFitAt;
        cbv zeta; rewrite Hz; reflexivity).
  assert (forallb (fun c => forallb (fun w =>
            existsb (fun x => same (workloadFitAt c w) (of_Z x)) workloadValues)
            scale) [low; medium; high] = true) as A
    by (vm_compute; reflexivity).
  rewrite forallb_forall in A.
  assert (In (sp_confidenceLevel p) [low; medium; high]) as Hc
    by (destruct (sp_confidenceLevel p); simpl; auto).
  specialize (A _ Hc).
  rewrite forallb_forall in A.
  destruct (proj1 (existsb_exists _ _) (A _ H)) as (w & Hw & E).
  exists w. split; [exact Hw|]. now apply same_eq.
Qed.

Lemma language_value :
  exists l, In l languageValues /\ calculateLanguageFit p u = of_Z l.
Proof.
  unfold calculateLanguageFit, languageValues.
  destruct (String.eqb _ _); [|destruct (alternativesInclude _ _)];
    eexists; (split; [|reflexivity]); simpl; auto.
Qed.

Lemma cost_value :
  exists c, In c costValues
            /\ costCell (sp_budgetLevel p) (tier (tuition u)) = Some c
            /\ calculateCostFit p u = Normal (of_Z c).
Proof.
  unfold calculateCostFit, costCell, costValues. simpl budgetLevel.
  destruct (sp_budgetLevel p), (tier (tuition u)); simpl;
    eexists; (split; [|split; reflexivity]); simpl; auto 10.
Qed.

Lemma visa_value :
  exists v, In v visaValues /\ calculateVisaFit p u = of_Z v.
Proof.
  unfold calculateVisaFit, visaValues. simpl mainFear.
  destruct (sp_mainFear p), (visaDifficulty u); simpl;
    eexists; (split; [|reflexivity]); simpl; auto 10.
Qed.

Lemma support_value (z : Z) :
  holds (internationalStudentSupport u) z -> 1 <= z <= 10 ->
  exists s, In s supportValues
            /\ s = 10 * z
            /\ mul (internationalStudentSupport u) (of_Z 10) = of_Z s.
Proof.
  intros Hz H. apply scale_cases in H. unfold holds in Hz. rewrite Hz.
  assert (forallb (fun k => same (mul (of_Z k) (of_Z 10)) (of_Z (10 * k))
                            && existsb (Z.eqb (10 * k)) supportValues)
                  scale = true) as A
    by (vm_compute; reflexivity).
  rewrite forallb_forall in A. specialize (A _ H).
  apply andb_prop in A as [E I].
  apply existsb_exists in I as (x & Hx & Ex). apply Z.eqb_eq in Ex. subst x.
  exists (10 * z).
  split; [exact Hx|]. split; [reflexivity|]. now apply same_eq.
Qed.
End Dimensions.

Lemma values_percent (z : Z) :
  In z teachingValues \/ In z workloadValues \/ In z languageValues
  \/ In z costValues \/ In z visaValues \/ In z supportValues ->
  percent z.
Proof.
  unfold percent, teachingValues, workloadValues, languageValues, costValues,
    visaValues, supportValues. simpl. intuition lia.
Qed.

(** The literals [0.2], [0.15], [0.25] and [0.1] as binary64 values:
    [0x1999999999999A * 2^-55], [0x13333333333333 * 2^-55], [2^-2] and
    [0x1999999999999A * 2^-56]. *)
Example weight_literals :
  w_teaching = S754_finite false 7205759403792794 (-55)
  /\ w_workload = S754_finite false 5404319552844595 (-55)
  /\ w_cost = S754_finite false 4503599627370496 (-54)
  /\ w_support = S754_finite false 7205759403792794 (-56).
Proof. vm_compute. auto. Qed.


(** On attainable dimension values the binary64 computation of the source
    gives the exactly rounded weighted sum, a percentage. *)
Lemma overall_rounds (t w l c v s : Z) :
  In t teachingValues -> In w workloadValues -> In l languageValues ->
  In c costValues -> In v visaValues -> In s supportValues ->
  Math_round (weightedSum (mkBreakdown t w l c v s))
  = of_Z (roundHalfUp (weightedHundredths t w l c v s) 100)
  /\ percent (roundHalfUp (weightedHundredths t w l c v s) 100).
Proof.
  intros Ht Hw Hl Hc Hv Hs.
  pose proof (forall6_spec _ _ _ _ _ _ _ _ _ _ _ _ _
                overallAgrees_everywhere Ht Hw Hl Hc Hv Hs) as A.
  unfold overallAgrees in A.
  apply andb_prop in A as [A Hhi]. apply andb_prop in A as [A Hlo].
  apply same_eq in A. apply Z.leb_le in Hhi, Hlo.
  split; [exact A|]. unfold percent. lia.
Qed.

(** The record [calculateFitScore] returns for a well-typed profile and an
    entry within scale. *)
Lemma calculateFitScore_shape (p : StudentProfile) (u : University) :
  inScale u ->
  exists t w l c v s : Z,
    (In t teachingValues /\ In w workloadValues /\ In l languageValues
     /\ In c costValues /\ In v visaValues /\ In s supportValues)
    /\ calculateFitScore p u
       = Normal {| overall := Math_round (weightedSum (mkBreakdown t w l c v s));
                   breakdown := mkBreakdown t w l c v s |}.
Proof.
  intros (w0 & s0 & Hw & Hs & Rw & Rs).
  destruct (teaching_value p u) as (t & Ht & Et).
  destruct (@workload_value p u w0 Hw Rw) as (w & Hw' & Ew).
  destruct (language_value p u) as (l & Hl & El).
  destruct (cost_value p u) as (c & Hc & _ & Ec).
  destruct (visa_value p u) as (v & Hv & Ev).
  destruct (@support_value u s0 Hs Rs) as (s & Hs' & _ & Es).
  exists t, w, l, c, v, s. split; [tauto|].
  unfold calculateFitScore. rewrite Ec. cbn [bind].
  rewrite Et, Ew, El, Ev, Es. reflexivity.
Qed.






Lemma mit_inScale : inScale mit.
Proof. exists 10, 9. unfold holds. repeat split; try reflexivity; lia. Qed.


(** The sample evaluates to 78: 18 + 15 + 14.25 + 12.5 + 9 + 9 = 77.75. *)
Example calculateFitScore_mit :
  calculateFitScore sampleProfile mit
  = Normal {| overall := of_Z 78; breakdown := mkBreakdown 90 100 95 50 60 90 |}.
Proof. vm_compute. reflexivity. Qed.

(** *** Cost fit: the lookup table *)

Lemma budgetMap_total (b : BudgetLevel) (t : TuitionTier) :
  exists v, costCell b t = Some v /\ In (b, t, v) (cells budgetMap).
Proof.
  destruct b, t; eexists; (split; [reflexivity|]); simpl; auto 15.
Qed.

(** C5, as stated, fails: the table does not have 9 cells. *)
Lemma budgetMap_not_nine_cells :
  ~ (length (cells budgetMap) = 9%nat
     /\ costCell low tier_high = Some 10
     /\ forall t, exists v, costCell high t = Some v /\ 85 <= v).
Proof. intros [H _]. vm_compute in H. discriminate H. Qed.

(** C5 (amended). The cost fit is a fixed lookup table keyed by (budget
    level, tuition tier) with exactly 12 cells: 3 budget levels by the 4
    tuition tiers free, low, medium and high, each pair present once;
    [calculateCostFit] returns the cell of the profile's budget level and
    the university's tier; low budget against high tuition yields 10 and a
    high budget yields at least 85 against every tier. *)
Theorem budgetMap_twelve_cells :
  length (cells budgetMap) = 12%nat
  /\ NoDup (map fst (cells budgetMap))
  /\ (forall b t, exists v, costCell b t = Some v /\ In (b, t, v) (cells budgetMap))
  /\ (forall (p : StudentProfile) (u : University),
        exists v, costCell (sp_budgetLevel p) (tier (tuition u)) = Some v
                  /\ calculateCostFit p u = Normal (of_Z v))
  /\ costCell low tier_high = Some 10
  /\ (forall t, exists v, costCell high t = Some v /\ 85 <= v).
Proof.
  split; [reflexivity|]. split.
  - simpl. repeat constructor; simpl; intuition discriminate.
  - split; [exact budgetMap_total|]. split.
    + intros p u. destruct (cost_value p u) as (c & _ & E1 & E2). eauto.
    + split; [reflexivity|].
      intros t. destruct t; eexists; (split; [reflexivity|]); lia.
Qed.

(** *** Completions and [mapM] *)

Lemma mapM_normal {A B} (f : A -> Completion B) (g : A -> B) (l : list A) :
  (forall a, In a l -> f a = Normal (g a)) ->
  mapM f l = Normal (map g l).
Proof.
  induction l as [|a l IH]; intros H; simpl; [reflexivity|].
  rewrite (H a) by (left; reflexivity). simpl.
  rewrite IH by (intros; apply H; right; assumption). reflexivity.
Qed.

Lemma mapM_throw {A B} (f : A -> Completion B) (e : Exception) (l : list A) :
  (forall a, In a l -> f a = Throw e) ->
  l <> [] ->
  mapM f l = Throw e.
Proof.
  destruct l as [|a l]; intros H N; [contradiction|].
  simpl. rewrite (H a) by (left; reflexivity). reflexivity.
Qed.

(** *** Sorting *)

Section SortFacts.
Variable A : Type.
Variable cmp : A -> A -> number.

Lemma insert_perm (a : A) (l : list A) : Permutation (insert cmp a l) (a :: l).
Proof.
  induction l as [|b l IH]; simpl; [reflexivity|].
  destruct (gtb _ _); [|reflexivity].
  rewrite IH. apply perm_swap.
Qed.

Lemma sort_perm (l : list A) : Permutation (sort cmp l) l.
Proof.
  induction l as [|a l IH]; simpl; [reflexivity|].
  rewrite insert_perm. now constructor.
Qed.

Lemma sort_length (l : list A) : length (sort cmp l) = length l.
Proof. apply Permutation_length, sort_perm. Qed.

Lemma sort_In (l : list A) (a : A) : In a (sort cmp l) <-> In a l.
Proof.
  split; apply Permutation_in; [|symmetry]; apply sort_perm.
Qed.
End SortFacts.

(** *** Object identities *)

Lemma tagged_snd (scored : list Scored) : map snd (tagged scored) = scored.
Proof.
  unfold tagged. generalize 0%nat.
  induction scored as [|a l IH]; intros k; simpl; [reflexivity|].
  now rewrite IH.
Qed.

Lemma tagged_refs (scored : list Scored) :
  refs (tagged scored) = seq 0 (length scored).
Proof.
  unfold tagged, refs. generalize 0%nat.
  induction scored as [|a l IH]; intros k; simpl; [reflexivity|].
  now rewrite IH.
Qed.

Lemma tagged_length (scored : list Scored) :
  length (tagged scored) = length scored.
Proof. rewrite <- (length_map snd), tagged_snd. reflexivity. Qed.

Lemma tagged_NoDup (scored : list Scored) : NoDup (refs (tagged scored)).
Proof. rewrite tagged_refs. apply seq_NoDup. Qed.

Lemma includesRef_spec (selected : list (Ref * Scored)) (item : Ref * Scored) :
  includesRef selected item = true <-> In (fst item) (refs selected).
Proof.
  unfold includesRef, refs. rewrite existsb_exists, in_map_iff.
  split.
  - intros (s & Hs & E). apply Nat.eqb_eq in E. eauto.
  - intros (s & E & Hs). exists s. split; [assumption|]. now apply Nat.eqb_eq.
Qed.

Lemma includes_spec (l : list string) (s : string) :
  includes l s = true <-> In s l.
Proof.
  unfold includes. rewrite existsb_exists. split.
  - intros (x & Hx & E). apply String.eqb_eq in E. now subst.
  - intros H. exists s. split; [assumption|]. apply String.eqb_refl.
Qed.

Lemma setAdd_spec (s : list string) (c d : string) :
  In d (setAdd s c) <-> In d s \/ d = c.
Proof.
  unfold setAdd, push. destruct (includes s c) eqn:E.
  - apply includes_spec in E. split; [auto|]. intros [H| ->]; assumption.
  - rewrite in_app_iff. simpl. intuition.
Qed.

(** *** The selector: invariants of the two loops *)

Lemma length_push {A} (l : list A) (a : A) : length (push l a) = S (length l).
Proof. unfold push. rewrite length_app. simpl. lia. Qed.

Lemma incl_push {A} (l m : list A) (a : A) :
  incl l m -> In a m -> incl (push l a) m.
Proof.
  intros H Ha. unfold push. apply incl_app; [assumption|].
  intros x [<-|[]]. assumption.
Qed.

Lemma NoDup_refs_push (sel : list (Ref * Scored)) (r : Ref * Scored) :
  NoDup (refs sel) -> ~ In (fst r) (refs sel) -> NoDup (refs (push sel r)).
Proof.
  intros Hn Hf. unfold push, refs. rewrite map_app. simpl.
  apply Permutation_NoDup with (l := fst r :: map fst sel).
  - apply Permutation_cons_append.
  - constructor; assumption.
Qed.

Lemma selectLoop_full count items sel cs :
  (count <= length sel)%nat -> selectLoop count items sel cs = (sel, cs).
Proof.
  intros H. destruct items as [|item rest]; simpl; [reflexivity|].
  apply Nat.leb_le in H. now rewrite H.
Qed.

Lemma selectLoop_inv count objs items :
  forall sel cs,
    incl sel objs -> incl items objs -> NoDup (refs (sel ++ items)) ->
    incl (fst (selectLoop count items sel cs)) objs
    /\ NoDup (refs (fst (selectLoop count items sel cs)))
    /\ (length (fst (selectLoop count items sel cs))
        <= Nat.max count (length sel))%nat.
Proof.
  induction items as [|item rest IH]; intros sel cs Hs Hi Hn; simpl.
  - rewrite app_nil_r in Hn. repeat split; auto. lia.
  - destruct (count <=? length sel)%nat eqn:Hfull; simpl.
    + repeat split; auto; [|lia].
      unfold refs in *. rewrite map_app in Hn.
      now apply NoDup_app_remove_r in Hn.
    + apply Nat.leb_gt in Hfull.
      assert (incl rest objs) as Hr by (intros x Hx; apply Hi; now right).
      destruct ((length sel <? 2)%nat || _).
      * destruct (IH (push sel item)
                    (setAdd cs (uni_country (university (snd item)))))
          as (I1 & I2 & I3); auto.
        -- apply incl_push; [assumption|]. apply Hi. now left.
        -- unfold push. now rewrite <- app_assoc.
        -- repeat split; auto. rewrite length_push in I3. lia.
      * apply IH; auto.
        unfold refs in *. rewrite map_app in *. simpl in Hn.
        now apply NoDup_remove_1 in Hn.
Qed.

(** With fewer objects selected than there are, one is left to push. *)
Lemma remaining_nonempty objs sel :
  NoDup (refs objs) -> NoDup (refs sel) -> incl sel objs ->
  (length sel < length objs)%nat ->
  exists r rest,
    filter (fun item => negb (includesRef sel item)) objs = r :: rest
    /\ In r objs /\ ~ In (fst r) (refs sel).
Proof.
  intros Ho Hs Hi Hlt.
  destruct (filter (fun item => negb (includesRef sel item)) objs)
    as [|r rest] eqn:E.
  - exfalso.
    assert (incl (refs objs) (refs sel)) as Hincl.
    { intros k Hk. unfold refs in Hk. apply in_map_iff in Hk as (x & <- & Hx).
      destruct (includesRef sel x) eqn:Ex.
      - now apply includesRef_spec.
      - assert (In x (filter (fun item => negb (includesRef sel item)) objs)) as F
          by (apply filter_In; split; [assumption|now rewrite Ex]).
        rewrite E in F. destruct F. }
    pose proof (NoDup_incl_length Ho Hincl) as L.
    unfold refs in L. rewrite !length_map in L. lia.
  - exists r, rest. split; [reflexivity|].
    assert (In r (r :: rest)) as F by now left.
    rewrite <- E in F. apply filter_In in F as [F1 F2].
    split; [assumption|].
    intros C. apply includesRef_spec in C. rewrite C in F2. discriminate.
Qed.

Lemma fillLoop_inv count objs :
  NoDup (refs objs) ->
  forall fuel sel,
    incl sel objs -> NoDup (refs sel) ->
    (length sel <= Nat.min count (length objs))%nat ->
    (Nat.min count (length objs) <= fuel + length sel)%nat ->
    incl (fillLoop fuel count objs sel) objs
    /\ NoDup (refs (fillLoop fuel count objs sel))
    /\ length (fillLoop fuel count objs sel) = Nat.min count (length objs).
Proof.
  intros Ho. induction fuel as [|fuel IH]; intros sel Hi Hn Hle Hfuel; simpl.
  - repeat split; auto. lia.
  - destruct ((length sel <? count)%nat && (length sel <? length objs)%nat)
      eqn:Hc.
    + apply andb_prop in Hc as [H1 H2].
      apply Nat.ltb_lt in H1, H2.
      destruct (remaining_nonempty Ho Hn Hi H2) as (r & rest & E & Hr & Hfresh).
      rewrite E.
      apply IH.
      * now apply incl_push.
      * now apply NoDup_refs_push.
      * rewrite length_push. lia.
      * rewrite length_push. lia.
    + repeat split; auto.
      apply andb_false_iff in Hc as [H|H]; apply Nat.ltb_ge in H; lia.
Qed.

Lemma fillLoop_saturated fuel count objs sel :
  (count <= length sel)%nat -> fillLoop fuel count objs sel = sel.
Proof.
  intros H. destruct fuel; simpl; [reflexivity|].
  apply Nat.ltb_ge in H. now rewrite H.
Qed.

(** [count] turns of the [while] loop are enough: more fuel changes
    nothing. *)
Lemma fillLoop_fuel count objs :
  NoDup (refs objs) ->
  forall fuel extra sel,
    incl sel objs -> NoDup (refs sel) ->
    (length sel <= Nat.min count (length objs))%nat ->
    (Nat.min count (length objs) <= fuel + length sel)%nat ->
    fillLoop (fuel + extra) count objs sel = fillLoop fuel count objs sel.
Proof.
  intros Ho. induction fuel as [|fuel IH]; intros extra sel Hi Hn Hle Hfuel.
  - simpl. destruct extra; simpl; [reflexivity|].
    assert (length sel = Nat.min count (length objs)) as L by lia.
    destruct ((length sel <? count)%nat && (length sel <? length objs)%nat)
      eqn:Hc; [|reflexivity].
    apply andb_prop in Hc as [H1 H2]. apply Nat.ltb_lt in H1, H2. lia.
  - simpl.
    destruct ((length sel <? count)%nat && (length sel <? length objs)%nat)
      eqn:Hc; [|reflexivity].
    apply andb_prop in Hc as [H1 H2]. apply Nat.ltb_lt in H1, H2.
    destruct (remaining_nonempty Ho Hn Hi H2) as (r & rest & E & Hr & Hfresh).
    rewrite E. apply IH.
    + now apply incl_push.
    + now apply NoDup_refs_push.
    + rewrite length_push. lia.
    + rewrite length_push. lia.
Qed.

(** Distinct objects of an array: the array is the selection plus a rest. *)
Lemma selection_split (objs : list (Ref * Scored)) :
  forall sel,
    NoDup (refs objs) -> NoDup (refs sel) -> incl sel objs ->
    exists rest, Permutation objs (sel ++ rest).
Proof.
  intros sel. revert objs.
  induction sel as [|x sel IH]; intros objs Ho Hs Hi.
  - exists objs. reflexivity.
  - assert (In x objs) as Hx by (apply Hi; now left).
    apply in_split in Hx as (l1 & l2 & ->).
    unfold refs in Hs. simpl in Hs. inversion Hs as [|? ? Hfresh Hs']; subst.
    assert (Permutation (l1 ++ x :: l2) (x :: l1 ++ l2)) as P
      by (symmetry; apply Permutation_middle).
    assert (NoDup (refs (x :: l1 ++ l2))) as Ho'
      by (unfold refs in *; eapply Permutation_NoDup;
          [apply Permutation_map, P|exact Ho]).
    unfold refs in Ho'. simpl in Ho'. inversion Ho' as [|? ? Hx' Ho'']; subst.
    destruct (IH (l1 ++ l2)%list) as (rest & Pr); auto.
    + intros y Hy.
      assert (In y (l1 ++ x :: l2)) as Hy' by (apply Hi; now right).
      apply in_app_iff in Hy' as [Hy'|[<-|Hy']];
        [apply in_app_iff; now left| |apply in_app_iff; now right].
      exfalso. apply Hfresh. now apply in_map.
    + exists rest. rewrite P. simpl. now constructor.
Qed.

Section Selector.
Variable scored : list Scored.
Variable count : nat.

Lemma selectLoop_first :
  incl (fst (selectLoop count (tagged scored) [] [])) (tagged scored)
  /\ NoDup (refs (fst (selectLoop count (tagged scored) [] [])))
  /\ (length (fst (selectLoop count (tagged scored) [] []))
      <= Nat.min count (length (tagged scored)))%nat.
Proof.
  destruct (@selectLoop_inv count (tagged scored) (tagged scored) [] [])
    as (I1 & I2 & I3).
  - intros x [].
  - apply incl_refl.
  - apply tagged_NoDup.
  - repeat split; auto.
    simpl in I3.
    assert (incl (refs (fst (selectLoop count (tagged scored) [] [])))
                 (refs (tagged scored))) as Hincl
      by (intros k Hk; apply in_map_iff in Hk as (x & <- & Hx);
          apply in_map; auto).
    pose proof (NoDup_incl_length I2 Hincl) as L.
    unfold refs in L. rewrite !length_map in L.
    lia.
Qed.

(** The selection is made of distinct objects of the array, and of as
    many as asked for when there are that many. *)
Lemma selectDiversePaths_selection :
  exists sel,
    selectDiversePaths scored count = map snd sel
    /\ incl sel (tagged scored) /\ NoDup (refs sel)
    /\ length sel = Nat.min count (length scored).
Proof.
  destruct selectLoop_first as (I1 & I2 & I3).
  destruct (@fillLoop_inv count (tagged scored) (tagged_NoDup scored) count
              (fst (selectLoop count (tagged scored) [] [])))
    as (F1 & F2 & F3); auto; [lia|].
  exists (fillLoop count count (tagged scored)
            (fst (selectLoop count (tagged scored) [] []))).
  repeat split; auto.
  rewrite F3. now rewrite tagged_length.
Qed.

(** The fuel given to the [while] loop is enough: with more of it the
    selection is the same. *)
Lemma selectDiversePaths_fuel (extra : nat) :
  map snd (fillLoop (count + extra) count (tagged scored)
             (fst (selectLoop count (tagged scored) [] [])))
  = selectDiversePaths scored count.
Proof.
  destruct selectLoop_first as (I1 & I2 & I3).
  unfold selectDiversePaths.
  rewrite (@fillLoop_fuel count (tagged scored) (tagged_NoDup scored));
    auto; lia.
Qed.

Lemma selectDiversePaths_length :
  length (selectDiversePaths scored count) = Nat.min count (length scored).
Proof.
  destruct selectDiversePaths_selection as (sel & -> & _ & _ & L).
  now rewrite length_map.
Qed.

Lemma selectDiversePaths_sub :
  exists rest, Permutation scored (selectDiversePaths scored count ++ rest).
Proof.
  destruct selectDiversePaths_selection as (sel & -> & I & N & _).
  destruct (@selection_split (tagged scored) sel) as (rest & P); auto.
  - apply tagged_NoDup.
  - exists (map snd rest). rewrite <- map_app.
    rewrite <- (tagged_snd scored) at 1. now apply Permutation_map.
Qed.

Lemma selectDiversePaths_In (x : Scored) :
  In x (selectDiversePaths scored count) -> In x scored.
Proof.
  destruct selectDiversePaths_sub as (rest & P). intros H.
  apply Permutation_in with (l := (selectDiversePaths scored count ++ rest)%list).
  - now symmetry.
  - apply in_app_iff. now left.
Qed.
End Selector.

(** *** Path assembly *)

Section Assembly.
Variable SCHOLARSHIPS : list Scholarship.
Variable COUNTRIES : list Country.
Variable clock : nat -> Z.
Variable profile : ProfileObject.

Lemma buildPaths_length (items : list Scored) :
  forall k,
    length (buildPaths SCHOLARSHIPS COUNTRIES clock k profile items)
    = length items.
Proof. induction items; intros k; simpl; auto. Qed.

Lemma buildPaths_details (items : list Scored) :
  forall k,
    map details (buildPaths SCHOLARSHIPS COUNTRIES clock k profile items)
    = map university items.
Proof.
  induction items as [|item rest IH]; intros k; simpl; [reflexivity|].
  now rewrite IH.
Qed.

Lemma buildPaths_In (items : list Scored) (path : Path) :
  forall k,
    In path (buildPaths SCHOLARSHIPS COUNTRIES clock k profile items) ->
    exists item now,
      In item items
      /\ path = buildPath SCHOLARSHIPS COUNTRIES now profile
                  (university item) (sc_fitScore item).
Proof.
  induction items as [|item rest IH]; intros k; simpl; [intros []|].
  intros [<-|H].
  - exists item, (clock k). auto.
  - destruct (IH _ H) as (it & now & Hin & E). exists it, now. auto.
Qed.
End Assembly.

(** *** The run as a whole *)

Lemma calculateFitScore_normal (profile : ProfileObject) (uni : University) :
  budgetLevel profile <> None ->
  exists fit, calculateFitScore profile uni = Normal fit.
Proof.
  intros H. unfold calculateFitScore, calculateCostFit.
  destruct (budgetLevel profile) as [b|]; [|contradiction].
  destruct b; simpl; eauto.
Qed.

Lemma calculateFitScore_throw (profile : ProfileObject) (uni : University) :
  budgetLevel profile = None ->
  calculateFitScore profile uni = Throw TypeError.
Proof.
  intros H. unfold calculateFitScore, calculateCostFit. now rewrite H.
Qed.

Lemma mapM_score (profile : ProfileObject) (l : list University) :
  budgetLevel profile <> None ->
  exists scored,
    mapM (fun uni =>
            fit <- calculateFitScore profile uni ;;
            Normal {| university := uni; sc_fitScore := fit |}) l
    = Normal scored
    /\ map university scored = l
    /\ Forall (fun s => calculateFitScore profile (university s)
                        = Normal (sc_fitScore s)) scored.
Proof.
  intros H. induction l as [|uni l (scored & E & M & F)]; simpl.
  - exists []. auto.
  - destruct (calculateFitScore_normal profile uni H) as (fit & Efit).
    rewrite Efit. simpl. rewrite E. simpl.
    exists ({| university := uni; sc_fitScore := fit |} :: scored).
    simpl. rewrite M. repeat split; auto.
Qed.

Section Run.
Variable UNIVERSITIES : list University.
Variable SCHOLARSHIPS : list Scholarship.
Variable COUNTRIES : list Country.
Variable clock : nat -> Z.
Variable profile : ProfileObject.

Lemma generatePaths_normal :
  budgetLevel profile <> None ->
  exists scored,
    map university scored = filterEligibleUniversities UNIVERSITIES profile
    /\ Forall (fun s => calculateFitScore profile (university s)
                        = Normal (sc_fitScore s)) scored
    /\ generatePaths UNIVERSITIES SCHOLARSHIPS COUNTRIES clock profile
       = Normal (buildPaths SCHOLARSHIPS COUNTRIES clock 0 profile
                   (selectDiversePaths (sort byOverallDesc scored) 3)).
Proof.
  intros H.
  destruct (mapM_score profile (filterEligibleUniversities UNIVERSITIES profile) H)
    as (scored & E & M & F).
  exists scored. split; [assumption|]. split; [assumption|].
  unfold generatePaths. rewrite E. reflexivity.
Qed.

Lemma generatePaths_throw :
  budgetLevel profile = None ->
  filterEligibleUniversities UNIVERSITIES profile <> [] ->
  generatePaths UNIVERSITIES SCHOLARSHIPS COUNTRIES clock profile
  = Throw TypeError.
Proof.
  intros H N. unfold generatePaths.
  rewrite mapM_throw with (e := TypeError); auto.
  intros uni _. now rewrite calculateFitScore_throw.
Qed.

Lemma generatePaths_empty :
  filterEligibleUniversities UNIVERSITIES profile = [] ->
  generatePaths UNIVERSITIES SCHOLARSHIPS COUNTRIES clock profile
  = Normal [].
Proof. intros H. unfold generatePaths. rewrite H. reflexivity. Qed.
End Run.

(** *** Diversity of the selection *)

Lemma selectLoop_third (items : list (Ref * Scored)) :
  forall sel cs,
    length sel = 2%nat ->
    selectLoop 3 items sel cs
    = match find (fun it => negb (includes cs (countryOf (snd it)))) items with
      | Some x => (push sel x, setAdd cs (countryOf (snd x)))
      | None => (sel, cs)
      end.
Proof.
  induction items as [|item rest IH]; intros sel cs L; simpl; [reflexivity|].
  rewrite L. simpl.
  unfold countryOf at 1.
  destruct (negb (includes cs (uni_country (university (snd item))))) eqn:E.
  - apply selectLoop_full. rewrite length_push, L. lia.
  - now apply IH.
Qed.

Lemma selectDiversePaths_three (a b c : Scored) (rest : list Scored) :
  exists z,
    selectDiversePaths (a :: b :: c :: rest) 3 = [a; b; z]
    /\ In z (c :: rest)
    /\ ((countryOf z <> countryOf a /\ countryOf z <> countryOf b)
        \/ forall s, In s (c :: rest) ->
                     countryOf s = countryOf a \/ countryOf s = countryOf b).
Proof.
  unfold selectDiversePaths, tagged.
  cbn [length seq combine].
  set (T := combine (seq 3 (length rest)) rest).
  assert (map snd T = rest) as HT.
  { unfold T. generalize 3%nat. induction rest as [|x l IH]; intros k; simpl;
      [reflexivity|]. now rewrite IH. }
  remember ((2%nat, c) :: T) as R eqn:ER.
  cbn [selectLoop length Nat.leb Nat.ltb orb push app].
  rewrite selectLoop_third by reflexivity.
  subst R.
  set (cs := setAdd (setAdd [] _) _).
  assert (forall d, In d cs <-> d = countryOf a \/ d = countryOf b) as Hcs.
  { intros d. unfold cs. rewrite !setAdd_spec. simpl. unfold countryOf. tauto. }
  match goal with
  | |- context [find ?f ?l] => destruct (find f l) as [x|] eqn:F
  end.
  - apply find_some in F as [Hx Hc].
    exists (snd x). cbn [fst push app].
    rewrite fillLoop_saturated by (simpl; lia).
    split; [reflexivity|]. split.
    + rewrite <- HT. change (c :: map snd T) with (map snd ((2%nat, c) :: T)).
      now apply in_map.
    + left. apply negb_true_iff in Hc.
      assert (~ In (countryOf (snd x)) cs) as N
        by (intros I; apply includes_spec in I; congruence).
      rewrite Hcs in N. tauto.
  - exists c. cbn [fst].
    cbn [fillLoop length Nat.ltb Nat.leb andb filter includesRef existsb fst
         Nat.eqb orb negb push app map snd].
    split; [reflexivity|]. split; [now left|].
    right. intros s Hs.
    rewrite <- HT in Hs. change (c :: map snd T) with (map snd ((2%nat, c) :: T)) in Hs.
    apply in_map_iff in Hs as (it & <- & Hit).
    pose proof (find_none _ _ F it Hit) as N. simpl in N.
    apply negb_false_iff in N. apply includes_spec in N.
    now apply Hcs.
Qed.

(** A candidate is never outranked by itself, whatever its score (even
    [NaN]). *)
Lemma scoreGe_refl (a : Scored) : scoreGe a a.
Proof.
  unfold scoreGe, byOverallDesc, gtb, sub, SFsub.
  destruct (overall (sc_fitScore a)) as [s|s| |s m e]; try (destruct s); try reflexivity.
  - rewrite Z.sub_diag. reflexivity.
  - rewrite Z.sub_diag. reflexivity.
Qed.

(** Three candidates spanning two countries: the three picks do not share
    a country, and the first two are the first two of the list. *)
Lemma selectDiversePaths_spread (scored : list Scored) :
  (3 <= length scored)%nat ->
  (exists s s', In s scored /\ In s' scored /\ countryOf s <> countryOf s') ->
  exists x y z,
    selectDiversePaths scored 3 = [x; y; z]
    /\ ~ (countryOf x = countryOf y /\ countryOf y = countryOf z)
    /\ nth_error scored 0 = Some x
    /\ nth_error scored 1 = Some y.
Proof.
  intros Hlen (s & s' & Hs & Hs' & Hdiff).
  destruct scored as [|a [|b [|c rest]]]; simpl in Hlen; try lia.
  destruct (selectDiversePaths_three a b c rest) as (z & E & Hz & D).
  exists a, b, z. split; [exact E|]. split; [|split; reflexivity].
  intros [Eab Ebz]. destruct D as [[Nza Nzb]|All]; [congruence|].
  assert (forall t, In t (a :: b :: c :: rest) -> countryOf t = countryOf a) as Same.
  { intros t [<-|[<-|Ht]]; [reflexivity|now symmetry|].
    destruct (All t Ht); congruence. }
  apply Hdiff. rewrite (Same s Hs), (Same s' Hs'). reflexivity.
Qed.

(** C6. For every list of scored candidates sorted by descending score,
    of size at least 3 and spanning at least two distinct countries, the
    selector with count 3 returns three entries that are not all from the
    same country; the first two are the first two of the list, whatever
    their countries, and so the two highest scored. *)
Theorem selectDiversePaths_diverse (scored : list Scored) :
  sortedByScore scored ->
  (3 <= length scored)%nat ->
  (exists s s', In s scored /\ In s' scored /\ countryOf s <> countryOf s') ->
  exists x y z,
    selectDiversePaths scored 3 = [x; y; z]
    /\ ~ (countryOf x = countryOf y /\ countryOf y = countryOf z)
    /\ nth_error scored 0 = Some x
    /\ nth_error scored 1 = Some y
    /\ (forall s, In s scored -> scoreGe x s)
    /\ (forall s, In s (skipn 1 scored) -> scoreGe y s).
Proof.
  intros Hsorted Hlen Hspan.
  destruct (selectDiversePaths_spread scored Hlen Hspan)
    as (x & y & z & E & D & Hx & Hy).
  exists x, y, z. split; [exact E|]. split; [exact D|].
  split; [exact Hx|]. split; [exact Hy|].
  destruct scored as [|a [|b rest]]; simpl in Hlen; try lia.
  simpl in Hx, Hy. injection Hx as <-. injection Hy as <-.
  inversion Hsorted as [|? ? Hs1 Ha]; subst.
  inversion Hs1 as [|? ? Hs2 Hb]; subst.
  rewrite Forall_forall in Ha, Hb.
  split.
  - intros t [<-|Ht]; [apply scoreGe_refl|now apply Ha].
  - simpl. intros t [<-|Ht]; [apply scoreGe_refl|now apply Hb].
Qed.

(** *** The list handed to the selector is sorted *)

Lemma percent_cases (z : Z) : percent z -> In z (map Z.of_nat (seq 0 101)).
Proof.
  unfold percent. intros H. apply in_map_iff. exists (Z.to_nat z).
  split; [lia|]. apply in_seq. lia.
Qed.

(** On integer percentages the comparator orders by the integers. *)
Lemma scoreGe_percent (a b : Scored) (oa ob : Z) :
  overall (sc_fitScore a) = of_Z oa ->
  overall (sc_fitScore b) = of_Z ob ->
  percent oa -> percent ob ->
  (scoreGe a b <-> ob <= oa).
Proof.
  intros Ea Eb Pa Pb. unfold scoreGe, byOverallDesc. rewrite Ea, Eb.
  assert (forallb (fun x => forallb (fun y =>
            Bool.eqb (gtb (sub (of_Z y) (of_Z x)) (of_Z 0)) (x <? y))
            (map Z.of_nat (seq 0 101))) (map Z.of_nat (seq 0 101)) = true) as A
    by (vm_compute; reflexivity).
  rewrite forallb_forall in A. specialize (A _ (percent_cases Pa)).
  rewrite forallb_forall in A. specialize (A _ (percent_cases Pb)).
  apply Bool.eqb_prop in A. rewrite A.
  destruct (oa <? ob) eqn:E.
  - apply Z.ltb_lt in E. split; [discriminate|lia].
  - apply Z.ltb_ge in E. split; auto.
Qed.

Lemma insert_sorted (a : Scored) (l : list Scored) :
  percentScore a -> Forall percentScore l ->
  StronglySorted scoreGe l ->
  StronglySorted scoreGe (insert byOverallDesc a l).
Proof.
  intros (oa & Pa & Ea) Hl Hs.
  induction l as [|b l IH]; simpl.
  - repeat constructor.
  - inversion Hl as [|? ? (ob & Pb & Eb) Hl']; subst.
    inversion Hs as [|? ? Hs' Hb]; subst.
    pose proof (scoreGe_percent a b Ea Eb Pa Pb) as G.
    destruct (gtb (byOverallDesc a b) (of_Z 0)) eqn:E.
    + assert (oa < ob) as Lt.
      { destruct (Z.lt_ge_cases oa ob) as [H|H]; [assumption|].
        apply G in H. unfold scoreGe in H. congruence. }
      constructor; [now apply IH|].
      rewrite Forall_forall in *. intros x Hx.
      apply (Permutation_in _ (insert_perm byOverallDesc a l)) in Hx.
      destruct Hx as [<-|Hx]; [|now apply Hb].
      apply (scoreGe_percent b a Eb Ea Pb Pa). lia.
    + constructor; [assumption|].
      constructor; [exact E|].
      rewrite Forall_forall in *. intros x Hx.
      destruct (Hl' x Hx) as (ox & Px & Ex).
      apply (scoreGe_percent a x Ea Ex Pa Px).
      assert (ox <= ob) by (apply (scoreGe_percent b x Eb Ex Pb Px); auto).
      assert (ob <= oa) by (apply G; exact E).
      lia.
Qed.

Lemma sort_sorted (l : list Scored) :
  Forall percentScore l -> sortedByScore (sort byOverallDesc l).
Proof.
  unfold sortedByScore.
  induction l as [|a l IH]; intros H; simpl; [constructor|].
  inversion H as [|? ? Ha Hl]; subst.
  apply insert_sorted; auto.
  rewrite Forall_forall in *. intros x Hx. apply Hl.
  now apply (sort_In byOverallDesc l x).
Qed.


Lemma Level_eqb_eq a b : Level_eqb a b = true <-> a = b.
Proof. destruct a, b; simpl; split; congruence. Qed.

Lemma TuitionTier_eqb_eq a b : TuitionTier_eqb a b = true <-> a = b.
Proof. destruct a, b; simpl; split; congruence. Qed.

Lemma Difficulty_eqb_eq a b : Difficulty_eqb a b = true <-> a = b.
Proof. destruct a, b; simpl; split; congruence. Qed.

Lemma FearType_eqb_eq a b : FearType_eqb a b = true <-> a = b.
Proof. destruct a, b; simpl; split; congruence. Qed.

Lemma EducationStage_eqb_eq a b : EducationStage_eqb a b = true <-> a = b.
Proof. destruct a, b; simpl; split; congruence. Qed.

Lemma truthy_spec (s : string) : truthy s = true <-> s <> "".
Proof.
  unfold truthy. rewrite negb_true_iff. split.
  - intros H ->. simpl in H. discriminate.
  - intros H. apply String.eqb_neq. exact H.
Qed.

Lemma eligible_spec (p : StudentProfile) (u : University) :
  eligible p u = true <-> hardConstraints p u.
Proof.
  unfold eligible, hardConstraints.
  cbn [targetCountry budgetLevel mainFear confidenceLevel asObject strictEq].
  split.
  - intros H.
    destruct (sp_targetCountry p) as [t|] eqn:Et.
    + destruct (truthy t && negb (String.eqb t (uni_country u))) eqn:E1;
        [discriminate|].
      destruct (Level_eqb (sp_budgetLevel p) low
                && TuitionTier_eqb (tier (tuition u)) tier_high) eqn:E2;
        [discriminate|].
      destruct (FearType_eqb (sp_mainFear p) visa
                && Difficulty_eqb (visaDifficulty u) hard) eqn:E3;
        [discriminate|].
      destruct (Level_eqb (sp_confidenceLevel p) low
                && geb (workloadIntensity u) (of_Z 9)) eqn:E4;
        [discriminate|].
      repeat split.
      * intros c [= <-] Hc. apply truthy_spec in Hc. rewrite Hc in E1.
        simpl in E1. apply negb_false_iff, String.eqb_eq in E1. now symmetry.
      * intros [A B]. apply Level_eqb_eq in A. apply TuitionTier_eqb_eq in B.
        rewrite A, B in E2. discriminate.
      * intros [A B]. apply FearType_eqb_eq in A. apply Difficulty_eqb_eq in B.
        rewrite A, B in E3. discriminate.
      * intros [A B]. apply Level_eqb_eq in A.
        rewrite A, B in E4. discriminate.
    + destruct (Level_eqb (sp_budgetLevel p) low
                && TuitionTier_eqb (tier (tuition u)) tier_high) eqn:E2;
        [discriminate|].
      destruct (FearType_eqb (sp_mainFear p) visa
                && Difficulty_eqb (visaDifficulty u) hard) eqn:E3;
        [discriminate|].
      destruct (Level_eqb (sp_confidenceLevel p) low
                && geb (workloadIntensity u) (of_Z 9)) eqn:E4;
        [discriminate|].
      repeat split.
      * intros c [=].
      * intros [A B]. apply Level_eqb_eq in A. apply TuitionTier_eqb_eq in B.
        rewrite A, B in E2. discriminate.
      * intros [A B]. apply FearType_eqb_eq in A. apply Difficulty_eqb_eq in B.
        rewrite A, B in E3. discriminate.
      * intros [A B]. apply Level_eqb_eq in A.
        rewrite A, B in E4. discriminate.
  - intros (Ht & Hb & Hf & Hc).
    assert (match sp_targetCountry p with
            | Some t => truthy t && negb (String.eqb t (uni_country u))
            | None => false
            end = false) as ->.
    { destruct (sp_targetCountry p) as [t|]; [|reflexivity].
      destruct (truthy t) eqn:T; [|reflexivity]. simpl.
      apply truthy_spec in T. rewrite (Ht t eq_refl T).
      now rewrite String.eqb_refl. }
    assert (Level_eqb (sp_budgetLevel p) low
            && TuitionTier_eqb (tier (tuition u)) tier_high = false) as ->.
    { apply not_true_is_false. intros E. apply andb_prop in E as [A B].
      apply Hb. split; [now apply Level_eqb_eq|now apply TuitionTier_eqb_eq]. }
    assert (FearType_eqb (sp_mainFear p) visa
            && Difficulty_eqb (visaDifficulty u) hard = false) as ->.
    { apply not_true_is_false. intros E. apply andb_prop in E as [A B].
      apply Hf. split; [now apply FearType_eqb_eq|now apply Difficulty_eqb_eq]. }
    assert (Level_eqb (sp_confidenceLevel p) low
            && geb (workloadIntensity u) (of_Z 9) = false) as ->.
    { apply not_true_is_false. intros E. apply andb_prop in E as [A B].
      apply Hc. split; [now apply Level_eqb_eq|exact B]. }
    reflexivity.
Qed.

Lemma asObject_budget (p : StudentProfile) : budgetLevel p <> None.
Proof. simpl. discriminate. Qed.

(** What a run returns once the budget level is there: as many paths as
    the selector picks among the scored eligible universities. *)
Lemma generatePaths_returns UNIVERSITIES SCHOLARSHIPS COUNTRIES clock
    (profile : ProfileObject) :
  budgetLevel profile <> None ->
  exists paths,
    generatePaths UNIVERSITIES SCHOLARSHIPS COUNTRIES clock profile
    = Normal paths
    /\ length paths
       = Nat.min 3 (length (filterEligibleUniversities UNIVERSITIES profile))
    /\ (exists rest,
          Permutation (filterEligibleUniversities UNIVERSITIES profile)
                      (map details paths ++ rest))
    /\ (forall path, In path paths ->
          exists now fit,
            path = buildPath SCHOLARSHIPS COUNTRIES now profile
                     (details path) fit).
Proof.
  intros Hb.
  destruct (@generatePaths_normal UNIVERSITIES SCHOLARSHIPS COUNTRIES clock
              profile Hb) as (scored & M & _ & E).
  eexists. split; [exact E|]. split; [|split].
  - rewrite buildPaths_length, selectDiversePaths_length, sort_length.
    rewrite <- M. now rewrite length_map.
  - rewrite buildPaths_details.
    destruct (selectDiversePaths_sub (sort byOverallDesc scored) 3)
      as (rest & P).
    exists (map university rest). rewrite <- map_app, <- M.
    apply Permutation_map. rewrite <- P. symmetry. apply sort_perm.
  - intros path H.
    destruct (@buildPaths_In _ _ _ _ _ _ _ H) as (item & now & _ & ->).
    exists now, (sc_fitScore item). reflexivity.
Qed.

Lemma generatePaths_typed UNIVERSITIES SCHOLARSHIPS COUNTRIES clock
    (p : StudentProfile) :
  exists paths,
    generatePaths UNIVERSITIES SCHOLARSHIPS COUNTRIES clock p = Normal paths
    /\ length paths
       = Nat.min 3 (length (filterEligibleUniversities UNIVERSITIES p))
    /\ (exists rest,
          Permutation (filterEligibleUniversities UNIVERSITIES p)
                      (map details paths ++ rest))
    /\ (forall path, In path paths ->
          exists now fit,
            path = buildPath SCHOLARSHIPS COUNTRIES now p (details path) fit).
Proof. apply generatePaths_returns. apply asObject_budget. Qed.

(** On a catalog within scale the scores are integer percentages, and the
    selector receives them sorted by descending score. *)
Lemma scoredUniversities_sorted UNIVERSITIES SCHOLARSHIPS COUNTRIES clock
    (p : StudentProfile) :
  Forall inScale UNIVERSITIES ->
  exists scored,
    map university scored = filterEligibleUniversities UNIVERSITIES p
    /\ sortedByScore (sort byOverallDesc scored)
    /\ generatePaths UNIVERSITIES SCHOLARSHIPS COUNTRIES clock p
       = Normal (buildPaths SCHOLARSHIPS COUNTRIES clock 0 p
                   (selectDiversePaths (sort byOverallDesc scored) 3)).
Proof.
  intros Hscale.
  destruct (@generatePaths_normal UNIVERSITIES SCHOLARSHIPS COUNTRIES clock
              p (@asObject_budget p)) as (scored & M & F & E).
  exists scored. split; [exact M|]. split; [|exact E].
  apply sort_sorted.
  rewrite Forall_forall in *. intros s Hs.
  assert (inScale (university s)) as Hu.
  { apply Hscale.
    assert (In (university s) (filterEligibleUniversities UNIVERSITIES p)) as H
      by (rewrite <- M; now apply in_map).
    unfold filterEligibleUniversities in H. now apply filter_In in H. }
  destruct (calculateFitScore_shape p Hu)
    as (t & w & l & c & v & k & (Ht & Hw & Hl & Hc & Hv & Hk) & E').
  rewrite (F s Hs) in E'. injection E' as E'.
  destruct (overall_rounds Ht Hw Hl Hc Hv Hk) as (A & Po).
  eexists. split; [exact Po|]. rewrite E'. simpl. exact A.
Qed.

(** The diversity of the selection, seen from [generatePaths]: with at
    least three eligible universities spanning two countries, the three
    paths are not all in one country. *)
Corollary generatePaths_diverse UNIVERSITIES SCHOLARSHIPS COUNTRIES clock
    (p : StudentProfile) :
  (3 <= length (filterEligibleUniversities UNIVERSITIES p))%nat ->
  (exists u u',
     In u (filterEligibleUniversities UNIVERSITIES p)
     /\ In u' (filterEligibleUniversities UNIVERSITIES p)
     /\ uni_country u <> uni_country u') ->
  exists x y z,
    generatePaths UNIVERSITIES SCHOLARSHIPS COUNTRIES clock p = Normal [x; y; z]
    /\ ~ (uni_country (details x) = uni_country (details y)
          /\ uni_country (details y) = uni_country (details z)).
Proof.
  intros Hlen (u & u' & Hu & Hu' & Hdiff).
  destruct (@generatePaths_normal UNIVERSITIES SCHOLARSHIPS COUNTRIES clock
              p (@asObject_budget p)) as (scored & M & _ & E).
  assert (forall v, In v (filterEligibleUniversities UNIVERSITIES p) ->
            exists s, In s (sort byOverallDesc scored) /\ university s = v) as Back.
  { intros v Hv. rewrite <- M in Hv. apply in_map_iff in Hv as (s & Es & Hs).
    exists s. split; [now apply sort_In|exact Es]. }
  destruct (Back u Hu) as (s & Hs & Es). destruct (Back u' Hu') as (s' & Hs' & Es').
  destruct (@selectDiversePaths_spread (sort byOverallDesc scored))
    as (x & y & z & Esel & D & _ & _).
  - rewrite sort_length, <- (length_map university), M. exact Hlen.
  - exists s, s'. unfold countryOf. rewrite Es, Es'. auto.
  - rewrite Esel in E. simpl in E.
    eexists. eexists. eexists. split; [exact E|]. exact D.
Qed.

(** C7. For every well-typed profile and every catalog, [generatePaths]
    returns normally (no exception) exactly [min 3 n] paths, where [n] is
    the number of eligible universities; the universities of the paths are
    distinct entries of the eligible list (the eligible list is a
    rearrangement of them plus a rest), so nothing is padded or made up;
    with no eligible university, and so with an empty catalog, the result
    is the empty list. *)
Theorem generatePaths_count UNIVERSITIES SCHOLARSHIPS COUNTRIES clock
    (p : StudentProfile) :
  exists paths,
    generatePaths UNIVERSITIES SCHOLARSHIPS COUNTRIES clock p = Normal paths
    /\ length paths
       = Nat.min 3 (length (filterEligibleUniversities UNIVERSITIES p))
    /\ (exists rest,
          Permutation (filterEligibleUniversities UNIVERSITIES p)
                      (map details paths ++ rest))
    /\ generatePaths [] SCHOLARSHIPS COUNTRIES clock p = Normal [].
Proof.
  destruct (generatePaths_typed UNIVERSITIES SCHOLARSHIPS COUNTRIES clock p)
    as (paths & E & L & P & _).
  exists paths. repeat split; auto.
Qed.

(** C2. The eligibility filter returns exactly the catalog entries that
    satisfy all hard constraints ([hardConstraints]): the country equals the
    target country when one is set (the field holds a non-empty string, as
    the guard of the source tests it), not (budget low and tuition tier high),
    not (fear visa and visa difficulty hard), not (confidence low and
    workload intensity at least 9). Consequently every path [generatePaths]
    returns is built on an eligible university, whose tuition tier is not
    high when the budget is low and whose visa difficulty is not hard when
    the fear is the visa. *)
Theorem filterEligibleUniversities_exact UNIVERSITIES SCHOLARSHIPS COUNTRIES
    clock (p : StudentProfile) :
  (forall u, eligible p u = true <-> hardConstraints p u)
  /\ filterEligibleUniversities UNIVERSITIES p
     = filter (eligible p) UNIVERSITIES
  /\ (forall u, In u (filterEligibleUniversities UNIVERSITIES p)
                <-> In u UNIVERSITIES /\ hardConstraints p u)
  /\ exists paths,
       generatePaths UNIVERSITIES SCHOLARSHIPS COUNTRIES clock p = Normal paths
       /\ forall path, In path paths ->
            In (details path) (filterEligibleUniversities UNIVERSITIES p)
            /\ (sp_budgetLevel p = low ->
                tier (tuition (details path)) <> tier_high)
            /\ (sp_mainFear p = visa ->
                visaDifficulty (details path) <> hard).
Proof.
  assert (forall u, In u (filterEligibleUniversities UNIVERSITIES p)
                    <-> In u UNIVERSITIES /\ hardConstraints p u) as Hin.
  { intros u. unfold filterEligibleUniversities.
    rewrite filter_In, eligible_spec. reflexivity. }
  split; [apply eligible_spec|]. split; [reflexivity|]. split; [exact Hin|].
  destruct (generatePaths_typed UNIVERSITIES SCHOLARSHIPS COUNTRIES clock p)
    as (paths & E & _ & (rest & P) & _).
  exists paths. split; [exact E|].
  intros path Hpath.
  assert (In (details path) (filterEligibleUniversities UNIVERSITIES p)) as Hd.
  { apply Permutation_in with (l := (map details paths ++ rest)%list);
      [now symmetry|].
    apply in_app_iff. left. now apply in_map. }
  split; [exact Hd|].
  apply Hin in Hd as (_ & _ & Hb & Hf & _).
  split; intros A B; [apply Hb|apply Hf]; auto.
Qed.

Lemma generateExclusions_strictBudget (profile : ProfileObject) (u : University) :
  In strictBudget (generateExclusions profile u) <-> tier (tuition u) = tier_high.
Proof.
  unfold generateExclusions, strictBudget, push.
  rewrite <- TuitionTier_eqb_eq.
  destruct (geb (workloadIntensity u) (of_Z 9)),
           (TuitionTier_eqb (tier (tuition u)) tier_high),
           (negb (String.eqb (primary (languageRequirements u)) "English")
            && negb (alternativesInclude u "English")),
           (acceptanceRate u <? 10);
    simpl; split; intros H; try discriminate; auto;
    repeat (destruct H as [H|H]; [discriminate H|]); try contradiction.
Qed.

(** C10. For a profile with budget level low, no path returned by
    [generatePaths] lists "you have strict budget constraints" in
    [notForYouIf]: the filter has removed every high-tuition university
    before the exclusions are generated. *)
Theorem low_budget_never_strictBudget UNIVERSITIES SCHOLARSHIPS COUNTRIES
    clock (p : StudentProfile) :
  sp_budgetLevel p = low ->
  exists paths,
    generatePaths UNIVERSITIES SCHOLARSHIPS COUNTRIES clock p = Normal paths
    /\ forall path, In path paths ->
         ~ In "you have strict budget constraints" (notForYouIf path).
Proof.
  intros Hlow.
  destruct (generatePaths_typed UNIVERSITIES SCHOLARSHIPS COUNTRIES clock p)
    as (paths & E & _ & (rest & P) & B).
  exists paths. split; [exact E|].
  intros path Hpath Hex.
  assert (In (details path) (filterEligibleUniversities UNIVERSITIES p)) as Hd.
  { apply Permutation_in with (l := (map details paths ++ rest)%list);
      [now symmetry|].
    apply in_app_iff. left. now apply in_map. }
  unfold filterEligibleUniversities in Hd.
  apply filter_In in Hd as [_ Hd]. apply eligible_spec in Hd.
  destruct Hd as (_ & Hb & _).
  destruct (B path Hpath) as (now & fit & Epath).
  rewrite Epath in Hex. cbn [notForYouIf buildPath] in Hex.
  apply (generateExclusions_strictBudget p (details path)) in Hex.
  apply Hb. auto.
Qed.

(** *** Financial risk *)

Lemma budgetMismatch_spec (p : StudentProfile) (u : University) :
  budgetMismatch p u = true
  <-> tuitionMismatch (sp_budgetLevel p) (tier (tuition u)).
Proof.
  unfold budgetMismatch, tuitionMismatch. simpl.
  destruct (sp_budgetLevel p), (tier (tuition u)); simpl;
    split; intros H; try discriminate; auto;
    destruct H as [[A B]|[A B]]; discriminate.
Qed.

Lemma highCostOfLiving_spec COUNTRIES (u : University) :
  highCostOfLiving COUNTRIES u = true <-> highCostCountry COUNTRIES u.
Proof.
  unfold highCostOfLiving, highCostCountry, countryRecord.
  destruct (find _ COUNTRIES) as [c|].
  - rewrite Level_eqb_eq. split.
    + intros H. exists c. auto.
    + intros (c' & [= <-] & H). exact H.
  - split; [discriminate|]. intros (c' & [=] & _).
Qed.

(** C8. The severity of the financial risk is high iff the budget and the
    tuition tier mismatch (low against medium, or medium against high) or
    the [Country] record of the university's country has a high cost of
    living tier, and it is low otherwise; the likelihood is 70 iff the
    mismatch holds and 30 otherwise; when the university's country has no
    [Country] record the evaluation takes the branch without high cost of
    living, so the severity follows the mismatch alone. The function is
    total: it has no way to raise. *)
Theorem assessFinancialRisk_spec COUNTRIES (p : StudentProfile) (u : University) :
  (severity (assessFinancialRisk COUNTRIES p u) = high
   <-> tuitionMismatch (sp_budgetLevel p) (tier (tuition u))
       \/ highCostCountry COUNTRIES u)
  /\ (severity (assessFinancialRisk COUNTRIES p u) = low
      <-> ~ (tuitionMismatch (sp_budgetLevel p) (tier (tuition u))
             \/ highCostCountry COUNTRIES u))
  /\ (likelihood (assessFinancialRisk COUNTRIES p u) = 70
      <-> tuitionMismatch (sp_budgetLevel p) (tier (tuition u)))
  /\ (likelihood (assessFinancialRisk COUNTRIES p u) = 30
      <-> ~ tuitionMismatch (sp_budgetLevel p) (tier (tuition u)))
  /\ (countryRecord COUNTRIES u = None ->
      ~ highCostCountry COUNTRIES u
      /\ (severity (assessFinancialRisk COUNTRIES p u) = high
          <-> tuitionMismatch (sp_budgetLevel p) (tier (tuition u)))
      /\ (severity (assessFinancialRisk COUNTRIES p u) = low
          <-> ~ tuitionMismatch (sp_budgetLevel p) (tier (tuition u)))).
Proof.
  pose proof (budgetMismatch_spec p u) as M.
  pose proof (highCostOfLiving_spec COUNTRIES u) as H.
  assert (countryRecord COUNTRIES u = None -> ~ highCostCountry COUNTRIES u) as N
    by (intros E (c & E' & _); congruence).
  unfold assessFinancialRisk. cbn [severity likelihood].
  set (m := tuitionMismatch (sp_budgetLevel p) (tier (tuition u))) in *.
  set (h := highCostCountry COUNTRIES u) in *.
  destruct (budgetMismatch p u) eqn:Em, (highCostOfLiving COUNTRIES u) eqn:Eh;
    cbn [orb].
  - assert m by now apply M. assert h by now apply H.
    repeat split; intros; auto; try discriminate; try tauto; try lia.
  - assert m by now apply M. assert (~ h) by (rewrite <- H; discriminate).
    repeat split; intros; auto; try discriminate; try tauto; try lia.
  - assert (~ m) by (rewrite <- M; discriminate). assert h by now apply H.
    repeat split; intros; auto; try discriminate; try tauto; try lia.
  - assert (~ m) by (rewrite <- M; discriminate).
    assert (~ h) by (rewrite <- H; discriminate).
    repeat split; intros; auto; try discriminate; try tauto; try lia.
Qed.

(** *** Scholarships *)

Lemma includesStage_spec (l : list EducationStage) (s : EducationStage) :
  includesStage l s = true <-> In s l.
Proof.
  unfold includesStage. rewrite existsb_exists. split.
  - intros (x & Hx & E). apply EducationStage_eqb_eq in E. now subst.
  - intros H. exists s. split; [assumption|]. now apply EducationStage_eqb_eq.
Qed.

Lemma qualifies_spec (p : StudentProfile) (u : University) (sch : Scholarship) :
  qualifies p u sch = true <-> scholarshipQualifies p u sch.
Proof.
  unfold qualifies, scholarshipQualifies.
  cbn [profileStage currentCountry asObject].
  pose proof (includesStage_spec (educationStage (eligibility sch))
                (sp_educationStage p)) as S1.
  pose proof (includes_spec (countries (eligibility sch))
                (sp_currentCountry p)) as S2.
  pose proof (includes_spec (countries (eligibility sch)) "All") as S3.
  assert ((0 <? length (countries (eligibility sch)))%nat = false
          <-> countries (eligibility sch) = []) as S0.
  { destruct (countries (eligibility sch)); cbn; split; intros H;
      try discriminate H; reflexivity. }
  destruct (String.eqb (sch_country sch) (uni_country u)) eqn:E0; cbn [negb].
  - apply String.eqb_eq in E0.
    destruct (includesStage (educationStage (eligibility sch))
                (sp_educationStage p)); cbn [negb].
    + destruct (0 <? length (countries (eligibility sch)))%nat,
               (includes (countries (eligibility sch)) (sp_currentCountry p)),
               (includes (countries (eligibility sch)) "All");
        cbn [andb negb]; intuition (auto; try discriminate).
    + split; [discriminate|]. intros (_ & H & _). apply S1 in H. discriminate.
  - apply String.eqb_neq in E0. split; [discriminate|]. intros (H & _).
    contradiction.
Qed.

Lemma In_firstn {A} (n : nat) (l : list A) (x : A) :
  In x (firstn n l) -> In x l.
Proof.
  intros H. rewrite <- (firstn_skipn n l). apply in_or_app. now left.
Qed.

(** C9. A scholarship qualifies iff its country is the university's, the
    profile's education stage is among its eligible stages, and its list of
    eligible countries is empty, or contains the profile's current country,
    or contains "All". The scholarships attached to a path are the first
    three qualifying ones in catalog order: at most three, each of them
    qualifying, and every qualifying one when no more than three
    qualify. *)
Theorem findMatchingScholarships_spec UNIVERSITIES SCHOLARSHIPS COUNTRIES clock
    (p : StudentProfile) :
  (forall u sch, qualifies p u sch = true <-> scholarshipQualifies p u sch)
  /\ (forall u,
        findMatchingScholarships SCHOLARSHIPS p u
        = firstn 3 (filter (qualifies p u) SCHOLARSHIPS)
        /\ (length (findMatchingScholarships SCHOLARSHIPS p u) <= 3)%nat
        /\ (forall sch, In sch (findMatchingScholarships SCHOLARSHIPS p u) ->
              In sch SCHOLARSHIPS /\ scholarshipQualifies p u sch)
        /\ (forall sch, In sch SCHOLARSHIPS -> scholarshipQualifies p u sch ->
              (length (filter (qualifies p u) SCHOLARSHIPS) <= 3)%nat ->
              In sch (findMatchingScholarships SCHOLARSHIPS p u)))
  /\ exists paths,
       generatePaths UNIVERSITIES SCHOLARSHIPS COUNTRIES clock p = Normal paths
       /\ forall path, In path paths ->
            scholarships path
            = Some (findMatchingScholarships SCHOLARSHIPS p (details path)).
Proof.
  split; [intros u sch; apply qualifies_spec|]. split.
  - intros u. unfold findMatchingScholarships.
    split; [reflexivity|]. split; [apply firstn_le_length|]. split.
    + intros sch H. apply In_firstn in H. apply filter_In in H as [H1 H2].
      split; [assumption|now apply qualifies_spec].
    + intros sch H1 H2 L. rewrite firstn_all2 by assumption.
      apply filter_In. split; [assumption|now apply qualifies_spec].
  - destruct (generatePaths_typed UNIVERSITIES SCHOLARSHIPS COUNTRIES clock p)
      as (paths & E & _ & _ & B).
    exists paths. split; [exact E|].
    intros path Hpath. destruct (B path Hpath) as (now & fit & Epath).
    rewrite Epath at 1. reflexivity.
Qed.

(** *** The clock *)

Section Clock.
Variable SCHOLARSHIPS : list Scholarship.
Variable COUNTRIES : list Country.
Variable profile : ProfileObject.
Variables clock1 clock2 : nat -> Z.

Lemma buildPaths_forgetDates (items : list Scored) :
  forall k k',
    map forgetDates (buildPaths SCHOLARSHIPS COUNTRIES clock1 k profile items)
    = map forgetDates (buildPaths SCHOLARSHIPS COUNTRIES clock2 k' profile items).
Proof.
  induction items as [|item rest IH]; intros k k'; simpl; [reflexivity|].
  f_equal. apply IH.
Qed.

Lemma buildPaths_ext (items : list Scored) :
  forall k,
    (forall j, (j < length items)%nat -> clock1 (k + j) = clock2 (k + j)) ->
    buildPaths SCHOLARSHIPS COUNTRIES clock1 k profile items
    = buildPaths SCHOLARSHIPS COUNTRIES clock2 k profile items.
Proof.
  induction items as [|item rest IH]; intros k H; simpl; [reflexivity|].
  f_equal.
  - specialize (H 0%nat). rewrite Nat.add_0_r in H. rewrite H; [reflexivity|].
    simpl. lia.
  - apply IH. intros j Hj. replace (S k + j)%nat with (k + S j)%nat by lia.
    apply H. simpl. lia.
Qed.

Lemma buildPaths_dates (items : list Scored) :
  forall k j path,
    nth_error (buildPaths SCHOLARSHIPS COUNTRIES clock1 k profile items) j
    = Some path ->
    map date (timeline path) = timelineDates (clock1 (k + j)).
Proof.
  induction items as [|item rest IH]; intros k j path; simpl.
  - destruct j; discriminate.
  - destruct j as [|j]; simpl.
    + intros [= <-]. rewrite Nat.add_0_r. reflexivity.
    + intros H. replace (k + S j)%nat with (S k + j)%nat by lia.
      now apply IH.
Qed.
End Clock.

(** C1 (amended). The output of [generatePaths] is a function of the
    profile, the catalog and the readings of the clock: two runs differ at
    most in the dates of the timelines, they are equal when the clock reads
    the same at the (at most three) calls of [new Date()], and the dates of
    the [k]-th path are the [k]-th reading plus 180, 270 and 365 days. *)
Theorem generatePaths_clock UNIVERSITIES SCHOLARSHIPS COUNTRIES
    (profile : ProfileObject) (clock1 clock2 : nat -> Z) :
  mapCompletion (map forgetDates)
    (generatePaths UNIVERSITIES SCHOLARSHIPS COUNTRIES clock1 profile)
  = mapCompletion (map forgetDates)
      (generatePaths UNIVERSITIES SCHOLARSHIPS COUNTRIES clock2 profile)
  /\ ((forall k, (k < 3)%nat -> clock1 k = clock2 k) ->
      generatePaths UNIVERSITIES SCHOLARSHIPS COUNTRIES clock1 profile
      = generatePaths UNIVERSITIES SCHOLARSHIPS COUNTRIES clock2 profile)
  /\ (forall paths k path,
        generatePaths UNIVERSITIES SCHOLARSHIPS COUNTRIES clock1 profile
        = Normal paths ->
        nth_error paths k = Some path ->
        map date (timeline path) = timelineDates (clock1 k)).
Proof.
  unfold generatePaths.
  destruct (mapM _ (filterEligibleUniversities UNIVERSITIES profile))
    as [scored|e]; cbn [bind mapCompletion].
  - split; [|split].
    + f_equal. apply buildPaths_forgetDates.
    + intros H. f_equal. apply buildPaths_ext.
      intros j Hj. apply H.
      rewrite selectDiversePaths_length in Hj. simpl. lia.
    + intros paths k path [= <-] Hk.
      apply (buildPaths_dates _ _ _ _ _ 0%nat _ Hk).
  - split; [reflexivity|]. split; [reflexivity|]. discriminate.
Qed.

Lemma add_NaN_r (x : number) : add x NaN = NaN.
Proof. destruct x as [s|s| |s m e]; reflexivity. Qed.

Lemma weightedSum_NaN (scores : Breakdown) :
  bd_workload scores = NaN -> weightedSum scores = NaN.
Proof.
  intros H. unfold weightedSum. rewrite H.
  change (mul NaN w_workload) with NaN.
  rewrite add_NaN_r. reflexivity.
Qed.

Lemma calculateWorkloadFit_missing (profile : ProfileObject) (uni : University) :
  confidenceLevel profile = None -> calculateWorkloadFit profile uni = NaN.
Proof.
  intros H. unfold calculateWorkloadFit. rewrite H.
  cbn [lookupLevel ToNumber].
  replace (leb (workloadIntensity uni) NaN) with false
    by (unfold leb, SFleb, SFcompare;
        destruct (workloadIntensity uni); reflexivity).
  replace (sub (workloadIntensity uni) NaN) with NaN
    by (unfold sub, SFsub; destruct (workloadIntensity uni); reflexivity).
  reflexivity.
Qed.

(** C3 (amended). [generatePaths] does not validate the profile. It ends
    with an error (a [TypeError]) exactly when [budgetLevel] is missing and
    at least one university passes the filter: the error arises while the
    first eligible university is scored, after filtering. Whenever
    [budgetLevel] is present, also with [mainFear] or [confidenceLevel]
    missing, the profile is not rejected and [min 3 n] paths are returned;
    a missing [mainFear] is scored with the lenient visa table, and a
    missing [confidenceLevel] makes the workload fit and the overall score
    [NaN]. *)
Theorem generatePaths_no_validation UNIVERSITIES SCHOLARSHIPS COUNTRIES clock
    (profile : ProfileObject) :
  (generatePaths UNIVERSITIES SCHOLARSHIPS COUNTRIES clock profile
   = Throw TypeError
   <-> budgetLevel profile = None
       /\ filterEligibleUniversities UNIVERSITIES profile <> [])
  /\ (budgetLevel profile <> None ->
      exists paths,
        generatePaths UNIVERSITIES SCHOLARSHIPS COUNTRIES clock profile
        = Normal paths
        /\ length paths
           = Nat.min 3 (length (filterEligibleUniversities UNIVERSITIES profile)))
  /\ (mainFear profile = None ->
      forall uni, calculateVisaFit profile uni
                  = lenientVisaFit (visaDifficulty uni))
  /\ (confidenceLevel profile = None ->
      forall uni fit,
        calculateFitScore profile uni = Normal fit ->
        bd_workload (breakdown fit) = NaN /\ overall fit = NaN).
Proof.
  split; [|split; [|split]].
  - split.
    + intros H. destruct (budgetLevel profile) as [b|] eqn:Eb.
      * destruct (@generatePaths_returns UNIVERSITIES SCHOLARSHIPS COUNTRIES
                    clock profile) as (paths & E & _); [congruence|].
        rewrite E in H. discriminate.
      * split; [reflexivity|]. intros Hn.
        rewrite generatePaths_empty in H by assumption. discriminate.
    + intros [Hb Hn]. now apply generatePaths_throw.
  - intros Hb.
    destruct (@generatePaths_returns UNIVERSITIES SCHOLARSHIPS COUNTRIES
                clock profile Hb) as (paths & E & L & _).
    exists paths. auto.
  - intros Hf uni. unfold calculateVisaFit. rewrite Hf.
    destruct (visaDifficulty uni); reflexivity.
  - intros Hc uni fit. unfold calculateFitScore.
    destruct (calculateCostFit profile uni) as [cost|e]; cbn [bind];
      [|discriminate].
    intros [= <-]. cbn [breakdown overall bd_workload].
    split; [now apply calculateWorkloadFit_missing|].
    rewrite weightedSum_NaN; [reflexivity|].
    now apply calculateWorkloadFit_missing.
Qed.

(* ================================================================= *)
(** ** The properties on the sample data *)

(** The sample list is what scoring and sorting the three sample
    universities for [sampleProfile] gives. *)
Example sampleScored_computed :
  mapCompletion (sort byOverallDesc)
    (mapM (fun uni =>
             fit <- calculateFitScore sampleProfile uni ;;
             Normal {| university := uni; sc_fitScore := fit |})
          [mit; tum; nus])
  = Normal sampleScored.
Proof. vm_compute. reflexivity. Qed.

Lemma sampleScored_sorted : sortedByScore sampleScored.
Proof.
  unfold sortedByScore, sampleScored.
  repeat constructor; vm_compute; reflexivity.
Qed.

(** The selection among the three sample candidates. *)
Lemma selectDiversePaths_diverse_witness :
  sortedByScore sampleScored
  /\ (3 <= length sampleScored)%nat
  /\ exists x y z,
       selectDiversePaths sampleScored 3 = [x; y; z]
       /\ ~ (countryOf x = countryOf y /\ countryOf y = countryOf z)
       /\ nth_error sampleScored 0 = Some x
       /\ nth_error sampleScored 1 = Some y
       /\ (forall s, In s sampleScored -> scoreGe x s)
       /\ (forall s, In s (skipn 1 sampleScored) -> scoreGe y s).
Proof.
  split; [exact sampleScored_sorted|]. split; [simpl; lia|].
  apply (@selectDiversePaths_diverse sampleScored).
  - exact sampleScored_sorted.
  - simpl; lia.
  - eexists. eexists.
    split; [left; reflexivity|]. split; [right; left; reflexivity|].
    vm_compute. discriminate.
Defined.

(** The thrifty profile against a catalog with a high-tuition entry. *)
Lemma low_budget_never_strictBudget_witness :
  sp_budgetLevel thriftyProfile = low
  /\ exists paths,
       generatePaths [tum; usUniversity] [] [] (clockAt 0) thriftyProfile
       = Normal paths
       /\ forall path, In path paths ->
            ~ In "you have strict budget constraints" (notForYouIf path).
Proof.
  split; [reflexivity|].
  apply (@low_budget_never_strictBudget [tum; usUniversity] [] [] (clockAt 0)
            thriftyProfile).
  reflexivity.
Defined.

(** The example of the specification: against a free, easy-visa German
    university of workload 8 and a high-tuition, hard-visa American one,
    the thrifty profile keeps the German entry only, whose cost fit is
    100, and gets exactly one path. *)
Example thriftyProfile_run :
  filterEligibleUniversities [tum; usUniversity] thriftyProfile = [tum]
  /\ option_map (fun fit => bd_cost (breakdown fit))
       (match calculateFitScore thriftyProfile tum with
        | Normal fit => Some fit
        | Throw _ => None
        end) = Some (of_Z 100)
  /\ mapCompletion (map path_id)
       (generatePaths [tum; usUniversity] [] [] (clockAt 0) thriftyProfile)
     = Normal ["path-uni-tum"].
Proof. vm_compute. auto. Qed.

(** C1, as stated, fails: the same profile and catalog, run at two
    different times, give two different outputs. *)
Lemma generatePaths_depends_on_clock :
  generatePaths [tum] [] [] (clockAt 0) sampleProfile
  <> generatePaths [tum] [] [] (clockAt 1) sampleProfile.
Proof.
  intros H.
  apply (f_equal (fun c => match c with
                           | Normal (path :: _) => map date (timeline path)
                           | _ => []
                           end)) in H.
  vm_compute in H. discriminate H.
Qed.

(** C3, as stated, fails: a profile without [mainFear] is not rejected; it
    is scored and a path is returned for it. *)
Lemma generatePaths_accepts_missing_fear :
  missingRequired noFearProfile
  /\ exists path,
       generatePaths [tum] [] [] (clockAt 0) noFearProfile = Normal [path]
       /\ details path = tum.
Proof.
  split; [right; left; reflexivity|].
  eexists. split; [vm_compute; reflexivity|reflexivity].
Qed.

(** Without [budgetLevel] the run throws as soon as there is something to
    score, and returns the empty list when there is not. *)
Example noBudgetProfile_run :
  generatePaths [tum] [] [] (clockAt 0) noBudgetProfile = Throw TypeError
  /\ generatePaths [] [] [] (clockAt 0) noBudgetProfile = Normal [].
Proof. split; reflexivity. Qed.

(** Without [confidenceLevel] the workload fit, and with it the overall
    score, is [NaN]. *)
Example missing_confidence_NaN :
  mapCompletion overall
    (calculateFitScore
       {| profile_id := "profile-5"; situation := study_abroad;
          currentCountry := "India"; targetCountry := None;
          profileStage := bachelors; budgetLevel := Some medium;
          mainFear := Some money; confidenceLevel := None;
          createdAt := None |} tum)
  = Normal NaN.
Proof. vm_compute. reflexivity. Qed.

(* ================================================================= *)
(** ** Further properties of the engine and of the code around it *)

(** *** The selector, pick by pick *)

Lemma find_ext {A} (f g : A -> bool) (l : list A) :
  (forall x, f x = g x) -> find f l = find g l.
Proof.
  intros H. induction l as [|x l IH]; simpl; [reflexivity|].
  rewrite H, IH. reflexivity.
Qed.

Lemma find_map_snd {A B} (f : B -> bool) (l : list (A * B)) :
  option_map snd (find (fun it => f (snd it)) l) = find f (map snd l).
Proof.
  induction l as [|x l IH]; simpl; [reflexivity|].
  destruct (f (snd x)); [reflexivity|exact IH].
Qed.

Lemma newCountry_spec (a b s : Scored) :
  negb (includes (setAdd (setAdd [] (countryOf a)) (countryOf b)) (countryOf s))
  = newCountry a b s.
Proof.
  unfold newCountry.
  destruct (includes _ (countryOf s)) eqn:E.
  - apply includes_spec in E. rewrite !setAdd_spec in E. simpl in E.
    destruct E as [[[]|E]|E]; rewrite E, String.eqb_refl; simpl;
      [reflexivity|symmetry; apply andb_false_r].
  - simpl. symmetry. apply andb_true_iff. split; apply negb_true_iff;
      apply String.eqb_neq; intros C;
      (assert (includes (setAdd (setAdd [] (countryOf a)) (countryOf b))
                        (countryOf s) = true) as T
        by (apply includes_spec; rewrite !setAdd_spec; auto));
      congruence.
Qed.

Lemma select_three (a b c : Scored) (rest : list Scored) :
  selectDiversePaths (a :: b :: c :: rest) 3 = [a; b; thirdPick a b c rest].
Proof.
  unfold selectDiversePaths, tagged, thirdPick.
  cbn [length seq combine].
  set (T := combine (seq 3 (length rest)) rest).
  assert (map snd T = rest) as HT.
  { unfold T. generalize 3%nat. induction rest as [|x l IH]; intros k; simpl;
      [reflexivity|]. now rewrite IH. }
  remember ((2%nat, c) :: T) as R eqn:ER.
  cbn [selectLoop length Nat.leb Nat.ltb orb push app].
  rewrite selectLoop_third by reflexivity.
  assert (find (newCountry a b) (c :: rest)
          = option_map snd (find (fun it => newCountry a b (snd it)) R)) as F.
  { rewrite find_map_snd, ER. simpl map. now rewrite HT. }
  rewrite F.
  rewrite (find_ext _ (fun it => newCountry a b (snd it)))
    by (intros it; apply (newCountry_spec a b (snd it))).
  subst R. unfold Ref in *.
  destruct (find _ ((2%nat, c) :: T)) as [x|] eqn:Fx.
  - cbn [fst push app option_map].
    rewrite fillLoop_saturated by (simpl; lia). reflexivity.
  - cbn [fst option_map].
    cbn [fillLoop length Nat.ltb Nat.leb andb filter includesRef existsb fst
         Nat.eqb orb negb push app map snd].
    reflexivity.
Qed.

Lemma thirdPick_In (a b c : Scored) (rest : list Scored) :
  In (thirdPick a b c rest) (c :: rest).
Proof.
  unfold thirdPick. destruct (find _ (c :: rest)) as [x|] eqn:F.
  - now apply find_some in F.
  - now left.
Qed.

(** X1. With count 3 and at least three candidates, the selector returns
    the first two candidates followed by a third pick taken from the rest of
    the list: the first candidate whose country differs from the countries
    of both of them, and, when every later candidate shares a country with
    one of the two, the third candidate of the list (the backfill). *)
Theorem selectDiversePaths_third_pick (a b c : Scored) (rest : list Scored) :
  selectDiversePaths (a :: b :: c :: rest) 3 = [a; b; thirdPick a b c rest]
  /\ In (thirdPick a b c rest) (c :: rest)
  /\ ((exists s, In s (c :: rest) /\ newCountry a b s = true) ->
      exists before after,
        (c :: rest = before ++ thirdPick a b c rest :: after)%list
        /\ newCountry a b (thirdPick a b c rest) = true
        /\ forall s, In s before -> newCountry a b s = false)
  /\ ((forall s, In s (c :: rest) -> newCountry a b s = false) ->
      thirdPick a b c rest = c).
Proof.
  split; [apply select_three|]. split; [apply thirdPick_In|]. split.
  - intros (s & Hs & Hn). unfold thirdPick.
    destruct (find (newCountry a b) (c :: rest)) as [x|] eqn:F.
    + clear s Hs Hn. revert F. generalize (c :: rest) as l.
      induction l as [|y l IH]; simpl; [discriminate|].
      destruct (newCountry a b y) eqn:Ey.
      * intros [= <-]. exists [], l. repeat split; auto. intros s [].
      * intros F. destruct (IH F) as (before & after & E & Hx & Hb).
        exists (y :: before), after. rewrite E. repeat split; auto.
        intros s [<-|Hs]; auto.
    + pose proof (find_none _ _ F s Hs). congruence.
  - intros H. unfold thirdPick.
    destruct (find (newCountry a b) (c :: rest)) as [x|] eqn:F; [|reflexivity].
    apply find_some in F as [Hx Hn]. rewrite (H x Hx) in Hn. discriminate.
Qed.

(** *** The selector for any count *)

Lemma selectLoop_extends count items :
  forall sel cs,
    exists ext, fst (selectLoop count items sel cs) = (sel ++ ext)%list.
Proof.
  induction items as [|item rest IH]; intros sel cs; simpl.
  - exists []. now rewrite app_nil_r.
  - destruct (count <=? length sel)%nat; simpl.
    + exists []. now rewrite app_nil_r.
    + destruct ((length sel <? 2)%nat || _).
      * destruct (IH (push sel item)
                    (setAdd cs (uni_country (university (snd item)))))
          as (ext & E).
        exists (item :: ext). rewrite E. unfold push.
        now rewrite <- app_assoc.
      * apply IH.
Qed.

Lemma fillLoop_extends count objs :
  forall fuel sel,
    exists ext, fillLoop fuel count objs sel = (sel ++ ext)%list.
Proof.
  induction fuel as [|fuel IH]; intros sel; simpl.
  - exists []. now rewrite app_nil_r.
  - destruct ((length sel <? count)%nat && (length sel <? length objs)%nat).
    + destruct (filter _ objs) as [|r rest].
      * exists []. now rewrite app_nil_r.
      * destruct (IH (push sel r)) as (ext & E).
        exists (r :: ext). rewrite E. unfold push. now rewrite <- app_assoc.
    + exists []. now rewrite app_nil_r.
Qed.

Lemma select_first_two (scored : list Scored) (count : nat) :
  firstn 2 (selectDiversePaths scored count)
  = firstn (Nat.min 2 count) scored.
Proof.
  destruct count as [|[|count]].
  - pose proof (selectDiversePaths_length scored 0) as L.
    destruct (selectDiversePaths scored 0); [reflexivity|discriminate].
  - destruct scored as [|a rest]; [reflexivity|].
    unfold selectDiversePaths, tagged. cbn [length seq combine].
    cbn [selectLoop length Nat.leb Nat.ltb orb].
    rewrite selectLoop_full by (rewrite length_push; simpl; lia).
    cbn [fst]. rewrite fillLoop_saturated by (rewrite length_push; simpl; lia).
    reflexivity.
  - destruct scored as [|a [|b rest]]; [reflexivity|reflexivity|].
    unfold selectDiversePaths, tagged. cbn [length seq combine].
    remember (combine (seq 2 (length rest)) rest) as R.
    cbn [selectLoop length Nat.leb Nat.ltb orb push app].
    match goal with
    | |- context [selectLoop ?n R ?sel ?cs] =>
        destruct (selectLoop_extends n R sel cs) as (ext & E)
    end.
    rewrite E.
    match goal with
    | |- context [fillLoop ?f ?n ?o ?sel] =>
        destruct (fillLoop_extends n o f sel) as (ext' & E')
    end.
    rewrite E'. rewrite !map_app. reflexivity.
Qed.

(** X2. For every list and every count, the selector returns
    [min count (length scored)] entries, which are distinct entries of the
    list (the list is a rearrangement of the selection plus a rest); the
    first two selected are the first [min 2 count] of the list; with a count
    of at most 2, or with at most two candidates, the selection is the
    first [count] candidates: the country rule only ever decides the third
    pick onwards. *)
Theorem selectDiversePaths_any_count (scored : list Scored) (count : nat) :
  length (selectDiversePaths scored count) = Nat.min count (length scored)
  /\ (exists rest, Permutation scored (selectDiversePaths scored count ++ rest))
  /\ firstn 2 (selectDiversePaths scored count)
     = firstn (Nat.min 2 count) scored
  /\ ((count <= 2)%nat \/ (length scored <= 2)%nat ->
      selectDiversePaths scored count = firstn count scored).
Proof.
  pose proof (selectDiversePaths_length scored count) as L.
  pose proof (select_first_two scored count) as F.
  split; [exact L|]. split; [apply selectDiversePaths_sub|].
  split; [exact F|].
  intros H.
  assert (length (selectDiversePaths scored count) <= 2)%nat as L2 by lia.
  rewrite <- (firstn_all2 (n := 2) (selectDiversePaths scored count)) by exact L2.
  rewrite F. destruct H as [H|H].
  - now rewrite Nat.min_r.
  - destruct (Nat.le_ge_cases count 2) as [C|C].
    + now rewrite Nat.min_r.
    + rewrite Nat.min_l by assumption.
      rewrite !firstn_all2; auto; lia.
Qed.

(** *** The order of the selection *)

Lemma select_three_sorted (scored : list Scored) :
  sortedByScore scored -> sortedByScore (selectDiversePaths scored 3).
Proof.
  unfold sortedByScore. intros H.
  destruct scored as [|a [|b [|c rest]]]; try exact H.
  rewrite select_three.
  inversion H as [|? ? H1 Ha]; subst.
  inversion H1 as [|? ? H2 Hb]; subst.
  rewrite Forall_forall in Ha, Hb.
  pose proof (thirdPick_In a b c rest) as Hz.
  constructor.
  - constructor; [repeat constructor|].
    constructor; [now apply Hb|constructor].
  - constructor; [apply Ha; now left|].
    constructor; [apply Ha; now right|constructor].
Qed.

Lemma subseq_refl {A} (l : list A) : subseq l l.
Proof. induction l; constructor; auto. Qed.

Lemma subseq_nil_l {A} (l : list A) : subseq [] l.
Proof. induction l; constructor; auto. Qed.

Lemma subseq_middle {A} (x : A) (before after : list A) :
  subseq [x] (before ++ x :: after).
Proof.
  induction before as [|y before IH]; simpl.
  - constructor. apply subseq_nil_l.
  - constructor. exact IH.
Qed.

Lemma thirdPick_split (a b c : Scored) (rest : list Scored) :
  exists before after,
    (c :: rest = before ++ thirdPick a b c rest :: after)%list.
Proof.
  destruct (in_split _ _ (thirdPick_In a b c rest)) as (l1 & l2 & E).
  exists l1, l2. exact E.
Qed.

(** X3. The selection with count 3 keeps the order of the candidates: it
    is obtained from the list by dropping entries. On a list sorted by
    descending score the selection is therefore sorted by descending score
    as well, the backfilled entry included. *)
Theorem selectDiversePaths_keeps_order (scored : list Scored) :
  subseq (selectDiversePaths scored 3) scored
  /\ (sortedByScore scored -> sortedByScore (selectDiversePaths scored 3)).
Proof.
  split; [|apply select_three_sorted].
  destruct scored as [|a [|b [|c rest]]]; try apply subseq_refl.
  rewrite select_three.
  destruct (thirdPick_split a b c rest) as (before & after & E).
  rewrite E. constructor. constructor. apply subseq_middle.
Qed.

(** *** The ranking of the paths *)

Lemma percentScore_sorted_scores (l : list Scored) :
  Forall percentScore l -> sortedByScore l ->
  exists scores,
    map (fun s => to_Z (overall (sc_fitScore s))) l = map Some scores
    /\ Forall percent scores
    /\ StronglySorted Z.ge scores.
Proof.
  unfold sortedByScore.
  induction l as [|a l IH]; intros Hp Hs.
  - exists []. repeat split; constructor.
  - inversion Hp as [|? ? (oa & Pa & Ea) Hp']; subst.
    inversion Hs as [|? ? Hs' Ha]; subst.
    destruct (IH Hp' Hs') as (scores & M & P & S).
    exists (oa :: scores). simpl. rewrite M, Ea, (to_Z_of_Z_percent Pa).
    split; [reflexivity|]. split; [now constructor|].
    constructor; [assumption|].
    rewrite Forall_forall in *. intros o Ho.
    assert (In (Some o) (map Some scores)) as Ho' by now apply in_map.
    rewrite <- M in Ho'. apply in_map_iff in Ho' as (s & Es & Hs0).
    destruct (Hp' s Hs0) as (os & Ps & Eos).
    rewrite Eos, (to_Z_of_Z_percent Ps) in Es. injection Es as ->.
    apply Z.le_ge. apply (scoreGe_percent a s Ea Eos Pa Ps). now apply Ha.
Qed.

Lemma buildPaths_scores SCHOLARSHIPS COUNTRIES clock profile (items : list Scored) :
  forall k,
    map pathScore (buildPaths SCHOLARSHIPS COUNTRIES clock k profile items)
    = map (fun s => to_Z (overall (sc_fitScore s))) items.
Proof.
  induction items as [|item rest IH]; intros k; simpl; [reflexivity|].
  now rewrite IH.
Qed.

(** The scored list of a run on a catalog within scale. *)
Lemma generatePaths_scored UNIVERSITIES SCHOLARSHIPS COUNTRIES clock
    (p : StudentProfile) :
  Forall inScale UNIVERSITIES ->
  exists scored,
    map university scored = filterEligibleUniversities UNIVERSITIES p
    /\ Forall percentScore scored
    /\ Forall (fun s => calculateFitScore p (university s)
                        = Normal (sc_fitScore s)) scored
    /\ generatePaths UNIVERSITIES SCHOLARSHIPS COUNTRIES clock p
       = Normal (buildPaths SCHOLARSHIPS COUNTRIES clock 0 p
                   (selectDiversePaths (sort byOverallDesc scored) 3)).
Proof.
  intros Hscale.
  destruct (@generatePaths_normal UNIVERSITIES SCHOLARSHIPS COUNTRIES clock
              p (@asObject_budget p)) as (scored & M & F & E).
  exists scored. split; [exact M|]. split; [|split; [exact F|exact E]].
  rewrite Forall_forall in *. intros s Hs.
  assert (inScale (university s)) as Hu.
  { apply Hscale.
    assert (In (university s) (filterEligibleUniversities UNIVERSITIES p)) as H
      by (rewrite <- M; now apply in_map).
    unfold filterEligibleUniversities in H. now apply filter_In in H. }
  destruct (calculateFitScore_shape p Hu)
    as (t & w & l & c & v & k & (Ht & Hw & Hl & Hc & Hv & Hk) & E').
  rewrite (F s Hs) in E'. injection E' as E'.
  destruct (overall_rounds Ht Hw Hl Hc Hv Hk) as (A & Po).
  eexists. split; [exact Po|]. rewrite E'. simpl. exact A.
Qed.

(** X4. For a well-typed profile and a catalog whose workload and support
    scales are integers in 1..10, [generatePaths] returns paths whose
    overall scores are integers within 0..100, in descending order: the
    first path is the best match. *)
Theorem generatePaths_ranked UNIVERSITIES SCHOLARSHIPS COUNTRIES clock
    (p : StudentProfile) :
  Forall inScale UNIVERSITIES ->
  exists paths scores,
    generatePaths UNIVERSITIES SCHOLARSHIPS COUNTRIES clock p = Normal paths
    /\ map pathScore paths = map Some scores
    /\ Forall percent scores
    /\ StronglySorted Z.ge scores.
Proof.
  intros Hscale.
  destruct (@generatePaths_scored UNIVERSITIES SCHOLARSHIPS COUNTRIES clock p
              Hscale) as (scored & M & P & _ & E).
  destruct (@percentScore_sorted_scores
              (selectDiversePaths (sort byOverallDesc scored) 3))
    as (scores & Ms & Ps & Ss).
  - rewrite Forall_forall in *. intros s Hs. apply P.
    apply selectDiversePaths_In in Hs. now apply sort_In in Hs.
  - apply select_three_sorted. now apply sort_sorted.
  - eexists. exists scores. split; [exact E|].
    rewrite buildPaths_scores. auto.
Qed.

(** The head of the sorted list: the first entry, in the order of the
    input, among those of the highest score. *)
Lemma sort_head (l : list Scored) :
  Forall percentScore l -> l <> [] ->
  exists pre x post tl,
    l = (pre ++ x :: post)%list
    /\ sort byOverallDesc l = x :: tl
    /\ (forall s, In s pre -> ~ scoreGe s x)
    /\ (forall s, In s post -> scoreGe x s).
Proof.
  induction l as [|a l IH]; intros Hp Hne; [contradiction|].
  inversion Hp as [|? ? (oa & Pa & Ea) Hp']; subst.
  destruct l as [|b l'].
  - exists [], a, [], []. repeat split; auto; intros s [].
  - assert (b :: l' <> []) as Hne' by discriminate.
    destruct (IH Hp' Hne') as (pre & x & post & tl & El & Es & Hpre & Hpost).
    assert (In x (b :: l')) as Hx by (rewrite El; apply in_elt).
    rewrite Forall_forall in Hp'.
    destruct (Hp' x Hx) as (ox & Px & Ex).
    change (sort byOverallDesc (a :: b :: l'))
      with (insert byOverallDesc a (sort byOverallDesc (b :: l'))).
    rewrite Es. simpl insert.
    destruct (gtb (byOverallDesc a x) (of_Z 0)) eqn:G.
    + exists (a :: pre), x, post, (insert byOverallDesc a tl).
      rewrite El. repeat split; auto.
      intros s [<-|Hs]; [|now apply Hpre].
      unfold scoreGe. congruence.
    + exists [], a, (b :: l'), (x :: tl).
      split; [reflexivity|]. split; [reflexivity|]. split; [intros s []|].
      intros s Hs. destruct (Hp' s Hs) as (os & Ps & Eos).
      apply (scoreGe_percent a s Ea Eos Pa Ps).
      assert (ox <= oa) by (apply (scoreGe_percent a x Ea Ex Pa Px); exact G).
      assert (os <= ox).
      { rewrite El in Hs. apply in_app_iff in Hs as [Hs|[<-|Hs]].
        - destruct (Z.le_gt_cases os ox) as [L|L]; [exact L|].
          exfalso. apply (Hpre s Hs).
          apply (scoreGe_percent s x Eos Ex Ps Px). lia.
        - rewrite Ex in Eos.
          assert (to_Z (of_Z ox) = to_Z (of_Z os)) as T by now rewrite Eos.
          rewrite (to_Z_of_Z_percent Px), (to_Z_of_Z_percent Ps) in T.
          injection T as ->. lia.
        - apply (scoreGe_percent x s Ex Eos Px Ps). now apply Hpost. }
      lia.
Qed.

Lemma overallOf_scored (p : ProfileObject) (s : Scored) (o : Z) :
  calculateFitScore p (university s) = Normal (sc_fitScore s) ->
  percent o -> overall (sc_fitScore s) = of_Z o ->
  overallOf p (university s) = Some o.
Proof.
  intros E P Eo. unfold overallOf. rewrite E, Eo. now apply to_Z_of_Z_percent.
Qed.

(** X5. For a well-typed profile, a catalog with integer scales in 1..10
    and at least one eligible university, the first path of
    [generatePaths] is built on an eligible university of highest overall
    score, and among those of highest score on the first in catalog order
    (the sort is stable): every eligible university before it scores
    strictly less, every one after it at most as much. *)
Theorem generatePaths_best_first UNIVERSITIES SCHOLARSHIPS COUNTRIES clock
    (p : StudentProfile) :
  Forall inScale UNIVERSITIES ->
  filterEligibleUniversities UNIVERSITIES p <> [] ->
  exists pre u post path rest o,
    filterEligibleUniversities UNIVERSITIES p = (pre ++ u :: post)%list
    /\ generatePaths UNIVERSITIES SCHOLARSHIPS COUNTRIES clock p
       = Normal (path :: rest)
    /\ details path = u
    /\ pathScore path = Some o
    /\ overallOf p u = Some o
    /\ (forall v, In v pre -> exists ov, overallOf p v = Some ov /\ ov < o)
    /\ (forall v, In v post -> exists ov, overallOf p v = Some ov /\ ov <= o).
Proof.
  intros Hscale Hne.
  destruct (@generatePaths_scored UNIVERSITIES SCHOLARSHIPS COUNTRIES clock p
              Hscale) as (scored & M & P & F & E).
  assert (scored <> []) as Hs by (intros ->; apply Hne; now rewrite <- M).
  destruct (sort_head P Hs) as (pre & x & post & tl & El & Es & Hpre & Hpost).
  rewrite Forall_forall in P, F.
  assert (forall s, In s scored ->
            exists os, percent os /\ overall (sc_fitScore s) = of_Z os
                       /\ overallOf p (university s) = Some os) as Score.
  { intros s Hin. destruct (P s Hin) as (os & Ps & Eos).
    exists os. split; [exact Ps|]. split; [exact Eos|].
    apply overallOf_scored; auto. }
  assert (In x scored) as Hx by (rewrite El; apply in_elt).
  destruct (Score x Hx) as (o & Po & Eo & Oo).
  pose proof (select_first_two (sort byOverallDesc scored) 3) as F2.
  rewrite Es in F2.
  destruct (selectDiversePaths (x :: tl) 3) as [|y ys] eqn:Sel;
    [destruct tl; discriminate F2|].
  assert (y = x) as -> by (destruct tl; simpl in F2; congruence).
  rewrite Es, Sel in E. simpl in E.
  exists (map university pre), (university x), (map university post).
  eexists. eexists. exists o.
  split; [rewrite <- M, El, map_app; reflexivity|].
  split; [exact E|]. split; [reflexivity|].
  split; [unfold pathScore; simpl; rewrite Eo; now apply to_Z_of_Z_percent|].
  split; [exact Oo|].
  split.
  - intros v Hv. apply in_map_iff in Hv as (s & <- & Hin).
    assert (In s scored) as Hin' by (rewrite El; apply in_app_iff; now left).
    destruct (Score s Hin') as (os & Ps & Eos & Oos).
    exists os. split; [exact Oos|].
    destruct (Z.lt_ge_cases os o) as [L|L]; [exact L|].
    exfalso. apply (Hpre s Hin).
    apply (scoreGe_percent s x Eos Eo Ps Po). lia.
  - intros v Hv. apply in_map_iff in Hv as (s & <- & Hin).
    assert (In s scored) as Hin'
      by (rewrite El; apply in_app_iff; right; now right).
    destruct (Score s Hin') as (os & Ps & Eos & Oos).
    exists os. split; [exact Oos|].
    apply (scoreGe_percent x s Eo Eos Po Ps). now apply Hpost.
Qed.

(** *** What a path is made of *)

(** Every path of a run is assembled from one scored eligible university:
    its score is the one computed for that university. *)
Lemma paths_consistent UNIVERSITIES SCHOLARSHIPS COUNTRIES clock
    (p : StudentProfile) :
  exists paths,
    generatePaths UNIVERSITIES SCHOLARSHIPS COUNTRIES clock p = Normal paths
    /\ forall path, In path paths ->
         In (details path) (filterEligibleUniversities UNIVERSITIES p)
         /\ calculateFitScore p (details path) = Normal (fitScore path)
         /\ exists now,
              path = buildPath SCHOLARSHIPS COUNTRIES now p (details path)
                       (fitScore path).
Proof.
  destruct (@generatePaths_normal UNIVERSITIES SCHOLARSHIPS COUNTRIES clock
              p (@asObject_budget p)) as (scored & M & F & E).
  eexists. split; [exact E|].
  intros path Hpath.
  destruct (@buildPaths_In _ _ _ _ _ _ _ Hpath) as (item & now & Hitem & ->).
  apply selectDiversePaths_In in Hitem. apply sort_In in Hitem.
  rewrite Forall_forall in F.
  cbn [details fitScore buildPath].
  split; [rewrite <- M; now apply in_map|].
  split; [now apply F|].
  exists now. reflexivity.
Qed.

(** X12. Every path of [generatePaths] is assembled from one university
    of the catalog and from nothing else: its fit score is the score of that
    university for the profile, its risks, exclusions and scholarships are
    those computed for that university, its id is "path-" followed by the
    university's id, its name "Study at " followed by the university's name,
    its type is "university" and its timeline has three events. *)
Theorem generatePaths_assembled UNIVERSITIES SCHOLARSHIPS COUNTRIES clock
    (p : StudentProfile) :
  exists paths,
    generatePaths UNIVERSITIES SCHOLARSHIPS COUNTRIES clock p = Normal paths
    /\ forall path, In path paths ->
         In (details path) UNIVERSITIES
         /\ calculateFitScore p (details path) = Normal (fitScore path)
         /\ risks path = assessRisks COUNTRIES p (details path)
         /\ notForYouIf path = generateExclusions p (details path)
         /\ scholarships path
            = Some (findMatchingScholarships SCHOLARSHIPS p (details path))
         /\ path_id path = "path-" ++ uni_id (details path)
         /\ path_name path = "Study at " ++ uni_name (details path)
         /\ path_type path = path_university
         /\ length (timeline path) = 3%nat.
Proof.
  destruct (paths_consistent UNIVERSITIES SCHOLARSHIPS COUNTRIES clock p)
    as (paths & E & H).
  exists paths. split; [exact E|].
  intros path Hpath. destruct (H path Hpath) as (Hd & Hf & now & Ep).
  unfold filterEligibleUniversities in Hd. apply filter_In in Hd as [Hd _].
  split; [exact Hd|]. split; [exact Hf|].
  rewrite Ep. cbn [risks notForYouIf scholarships path_id path_name path_type
                   timeline details buildPath].
  repeat split; reflexivity.
Qed.

(** X6. For a profile whose main fear is the visa, no path of
    [generatePaths] carries a visa risk of severity high: the filter has
    removed the universities with a hard visa, so the likelihood of the
    visa risk is at most 30 and the visa fit of the breakdown is 100 or
    60, never 20. *)
Theorem visa_fear_never_high_visa_risk UNIVERSITIES SCHOLARSHIPS COUNTRIES
    clock (p : StudentProfile) :
  sp_mainFear p = visa ->
  exists paths,
    generatePaths UNIVERSITIES SCHOLARSHIPS COUNTRIES clock p = Normal paths
    /\ forall path, In path paths ->
         severity (risk_visa (risks path)) <> high
         /\ likelihood (risk_visa (risks path)) <= 30
         /\ (bd_visa (breakdown (fitScore path)) = of_Z 100
             \/ bd_visa (breakdown (fitScore path)) = of_Z 60).
Proof.
  intros Hfear.
  destruct (paths_consistent UNIVERSITIES SCHOLARSHIPS COUNTRIES clock p)
    as (paths & E & H).
  exists paths. split; [exact E|].
  intros path Hpath. destruct (H path Hpath) as (Hd & Hf & now & Ep).
  unfold filterEligibleUniversities in Hd. apply filter_In in Hd as [_ Hd].
  apply eligible_spec in Hd. destruct Hd as (_ & _ & Hv & _).
  assert (visaDifficulty (details path) <> hard) as Hnh by tauto.
  assert (bd_visa (breakdown (fitScore path))
          = calculateVisaFit p (details path)) as Ev.
  { unfold calculateFitScore in Hf.
    destruct (calculateCostFit p (details path)); cbn [bind] in Hf;
      [|discriminate].
    injection Hf as <-. reflexivity. }
  pose proof (f_equal risks Ep) as Er. cbn [risks buildPath] in Er.
  rewrite Ev, Er.
  cbn [risk_visa assessRisks assessVisaRisk severity likelihood].
  unfold calculateVisaFit. cbn [mainFear asObject]. rewrite Hfear.
  destruct (visaDifficulty (details path)); [| |contradiction];
    cbn; (split; [discriminate|]); (split; [lia|]); auto.
Qed.

(** *** Exclusions *)

Lemma alternativesInclude_false_iff (u : University) :
  negb (String.eqb (primary (languageRequirements u)) "English")
  && negb (alternativesInclude u "English") = true
  <-> noEnglish u.
Proof.
  unfold noEnglish. rewrite andb_true_iff, !negb_true_iff, String.eqb_neq.
  reflexivity.
Qed.

Lemma generateExclusions_members (profile : ProfileObject) (u : University) :
  (In relaxedEnvironment (generateExclusions profile u)
   <-> geb (workloadIntensity u) (of_Z 9) = true)
  /\ (In strictBudget (generateExclusions profile u)
      <-> tier (tuition u) = tier_high)
  /\ (In (languageExclusion u) (generateExclusions profile u) <-> noEnglish u)
  /\ (In saferOption (generateExclusions profile u) <-> acceptanceRate u < 10)
  /\ (forall s, In s (generateExclusions profile u) ->
        s = relaxedEnvironment \/ s = strictBudget
        \/ s = languageExclusion u \/ s = saferOption)
  /\ (length (generateExclusions profile u) <= 4)%nat.
Proof.
  rewrite <- alternativesInclude_false_iff.
  rewrite <- TuitionTier_eqb_eq, <- Z.ltb_lt.
  unfold generateExclusions, relaxedEnvironment, strictBudget, saferOption,
    languageExclusion, push.
  destruct (geb (workloadIntensity u) (of_Z 9)),
           (TuitionTier_eqb (tier (tuition u)) tier_high),
           (negb (String.eqb (primary (languageRequirements u)) "English")
            && negb (alternativesInclude u "English")),
           (acceptanceRate u <? 10);
    cbn [app In length];
    repeat split;
    try (cbn; lia);
    try (intros H;
         match type of H with
         | false = true => discriminate H
         | true = true => cbn; auto 6
         | _ \/ _ =>
             cbn in H;
             repeat (destruct H as [H|H];
                     [first [discriminate H | reflexivity]|]);
             contradiction
         | False => contradiction
         end);
    try (intros s H; cbn in H;
         repeat (destruct H as [<-|H]; [auto 6|]); contradiction).
Qed.

(** X9. [generateExclusions] lists "you prefer a relaxed academic
    environment" exactly when the workload intensity is at least 9, "you
    have strict budget constraints" exactly when the tuition tier is high,
    the sentence naming the primary language exactly when English is
    neither the primary language nor an alternative, and "you need a safer
    acceptance option" exactly when the acceptance rate is below 10; it
    lists at most four sentences, none exactly when none of the four
    conditions holds, and the language sentence exactly when the language
    fit is 60. The profile plays no part. *)
Theorem generateExclusions_spec (profile : ProfileObject) (u : University) :
  (In "you prefer a relaxed academic environment"
      (generateExclusions profile u)
   <-> geb (workloadIntensity u) (of_Z 9) = true)
  /\ (In "you have strict budget constraints" (generateExclusions profile u)
      <-> tier (tuition u) = tier_high)
  /\ (In (languageExclusion u) (generateExclusions profile u) <-> noEnglish u)
  /\ (In "you need a safer acceptance option" (generateExclusions profile u)
      <-> acceptanceRate u < 10)
  /\ (length (generateExclusions profile u) <= 4)%nat
  /\ (generateExclusions profile u = []
      <-> geb (workloadIntensity u) (of_Z 9) = false
          /\ tier (tuition u) <> tier_high
          /\ ~ noEnglish u /\ 10 <= acceptanceRate u)
  /\ (In (languageExclusion u) (generateExclusions profile u)
      <-> calculateLanguageFit profile u = of_Z 60).
Proof.
  destruct (generateExclusions_members profile u)
    as (H1 & H2 & H3 & H4 & H5 & H6).
  split; [exact H1|]. split; [exact H2|]. split; [exact H3|].
  split; [exact H4|]. split; [exact H6|]. split.
  - split.
    + intros E. rewrite E in H1, H2, H3, H4. simpl in *.
      split; [apply not_true_is_false; tauto|].
      repeat split; try tauto; lia.
    + intros (A & B & C & D).
      destruct (generateExclusions profile u) as [|s l] eqn:E; [reflexivity|].
      exfalso. destruct (H5 s (or_introl eq_refl)) as [-> | [-> | [-> | ->]]].
      * assert (geb (workloadIntensity u) (of_Z 9) = true) as T
          by (apply H1; now left).
        rewrite T in A. discriminate A.
      * apply B, H2. now left.
      * apply C, H3. now left.
      * assert (acceptanceRate u < 10) by (apply H4; now left). lia.
  - rewrite H3. unfold noEnglish, calculateLanguageFit.
    destruct (String.eqb (primary (languageRequirements u)) "English") eqn:E1.
    + apply String.eqb_eq in E1. split; [tauto|].
      intros C. vm_compute in C. discriminate C.
    + apply String.eqb_neq in E1.
      destruct (alternativesInclude u "English").
      * split; [intros [_ C]; discriminate C|].
        intros C. vm_compute in C. discriminate C.
      * split; auto.
Qed.

Lemma span_In (lo hi z : Z) : lo <= z <= hi -> In z (span lo hi).
Proof.
  intros H. unfold span. apply in_map_iff. exists (Z.to_nat (z - lo)).
  split; [lia|]. apply in_seq. lia.
Qed.

(** On integers the comparison of the filter is the one of the integers. *)
Lemma geb_of_Z (z : Z) :
  -1000 <= z <= 1000 -> geb (of_Z z) (of_Z 9) = (9 <=? z).
Proof.
  intros H.
  assert (forallb (fun k => Bool.eqb (geb (of_Z k) (of_Z 9)) (9 <=? k))
            (span (-1000) 1000) = true) as A by (vm_compute; reflexivity).
  rewrite forallb_forall in A. specialize (A z (span_In H)).
  now apply Bool.eqb_prop in A.
Qed.

(** X7. For a profile whose confidence level is low, no path of
    [generatePaths] is on a university whose workload intensity is 9 or
    more (an integer workload is at most 8, a workload of 8.4 can occur),
    and no path lists "you prefer a relaxed academic environment" in
    [notForYouIf]. *)
Theorem low_confidence_never_intense UNIVERSITIES SCHOLARSHIPS COUNTRIES
    clock (p : StudentProfile) :
  sp_confidenceLevel p = low ->
  exists paths,
    generatePaths UNIVERSITIES SCHOLARSHIPS COUNTRIES clock p = Normal paths
    /\ forall path, In path paths ->
         geb (workloadIntensity (details path)) (of_Z 9) = false
         /\ (forall z, holds (workloadIntensity (details path)) z ->
                       -1000 <= z <= 1000 -> z <= 8)
         /\ ~ In "you prefer a relaxed academic environment"
                (notForYouIf path).
Proof.
  intros Hlow.
  destruct (paths_consistent UNIVERSITIES SCHOLARSHIPS COUNTRIES clock p)
    as (paths & E & H).
  exists paths. split; [exact E|].
  intros path Hpath. destruct (H path Hpath) as (Hd & _ & now & Ep).
  unfold filterEligibleUniversities in Hd. apply filter_In in Hd as [_ Hd].
  apply eligible_spec in Hd. destruct Hd as (_ & _ & _ & Hw).
  assert (geb (workloadIntensity (details path)) (of_Z 9) = false) as W
    by (apply not_true_is_false; intros C; apply Hw; auto).
  split; [exact W|]. split.
  - intros z Hz Rz. unfold holds in Hz. rewrite Hz, geb_of_Z in W by exact Rz.
    apply Z.leb_gt in W. lia.
  - pose proof (f_equal notForYouIf Ep) as En.
    cbn [notForYouIf buildPath] in En.
    rewrite En. intros C.
    destruct (generateExclusions_members p (details path)) as (H1 & _).
    apply H1 in C. rewrite W in C. discriminate C.
Qed.

(** *** Academic risk and workload fit *)

Lemma Level_cases (c : Level) : In c [low; medium; high].
Proof. destruct c; simpl; auto. Qed.

Lemma overloadAt_scale (c : ConfidenceLevel) (w : Z) :
  1 <= w <= 10 -> overloadAt c w = (capacityOf c <? w).
Proof.
  intros H.
  assert (forallb (fun c => forallb (fun w =>
            Bool.eqb (overloadAt c w) (capacityOf c <? w)) (span 1 10))
            [low; medium; high] = true) as A by (vm_compute; reflexivity).
  rewrite forallb_forall in A. specialize (A c (Level_cases c)).
  rewrite forallb_forall in A. specialize (A w (span_In H)).
  now apply Bool.eqb_prop in A.
Qed.

Lemma workloadFitAt_closed (c : ConfidenceLevel) (w : Z) :
  -100 <= w <= 100 ->
  workloadFitAt c w = of_Z (workloadSpec (toleratedWorkload c) w).
Proof.
  intros H.
  assert (forallb (fun c => forallb (fun w =>
            same (workloadFitAt c w) (of_Z (workloadSpec (toleratedWorkload c) w)))
            (span (-100) 100)) [low; medium; high] = true) as A
    by (vm_compute; reflexivity).
  rewrite forallb_forall in A. specialize (A c (Level_cases c)).
  rewrite forallb_forall in A. specialize (A w (span_In H)).
  now apply same_eq.
Qed.

(** At an integer workload the two functions are those of the
    vocabulary. *)
Lemma calculateWorkloadFit_at (p : StudentProfile) (u : University) (w : Z) :
  holds (workloadIntensity u) w ->
  calculateWorkloadFit p u = workloadFitAt (sp_confidenceLevel p) w.
Proof.
  unfold holds. intros Hz. unfold calculateWorkloadFit, workloadFitAt.
  cbv zeta. rewrite Hz. reflexivity.
Qed.

Lemma assessAcademicRisk_at (p : StudentProfile) (u : University) (w : Z) :
  holds (workloadIntensity u) w ->
  severity (assessAcademicRisk p u)
  = (if overloadAt (sp_confidenceLevel p) w then high else low)
  /\ likelihood (assessAcademicRisk p u)
     = (if overloadAt (sp_confidenceLevel p) w then 60 else 20).
Proof.
  unfold holds. intros Hz. unfold assessAcademicRisk, overloadAt.
  cbn [severity likelihood]. rewrite Hz. split; reflexivity.
Qed.

(** X8. For an integer workload intensity in 1..10 the academic risk is of
    severity high with likelihood 60 exactly when the workload exceeds the
    capacity of the confidence level (3 for low, 7 for medium, 10 for
    high), and of severity low with likelihood 20 otherwise; severity
    medium never occurs and a student of high confidence never gets a high
    academic risk. The capacity of low confidence (3) is not the workload
    the workload fit takes it to sustain (5): at workload 4 or 5 a student
    of low confidence gets a high academic risk together with a workload
    fit of at least 95. *)
Theorem assessAcademicRisk_spec (p : StudentProfile) (u : University)
    (w : Z) :
  holds (workloadIntensity u) w ->
  1 <= w <= 10 ->
  (severity (assessAcademicRisk p u) = high
   <-> capacityOf (sp_confidenceLevel p) < w)
  /\ (severity (assessAcademicRisk p u) = low
      <-> w <= capacityOf (sp_confidenceLevel p))
  /\ (likelihood (assessAcademicRisk p u) = 60
      <-> capacityOf (sp_confidenceLevel p) < w)
  /\ (likelihood (assessAcademicRisk p u) = 20
      <-> w <= capacityOf (sp_confidenceLevel p))
  /\ (sp_confidenceLevel p = high -> severity (assessAcademicRisk p u) = low)
  /\ (sp_confidenceLevel p = low -> 4 <= w <= 5 ->
      severity (assessAcademicRisk p u) = high
      /\ exists f, calculateWorkloadFit p u = of_Z f /\ 95 <= f).
Proof.
  intros Hz Hw.
  pose proof (overloadAt_scale (sp_confidenceLevel p) Hw) as O.
  destruct (@assessAcademicRisk_at p u w Hz) as (-> & ->).
  rewrite O.
  destruct (capacityOf (sp_confidenceLevel p) <? w) eqn:E.
  - apply Z.ltb_lt in E.
    split; [tauto|]. split; [split; [discriminate|lia]|].
    split; [tauto|]. split; [split; [discriminate|lia]|].
    split; [intros Hc; rewrite Hc in E; simpl in E; lia|].
    intros Hc Hr. split; [reflexivity|].
    rewrite (@calculateWorkloadFit_at p u w Hz).
    rewrite workloadFitAt_closed by lia. rewrite Hc.
    eexists. split; [reflexivity|]. unfold workloadSpec.
    cbn [toleratedWorkload].
    destruct (w <=? 5) eqn:L; lia.
  - apply Z.ltb_ge in E.
    split; [split; [discriminate|lia]|]. split; [tauto|].
    split; [split; [discriminate|lia]|]. split; [tauto|].
    split; [reflexivity|].
    intros Hc Hr. rewrite Hc in E. simpl in E. lia.
Qed.

(** X15. For a well-typed profile and an integer workload intensity [w]
    within -100..100, the workload fit computed in binary64 is the integer
    [workloadSpec m w], with [m] the workload the confidence level
    sustains (5, 7, 10): 100 - 5 (m - w) up to [m], and 100 - 15 (w - m)
    cut off at 0 above it. It is at most 100, it is 100 exactly at
    [w = m], it is 0 from [m + 7] on, and it is negative exactly below
    [m - 20] (out of the 1..10 scale; the lower branch has no cut-off).
    A workload that is not an integer need not give an integer: 8.4 at
    low confidence gives 48.99999999999999 ([fractional_run]). *)
Theorem calculateWorkloadFit_closed (p : StudentProfile) (u : University)
    (w : Z) :
  holds (workloadIntensity u) w ->
  -100 <= w <= 100 ->
  calculateWorkloadFit p u
  = of_Z (workloadSpec (toleratedWorkload (sp_confidenceLevel p)) w)
  /\ workloadSpec (toleratedWorkload (sp_confidenceLevel p)) w <= 100
  /\ (workloadSpec (toleratedWorkload (sp_confidenceLevel p)) w = 100
      <-> w = toleratedWorkload (sp_confidenceLevel p))
  /\ (toleratedWorkload (sp_confidenceLevel p) + 7 <= w ->
      workloadSpec (toleratedWorkload (sp_confidenceLevel p)) w = 0)
  /\ (workloadSpec (toleratedWorkload (sp_confidenceLevel p)) w < 0
      <-> w < toleratedWorkload (sp_confidenceLevel p) - 20).
Proof.
  intros Hz H.
  split.
  - rewrite (@calculateWorkloadFit_at p u w Hz).
    now apply workloadFitAt_closed.
  - unfold workloadSpec.
    destruct (w <=? toleratedWorkload (sp_confidenceLevel p))
      eqn:E; [apply Z.leb_le in E|apply Z.leb_gt in E];
      repeat split; intros; lia.
Qed.

(** *** The cost table *)

(** X14. The cost table is monotone: for every tuition tier the cost fit
    does not decrease from budget low to medium to high, and for every
    budget level it does not increase from tier free (always 100) to low,
    medium and high; every cell lies within 10..100. *)
Theorem budgetMap_monotone :
  (forall t, exists l m h,
      costCell low t = Some l /\ costCell medium t = Some m
      /\ costCell high t = Some h /\ l <= m <= h)
  /\ (forall b, exists f l m h,
        costCell b tier_free = Some f /\ costCell b tier_low = Some l
        /\ costCell b tier_medium = Some m /\ costCell b tier_high = Some h
        /\ f = 100 /\ h <= m <= l /\ l <= f)
  /\ (forall b t v, costCell b t = Some v -> 10 <= v <= 100).
Proof.
  split; [|split].
  - intros t. destruct t; do 3 eexists; repeat split; try reflexivity; lia.
  - intros b. destruct b; do 4 eexists; repeat split; try reflexivity; lia.
  - intros b t v. destruct b, t; intros [= <-]; lia.
Qed.

(** *** The fear of the visa and the score *)

Lemma of_Z_inj_percent (a b : Z) :
  percent a -> percent b -> of_Z a = of_Z b -> a = b.
Proof.
  intros Pa Pb E.
  assert (to_Z (of_Z a) = to_Z (of_Z b)) as T by now rewrite E.
  rewrite (to_Z_of_Z_percent Pa), (to_Z_of_Z_percent Pb) in T.
  now injection T.
Qed.

(** The six dimension values of a scoring, and the overall score they
    give. *)
Lemma fitScore_values (p : StudentProfile) (u : University) :
  inScale u ->
  exists t w l c v s,
    (In t teachingValues /\ In w workloadValues /\ In l languageValues
     /\ In c costValues /\ In v visaValues /\ In s supportValues)
    /\ calculateTeachingFit p u = of_Z t
    /\ calculateWorkloadFit p u = of_Z w
    /\ calculateLanguageFit p u = of_Z l
    /\ calculateCostFit p u = Normal (of_Z c)
    /\ calculateVisaFit p u = of_Z v
    /\ mul (internationalStudentSupport u) (of_Z 10) = of_Z s
    /\ overallOf p u = Some (roundHalfUp (weightedHundredths t w l c v s) 100).
Proof.
  intros (w0 & s0 & Hw & Hs & Rw & Rs).
  destruct (teaching_value p u) as (t & Ht & Et).
  destruct (@workload_value p u w0 Hw Rw) as (w & Hw' & Ew).
  destruct (language_value p u) as (l & Hl & El).
  destruct (cost_value p u) as (c & Hc & _ & Ec).
  destruct (visa_value p u) as (v & Hv & Ev).
  destruct (@support_value u s0 Hs Rs) as (s & Hs' & _ & Es).
  exists t, w, l, c, v, s.
  split; [tauto|]. repeat (split; [assumption|]).
  destruct (overall_rounds Ht Hw' Hl Hc Hv Hs') as (A & Po).
  unfold overallOf, calculateFitScore. rewrite Ec. cbn [bind overall].
  rewrite Et, Ew, El, Ev, Es. fold (mkBreakdown t w l c v s).
  rewrite A. now apply to_Z_of_Z_percent.
Qed.

Lemma roundHalfUp_mono (n m : Z) :
  n <= m -> roundHalfUp n 100 <= roundHalfUp m 100.
Proof.
  intros H. unfold roundHalfUp. apply Z.div_le_mono; lia.
Qed.

(** X13. The fear of the visa never raises a score. For a university
    with integer scales in 1..10 and two well-typed profiles of the same
    confidence and budget levels, the first of which fears the visa, the
    overall score of the first is at most that of the second, and the two
    are equal when the visa of the university is easy. *)
Theorem visa_fear_lowers_score (p p' : StudentProfile) (u : University) :
  inScale u ->
  sp_confidenceLevel p = sp_confidenceLevel p' ->
  sp_budgetLevel p = sp_budgetLevel p' ->
  sp_mainFear p = visa ->
  exists o o',
    overallOf p u = Some o /\ overallOf p' u = Some o'
    /\ o <= o'
    /\ (visaDifficulty u = easy -> o = o').
Proof.
  intros Hu Hc Hb Hf.
  destruct (fitScore_values p Hu)
    as (t & w & l & c & v & s & (Ht & Hw & Hl & Hcv & Hv & Hs)
        & Et & Ew & El & Ec & Ev & Es & Eo).
  destruct (fitScore_values p' Hu)
    as (t' & w' & l' & c' & v' & s' & (Ht' & Hw' & Hl' & Hcv' & Hv' & Hs')
        & Et' & Ew' & El' & Ec' & Ev' & Es' & Eo').
  assert (t = t') as <-.
  { apply of_Z_inj_percent; try (apply values_percent; tauto).
    rewrite <- Et, <- Et'. unfold calculateTeachingFit.
    cbn [confidenceLevel asObject]. now rewrite Hc. }
  assert (w = w') as <-.
  { apply of_Z_inj_percent; try (apply values_percent; tauto).
    rewrite <- Ew, <- Ew'. unfold calculateWorkloadFit.
    cbn [confidenceLevel asObject]. now rewrite Hc. }
  assert (l = l') as <-.
  { apply of_Z_inj_percent; try (apply values_percent; tauto).
    rewrite <- El, <- El'. reflexivity. }
  assert (c = c') as <-.
  { apply of_Z_inj_percent; try (apply values_percent; tauto).
    assert (Normal (of_Z c) = Normal (of_Z c')) as N.
    { rewrite <- Ec, <- Ec'. unfold calculateCostFit.
      cbn [budgetLevel asObject]. now rewrite Hb. }
    now injection N. }
  assert (s = s') as <-.
  { apply of_Z_inj_percent; try (apply values_percent; tauto).
    now rewrite <- Es, <- Es'. }
  assert (percent v) as Pv by (apply values_percent; tauto).
  assert (percent v') as Pv' by (apply values_percent; tauto).
  assert (v <= v' /\ (visaDifficulty u = easy -> v = v')) as [Hle Heq].
  { unfold calculateVisaFit in Ev, Ev'. cbn [mainFear asObject] in Ev, Ev'.
    rewrite Hf in Ev. cbn [strictEq FearType_eqb] in Ev.
    destruct (sp_mainFear p'), (visaDifficulty u);
      cbn in Ev, Ev';
      apply of_Z_inj_percent in Ev; try (unfold percent; lia); auto;
      apply of_Z_inj_percent in Ev'; try (unfold percent; lia); auto;
      subst; split; try lia; try discriminate; auto. }
  exists (roundHalfUp (weightedHundredths t w l c v s) 100),
         (roundHalfUp (weightedHundredths t w l c v' s) 100).
  split; [exact Eo|]. split; [exact Eo'|]. split.
  - apply roundHalfUp_mono. unfold weightedHundredths. lia.
  - intros He. now rewrite (Heq He).
Qed.

(** *** Timelines and identifiers *)

Lemma Date_new_valid (t : Z) :
  0 <= t <= 8640000000000000 -> Date_new t = Some t.
Proof.
  intros H. unfold Date_new.
  replace (Z.abs t <=? 8640000000000000) with true; [reflexivity|].
  symmetry. apply Z.leb_le. lia.
Qed.

(** X10. For a well-typed profile and a clock that stays 365 days within
    the range of [Date], the k-th returned path carries the three events
    "evt-1", "evt-2", "evt-3" titled "Application Deadline", "Visa
    Application" and "Program Starts", dated 180, 270 and 365 days (in
    milliseconds) after the k-th reading of the clock, all of importance
    high and none marked as completed. *)
Theorem generatePaths_timelines UNIVERSITIES SCHOLARSHIPS COUNTRIES clock
    (p : StudentProfile) :
  (forall k, 0 <= clock k <= 8640000000000000 - 365 * day) ->
  exists paths,
    generatePaths UNIVERSITIES SCHOLARSHIPS COUNTRIES clock p = Normal paths
    /\ forall k path,
         nth_error paths k = Some path ->
         map evt_id (timeline path) = ["evt-1"; "evt-2"; "evt-3"]
         /\ map title (timeline path)
            = ["Application Deadline"; "Visa Application"; "Program Starts"]
         /\ map date (timeline path)
            = [Some (clock k + 15552000000); Some (clock k + 23328000000);
               Some (clock k + 31536000000)]
         /\ Forall (fun e => importance e = high /\ completed e = None)
              (timeline path).
Proof.
  intros Hclock.
  destruct (@generatePaths_normal UNIVERSITIES SCHOLARSHIPS COUNTRIES clock
              p (@asObject_budget p)) as (scored & _ & _ & E).
  eexists. split; [exact E|].
  intros k path Hk.
  pose proof (buildPaths_dates _ _ _ _ _ 0%nat _ Hk) as D.
  simpl in D.
  assert (exists item now,
            path = buildPath SCHOLARSHIPS COUNTRIES now p
                     (university item) (sc_fitScore item)) as (item & now & Ep).
  { apply nth_error_In in Hk.
    destruct (@buildPaths_In _ _ _ _ _ _ _ Hk) as (item & now & _ & Ep).
    eauto. }
  specialize (Hclock k). unfold day in Hclock.
  split; [rewrite Ep; reflexivity|]. split; [rewrite Ep; reflexivity|].
  split.
  - rewrite D. unfold timelineDates, day.
    rewrite !Date_new_valid by lia.
    repeat f_equal; lia.
  - rewrite Ep. cbn [timeline buildPath generateTimeline].
    repeat constructor.
Qed.

Lemma NoDup_map_filter {A B} (f : A -> B) (g : A -> bool) (l : list A) :
  NoDup (map f l) -> NoDup (map f (filter g l)).
Proof.
  induction l as [|a l IH]; simpl; intros H; [constructor|].
  inversion H as [|? ? Hn Hl]; subst.
  destruct (g a); simpl; [|now apply IH].
  constructor; [|now apply IH].
  intros C. apply Hn. apply in_map_iff in C as (x & E & Hx).
  apply filter_In in Hx as [Hx _]. apply in_map_iff. eauto.
Qed.

Lemma NoDup_app_l {A} (l m : list A) : NoDup (l ++ m) -> NoDup l.
Proof.
  induction l as [|a l IH]; simpl; intros H; [constructor|].
  inversion H as [|? ? Hn Hl]; subst.
  constructor; [|now apply IH].
  intros C. apply Hn. apply in_app_iff. now left.
Qed.

Lemma append_inj (pre a b : string) : pre ++ a = pre ++ b -> a = b.
Proof.
  induction pre as [|c pre IH]; simpl; intros H; [exact H|].
  injection H as H. now apply IH.
Qed.

Lemma NoDup_map_inj {A B} (f : A -> B) (l : list A) :
  (forall a b, f a = f b -> a = b) -> NoDup l -> NoDup (map f l).
Proof.
  intros Hf. induction l as [|a l IH]; simpl; intros H; [constructor|].
  inversion H as [|? ? Hn Hl]; subst.
  constructor; [|now apply IH].
  intros C. apply in_map_iff in C as (x & E & Hx).
  apply Hf in E. now subst.
Qed.

(** X11. If the catalog has no two universities of the same id, the
    paths of [generatePaths] have pairwise distinct ids and are on pairwise
    distinct universities. *)
Theorem generatePaths_distinct_ids UNIVERSITIES SCHOLARSHIPS COUNTRIES clock
    (p : StudentProfile) :
  NoDup (map uni_id UNIVERSITIES) ->
  exists paths,
    generatePaths UNIVERSITIES SCHOLARSHIPS COUNTRIES clock p = Normal paths
    /\ NoDup (map path_id paths)
    /\ NoDup (map (fun path => uni_id (details path)) paths).
Proof.
  intros Hids.
  destruct (generatePaths_typed UNIVERSITIES SCHOLARSHIPS COUNTRIES clock p)
    as (paths & E & _ & (rest & P) & B).
  exists paths. split; [exact E|].
  assert (NoDup (map uni_id (map details paths))) as N.
  { apply NoDup_app_l with (m := map uni_id rest). rewrite <- map_app.
    apply Permutation_NoDup
      with (l := map uni_id (filterEligibleUniversities UNIVERSITIES p)).
    - now apply Permutation_map.
    - unfold filterEligibleUniversities. now apply NoDup_map_filter. }
  rewrite map_map in N. split; [|exact N].
  assert (map path_id paths
          = map (fun i => "path-" ++ i)
                (map (fun path => uni_id (details path)) paths)) as ->.
  { rewrite map_map. apply map_ext_in. intros path Hpath.
    destruct (B path Hpath) as (now & fit & Ep).
    pose proof (f_equal path_id Ep) as Ei. cbn [path_id buildPath] in Ei.
    exact Ei. }
  apply NoDup_map_inj; [|exact N].
  intros a b H. now apply append_inj in H.
Qed.

(** *** The API route *)

(** X16. The route answers with status 200 or 500, and with the body
    [{ error: "Failed to generate paths" }] exactly when the status is 500.
    A body that is not JSON is answered with 500; the body [null] with 500
    unless the catalog is empty; a profile object without budget level with
    500 exactly when at least one university is eligible for it; a profile
    object whose budget level is low, medium or high, with or without the
    other fields, with 200 and [min 3 n] paths, [n] the number of eligible
    universities; a well-typed profile always with 200. *)
Theorem POST_status UNIVERSITIES SCHOLARSHIPS COUNTRIES clock :
  (forall request,
      (status (POST UNIVERSITIES SCHOLARSHIPS COUNTRIES clock request) = 200
       \/ status (POST UNIVERSITIES SCHOLARSHIPS COUNTRIES clock request)
          = 500)
      /\ (body (POST UNIVERSITIES SCHOLARSHIPS COUNTRIES clock request)
          = ErrorBody "Failed to generate paths"
          <-> status (POST UNIVERSITIES SCHOLARSHIPS COUNTRIES clock request)
              = 500))
  /\ status (POST UNIVERSITIES SCHOLARSHIPS COUNTRIES clock Malformed) = 500
  /\ (status (POST UNIVERSITIES SCHOLARSHIPS COUNTRIES clock JsonNull) = 500
      <-> UNIVERSITIES <> [])
  /\ (forall profile,
        budgetLevel profile = None ->
        (status (POST UNIVERSITIES SCHOLARSHIPS COUNTRIES clock
                   (JsonProfile profile)) = 500
         <-> filterEligibleUniversities UNIVERSITIES profile <> []))
  /\ (forall profile,
        budgetLevel profile <> None ->
        exists paths,
          POST UNIVERSITIES SCHOLARSHIPS COUNTRIES clock (JsonProfile profile)
          = {| status := 200; body := PathsBody paths |}
          /\ generatePaths UNIVERSITIES SCHOLARSHIPS COUNTRIES clock profile
             = Normal paths
          /\ length paths
             = Nat.min 3 (length (filterEligibleUniversities UNIVERSITIES
                                    profile)))
  /\ (forall p : StudentProfile,
        status (POST UNIVERSITIES SCHOLARSHIPS COUNTRIES clock
                  (JsonProfile p)) = 200).
Proof.
  assert (forall profile,
            budgetLevel profile <> None ->
            exists paths,
              POST UNIVERSITIES SCHOLARSHIPS COUNTRIES clock
                (JsonProfile profile)
              = {| status := 200; body := PathsBody paths |}
              /\ generatePaths UNIVERSITIES SCHOLARSHIPS COUNTRIES clock
                   profile = Normal paths
              /\ length paths
                 = Nat.min 3 (length (filterEligibleUniversities UNIVERSITIES
                                        profile))) as Ok.
  { intros profile Hb.
    destruct (@generatePaths_returns UNIVERSITIES SCHOLARSHIPS COUNTRIES
                clock profile Hb) as (paths & E & L & _).
    exists paths. cbn [POST]. rewrite E. auto. }
  split; [|split; [reflexivity|split; [|split; [|split; [exact Ok|]]]]].
  - intros request. unfold POST.
    destruct request as [| |profile].
    + cbn [status body]. split; [now right|]. split; reflexivity.
    + destruct generatePathsOfNull; cbn [status body];
        (split; [auto|]); split; intros C; try discriminate C; reflexivity.
    + destruct (generatePaths UNIVERSITIES SCHOLARSHIPS COUNTRIES clock
                  profile); cbn [status body];
        (split; [auto|]); split; intros C; try discriminate C; reflexivity.
  - unfold POST, generatePathsOfNull.
    destruct UNIVERSITIES as [|u rest]; cbn [mapM bind status].
    + split; [discriminate|]. intros C. now contradiction C.
    + split; [discriminate|reflexivity].
  - intros profile Hb. cbn [POST].
    destruct (filterEligibleUniversities UNIVERSITIES profile) eqn:Ef.
    + rewrite generatePaths_empty by assumption. cbn [status].
      split; [discriminate|]. intros C. now contradiction C.
    + rewrite generatePaths_throw;
        [|assumption|rewrite Ef; discriminate].
      cbn [status]. split; [discriminate|reflexivity].
  - intros p. destruct (Ok p (@asObject_budget p)) as (paths & E & _).
    rewrite E. reflexivity.
Qed.

(** *** The journey flow *)

Lemma prefix_spec (sub s : string) :
  String.prefix sub s = true <-> exists post, s = sub ++ post.
Proof.
  revert s. induction sub as [|c sub IH]; intros s.
  - destruct s; simpl; (split; [intros _; eexists; reflexivity|reflexivity]).
  - destruct s as [|d s]; simpl;
      [split; [discriminate|intros (post & E); discriminate]|].
    destruct (Ascii.ascii_dec c d) as [<-|N].
    + rewrite IH. split.
      * intros (post & ->). exists post. reflexivity.
      * intros (post & [= ->]). exists post. reflexivity.
    + split; [discriminate|]. intros (post & [= E _]). congruence.
Qed.

Lemma includesSub_spec (s sub : string) :
  includesSub s sub = true <-> contains s sub.
Proof.
  unfold contains. induction s as [|c s IH]; cbn [includesSub].
  - rewrite orb_false_r, prefix_spec. split.
    + intros (post & E). exists "", post. exact E.
    + intros (pre & post & E). destruct pre as [|d pre]; [|discriminate E].
      exists post. exact E.
  - rewrite orb_true_iff, prefix_spec, IH. split.
    + intros [(post & E)|(pre & post & E)].
      * exists "", post. exact E.
      * exists (String c pre), post. simpl. now rewrite E.
    + intros (pre & post & E). destruct pre as [|d pre].
      * left. exists post. exact E.
      * right. simpl in E. injection E as _ E. exists pre, post. exact E.
Qed.

Lemma includesSub_cases (s sub : string) :
  if includesSub s sub then contains s sub else ~ contains s sub.
Proof.
  pose proof (includesSub_spec s sub) as H.
  destruct (includesSub s sub).
  - now apply H.
  - intros C. apply H in C. discriminate C.
Qed.

Ltac settle_iff :=
  split; [intros E; try discriminate E; tauto
         |intros; try reflexivity; exfalso; tauto].

(** X17. [mapBudgetLevel] gives low exactly when the lower-cased answer
    contains "low", high exactly when it contains "high" and not "low",
    and medium otherwise, the empty answer included. The three options of
    the fallback budget question are mapped to low, medium and high, in
    this order. *)
Theorem mapBudgetLevel_spec (toLowerCase : string -> string) (input : string) :
  (mapBudgetLevel toLowerCase input = low
   <-> contains (toLowerCase input) "low")
  /\ (mapBudgetLevel toLowerCase input = high
      <-> ~ contains (toLowerCase input) "low"
          /\ contains (toLowerCase input) "high")
  /\ (mapBudgetLevel toLowerCase input = medium
      <-> ~ contains (toLowerCase input) "low"
          /\ ~ contains (toLowerCase input) "high")
  /\ map (mapBudgetLevel asciiLowerCase) budgetOptions = [low; medium; high]
  /\ mapBudgetLevel asciiLowerCase "" = medium.
Proof.
  unfold mapBudgetLevel.
  pose proof (includesSub_cases (toLowerCase input) "low") as L.
  pose proof (includesSub_cases (toLowerCase input) "high") as H.
  destruct (includesSub (toLowerCase input) "low"),
           (includesSub (toLowerCase input) "high");
    (split; [settle_iff|]); (split; [settle_iff|]); (split; [settle_iff|]);
    split; vm_compute; reflexivity.
Qed.

(** X18. [mapEducationStage] gives one of high_school, masters, phd and
    bachelors, never bootcamp or working: high_school exactly when the
    lower-cased answer contains "high school", else masters exactly when
    it contains "master", else phd exactly when it contains "phd", and
    bachelors exactly when it contains none of the three. *)
Theorem mapEducationStage_spec (toLowerCase : string -> string)
    (input : string) :
  In (mapEducationStage toLowerCase input)
     [high_school; masters; phd; bachelors]
  /\ (mapEducationStage toLowerCase input = high_school
      <-> contains (toLowerCase input) "high school")
  /\ (mapEducationStage toLowerCase input = masters
      <-> ~ contains (toLowerCase input) "high school"
          /\ contains (toLowerCase input) "master")
  /\ (mapEducationStage toLowerCase input = phd
      <-> ~ contains (toLowerCase input) "high school"
          /\ ~ contains (toLowerCase input) "master"
          /\ contains (toLowerCase input) "phd")
  /\ (mapEducationStage toLowerCase input = bachelors
      <-> ~ contains (toLowerCase input) "high school"
          /\ ~ contains (toLowerCase input) "master"
          /\ ~ contains (toLowerCase input) "phd").
Proof.
  unfold mapEducationStage.
  pose proof (includesSub_cases (toLowerCase input) "high school") as A.
  pose proof (includesSub_cases (toLowerCase input) "master") as B.
  pose proof (includesSub_cases (toLowerCase input) "phd") as C.
  destruct (includesSub (toLowerCase input) "high school"),
           (includesSub (toLowerCase input) "master"),
           (includesSub (toLowerCase input) "phd");
    (split; [simpl; tauto|]);
    (split; [settle_iff|]); (split; [settle_iff|]); (split; [settle_iff|]);
    settle_iff.
Qed.

Lemma orUndefined_truthy (v : option string) (t : string) :
  orUndefined v = Some t -> t <> "".
Proof.
  destruct v as [s|]; simpl; [|discriminate].
  destruct (truthy s) eqn:E; [|discriminate].
  intros [= <-]. now apply truthy_spec.
Qed.

Lemma journey_eligible (p : StudentProfile) (u : University) :
  sp_mainFear p <> visa -> sp_confidenceLevel p <> low ->
  (forall t, sp_targetCountry p = Some t -> t <> "") ->
  eligible p u = journeyEligible (sp_targetCountry p) (sp_budgetLevel p) u.
Proof.
  intros Hf Hc Ht. unfold eligible, journeyEligible.
  cbn [targetCountry budgetLevel mainFear confidenceLevel asObject strictEq].
  assert (FearType_eqb (sp_mainFear p) visa = false) as ->
    by (destruct (sp_mainFear p); try reflexivity; contradiction).
  assert (Level_eqb (sp_confidenceLevel p) low = false) as ->
    by (destruct (sp_confidenceLevel p); try reflexivity; contradiction).
  cbn [andb].
  destruct (sp_targetCountry p) as [t|].
  - assert (truthy t = true) as -> by (apply truthy_spec; now apply Ht).
    cbn [andb].
    destruct (String.eqb t (uni_country u)); cbn [negb andb];
      [|reflexivity].
    destruct (Level_eqb (sp_budgetLevel p) low
              && TuitionTier_eqb (tier (tuition u)) tier_high); reflexivity.
  - destruct (Level_eqb (sp_budgetLevel p) low
              && TuitionTier_eqb (tier (tuition u)) tier_high); reflexivity.
Qed.

(** X19. [generateUniversityPaths] returns the outcome titled "Path
    Generation Error" when the context does not parse. For every parsed
    record of answers it returns the outcome "Recommended Universities"
    instead: the engine cannot throw on the profile built from the
    answers. Its paths are those of [generatePaths] for that profile,
    [min 3 n] of them with [n] the number of eligible universities; the
    message reports their number and the target country, or "your
    preferred destinations" when the answer is missing or empty; and since
    the profile is given the fear "failure" and the confidence "medium",
    only the country and the budget constraints of the filter remain in
    force. *)
Theorem generateUniversityPaths_spec (toLowerCase : string -> string)
    UNIVERSITIES SCHOLARSHIPS COUNTRIES clock :
  generateUniversityPaths toLowerCase UNIVERSITIES SCHOLARSHIPS COUNTRIES
    clock None
  = pathGenerationError
  /\ forall answers,
       exists paths,
         generateUniversityPaths toLowerCase UNIVERSITIES SCHOLARSHIPS
           COUNTRIES clock (Some answers)
         = {| jo_type := university_paths;
              jo_title := "Recommended Universities";
              jo_message :=
                "We found " ++ show_Z (Z.of_nat (length paths))
                ++ " optimized paths for you in "
                ++ orElse (get String.eqb answers "target-country")
                     "your preferred destinations" ++ ".";
              jo_paths := paths;
              jo_profile := Some (answersProfile toLowerCase clock answers) |}
         /\ generatePaths UNIVERSITIES SCHOLARSHIPS COUNTRIES
              (fun k => clock (S k))
              (answersProfile toLowerCase clock answers)
            = Normal paths
         /\ filterEligibleUniversities UNIVERSITIES
              (answersProfile toLowerCase clock answers)
            = filter (journeyEligible
                        (orUndefined (get String.eqb answers "target-country"))
                        (mapBudgetLevel toLowerCase
                           (orElse (get String.eqb answers "budget") "")))
                UNIVERSITIES
         /\ length paths
            = Nat.min 3
                (length (filterEligibleUniversities UNIVERSITIES
                           (answersProfile toLowerCase clock answers))).
Proof.
  split; [reflexivity|].
  intros answers.
  destruct (generatePaths_typed UNIVERSITIES SCHOLARSHIPS COUNTRIES
              (fun k => clock (S k)) (answersProfile toLowerCase clock answers))
    as (paths & E & L & _).
  exists paths. split; [|split; [exact E|split; [|exact L]]].
  - unfold generateUniversityPaths. rewrite E.
    cbn [sp_targetCountry answersProfile].
    f_equal. do 3 f_equal.
    unfold orUndefined, orElse.
    destruct (get String.eqb answers "target-country") as [s|]; [|reflexivity].
    destruct (truthy s); reflexivity.
  - unfold filterEligibleUniversities. apply filter_ext. intros u.
    rewrite journey_eligible; [reflexivity|discriminate|discriminate|].
    intros t Ht. cbn [sp_targetCountry answersProfile] in Ht.
    now apply orUndefined_truthy in Ht.
Qed.

Lemma collected_initial : collected initialWizard.
Proof. unfold collected, initialWizard; cbn. repeat split; lia. Qed.

Lemma collected_step situation clock (w w' : Wizard) (e : Event) :
  collected w -> enabled w e = true ->
  handle situation clock w e = Rendered w' -> collected w'.
Proof.
  unfold collected.
  intros (R & C1 & C2 & C3 & C4 & C5) En H.
  destruct e; cbn [enabled handle] in En, H.
  1-6: apply Z.eqb_eq in En; injection H as <-;
       cbn [setFormData wz_step wz_formData fd_currentCountry
            fd_targetCountry fd_educationStage fd_budgetLevel fd_mainFear];
       repeat split; try lia; intros; try discriminate;
       first [apply C1 | apply C2 | apply C3 | apply C4 | apply C5]; lia.
  - unfold handleNext in H.
    destruct (wz_step w <? 6) eqn:L.
    + apply Z.ltb_lt in L. injection H as <-. cbn [wz_step wz_formData].
      unfold canProceed in En.
      assert (wz_step w = 1 \/ wz_step w = 2 \/ wz_step w = 3
              \/ wz_step w = 4 \/ wz_step w = 5) as S by lia.
      destruct S as [S | [S | [S | [S | S]]]]; rewrite S in *; cbn in En;
        (split; [lia|]);
        (split; [intros _; try (apply C1; lia);
                 intros E; rewrite E in En; discriminate En|]);
        (split; [intros ?; try lia; try (apply C2; lia);
                 intros E; rewrite E in En; discriminate En|]);
        (split; [intros ?; try lia; try (apply C3; lia);
                 intros E; rewrite E in En; discriminate En|]);
        (split; [intros ?; try lia; try (apply C4; lia);
                 intros E; rewrite E in En; discriminate En|]);
        (intros ?; try lia; try (apply C5; lia);
         intros E; rewrite E in En; discriminate En).
    + destruct (handleSubmit situation clock (wz_formData w));
        [discriminate H|]. injection H as <-. tauto.
  - injection H as <-. unfold handleBack.
    destruct (1 <? wz_step w) eqn:L; [|tauto].
    apply Z.ltb_lt in L. cbn [wz_step wz_formData].
    repeat split; try lia; intros;
      first [apply C1 | apply C2 | apply C3 | apply C4 | apply C5]; lia.
Qed.

Lemma run_collected situation clock (events : list Event) (w w' : Wizard) :
  collected w -> run situation clock w events = Some w' -> collected w'.
Proof.
  revert w. induction events as [|e rest IH]; intros w C R; cbn [run] in R.
  - now injection R as <-.
  - destruct (enabled w e) eqn:En; [|discriminate R].
    destruct (handle situation clock w e) as [w1|] eqn:H; [|discriminate R].
    apply (IH w1); [|exact R].
    now apply (@collected_step situation clock w w1 e).
Qed.

Lemma target_country_paths UNIVERSITIES SCHOLARSHIPS COUNTRIES clock
    (p : StudentProfile) (t : string) :
  sp_targetCountry p = Some t -> t <> "" ->
  exists paths,
    generatePaths UNIVERSITIES SCHOLARSHIPS COUNTRIES clock p = Normal paths
    /\ forall path, In path paths -> uni_country (details path) = t.
Proof.
  intros Ht Hne.
  destruct (paths_consistent UNIVERSITIES SCHOLARSHIPS COUNTRIES clock p)
    as (paths & E & H).
  exists paths. split; [exact E|].
  intros path Hpath. destruct (H path Hpath) as (Hd & _).
  unfold filterEligibleUniversities in Hd. apply filter_In in Hd as [_ Hd].
  unfold eligible in Hd. cbn [targetCountry asObject] in Hd. rewrite Ht in Hd.
  assert (truthy t = true) as T by now apply truthy_spec.
  rewrite T in Hd. cbn [andb] in Hd.
  unfold strictEq in Hd.
  destruct (String.eqb t (uni_country (details path))) eqn:Q.
  - apply String.eqb_eq in Q. now symmetry.
  - cbn in Hd. discriminate Hd.
Qed.

(** X20. Whatever sequence of clicks on the controls the form shows and
    has not disabled leads to the state [w]: the step lies in 1..6; before
    step 6 a click on Next never submits; at step 6 the button is enabled
    and the click submits a profile ([handleSubmit] never takes its early
    [return]), whose current country is not empty and whose target country
    is the non-empty one chosen at step 3. Every path the engine returns
    for that profile is therefore in the chosen target country. *)
Theorem form_submits_complete_profile situation clock
    UNIVERSITIES SCHOLARSHIPS COUNTRIES engineClock
    (events : list Event) (w : Wizard) :
  run situation clock initialWizard events = Some w ->
  1 <= wz_step w <= 6
  /\ (wz_step w < 6 ->
      forall profile,
        handle situation clock w ClickNext <> Navigated profile)
  /\ (wz_step w = 6 ->
      enabled w ClickNext = true
      /\ exists profile,
           handle situation clock w ClickNext = Navigated profile
           /\ handleSubmit situation clock (wz_formData w) = Some profile
           /\ sp_currentCountry profile <> ""
           /\ sp_targetCountry profile
              = Some (fd_targetCountry (wz_formData w))
           /\ fd_targetCountry (wz_formData w) <> ""
           /\ exists paths,
                generatePaths UNIVERSITIES SCHOLARSHIPS COUNTRIES engineClock
                  profile = Normal paths
                /\ forall path, In path paths ->
                     uni_country (details path)
                     = fd_targetCountry (wz_formData w)).
Proof.
  intros R.
  pose proof (@run_collected situation clock events initialWizard w
                collected_initial R) as (Hr & C1 & C2 & C3 & C4 & C5).
  split; [exact Hr|]. split.
  - intros L profile. cbn [handle]. unfold handleNext.
    apply Z.ltb_lt in L. rewrite L. discriminate.
  - intros S6.
    split; [cbn [enabled]; unfold canProceed; rewrite S6; reflexivity|].
    cbn [handle]. unfold handleNext. rewrite S6. cbn [Z.ltb Z.compare Pos.compare Pos.compare_cont].
    unfold handleSubmit.
    destruct (fd_educationStage (wz_formData w)) as [stage|];
      [|exfalso; apply C2; [lia|reflexivity]].
    destruct (fd_budgetLevel (wz_formData w)) as [budget|];
      [|exfalso; apply C4; [lia|reflexivity]].
    destruct (fd_mainFear (wz_formData w)) as [fear|];
      [|exfalso; apply C5; [lia|reflexivity]].
    eexists. split; [reflexivity|]. split; [reflexivity|].
    cbn [sp_currentCountry sp_targetCountry].
    split; [apply C1; lia|]. split; [reflexivity|].
    split; [apply C3; lia|].
    apply target_country_paths with (t := fd_targetCountry (wz_formData w));
      [reflexivity|apply C3; lia].
Qed.

Lemma confidenceBand_capacity (c : Z) :
  c <= 10 -> c <= capacityOf (confidenceBand c).
Proof.
  intros H. unfold confidenceBand.
  destruct (c <=? 3) eqn:A; [apply Z.leb_le in A; cbn; lia|].
  destruct (c <=? 7) eqn:B; [apply Z.leb_le in B; cbn; lia|].
  cbn. lia.
Qed.

(** The comparisons of binary64 numbers are transitive: what is at most
    [y], itself at most [z], is not above [z]. *)
Lemma leb_gtb_trans (x y z : number) :
  leb x y = true -> leb y z = true -> gtb x z = false.
Proof.
  unfold leb, gtb, SFleb, SFltb, SFcompare.
  destruct x as [sx|sx| |sx mx ex], y as [sy|sy| |sy my ey],
           z as [sz|sz| |sz mz ez];
    try discriminate; try reflexivity;
    repeat match goal with s : bool |- _ => destruct s end;
    try discriminate; try reflexivity;
    change (Pcompare ?a ?b Eq) with (Pos.compare a b);
    destruct (Z.compare_spec ex ey), (Z.compare_spec ey ez),
             (Z.compare_spec ez ex);
    try discriminate; try reflexivity; try lia;
    destruct (Pos.compare_spec mx my), (Pos.compare_spec my mz),
             (Pos.compare_spec mz mx);
    try discriminate; try reflexivity; try lia.
Qed.

Lemma leb_of_Z_scale (a b : Z) :
  1 <= a <= 10 -> 1 <= b <= 10 -> leb (of_Z a) (of_Z b) = (a <=? b).
Proof.
  intros Ha Hb.
  assert (forallb (fun a => forallb (fun b =>
            Bool.eqb (leb (of_Z a) (of_Z b)) (a <=? b)) (span 1 10))
            (span 1 10) = true) as A by (vm_compute; reflexivity).
  rewrite forallb_forall in A. specialize (A a (span_In Ha)).
  rewrite forallb_forall in A. specialize (A b (span_In Hb)).
  now apply Bool.eqb_prop in A.
Qed.

Lemma capacityMap_capacityOf (c : ConfidenceLevel) :
  lookupLevel capacityMap (Some c) = of_Z (capacityOf c).
Proof. destruct c; reflexivity. Qed.

(** X21. The bands of the confidence slider agree with the capacities of
    the academic risk: for a slider position in 1..10 the submitted
    confidence level is low up to 3 and high from 8, its capacity is the
    top of its band and so not below the slider position, and a university
    whose workload intensity, integral or not, does not exceed the slider
    position gets an academic risk of severity low and likelihood 20. *)
Theorem slider_position_is_sustained situation clock
    (formData : FormData) (profile : StudentProfile) (u : University) :
  handleSubmit situation clock formData = Some profile ->
  1 <= fd_confidenceLevel formData <= 10 ->
  confidenceBand (capacityOf (sp_confidenceLevel profile))
  = sp_confidenceLevel profile
  /\ fd_confidenceLevel formData <= capacityOf (sp_confidenceLevel profile)
  /\ (leb (workloadIntensity u) (of_Z (fd_confidenceLevel formData)) = true ->
      severity (assessAcademicRisk profile u) = low
      /\ likelihood (assessAcademicRisk profile u) = 20)
  /\ (sp_confidenceLevel profile = low <-> fd_confidenceLevel formData <= 3)
  /\ (sp_confidenceLevel profile = high <-> 8 <= fd_confidenceLevel formData).
Proof.
  intros Hs Hc.
  assert (sp_confidenceLevel profile
          = confidenceBand (fd_confidenceLevel formData)) as Eb.
  { unfold handleSubmit in Hs.
    destruct (fd_educationStage formData); [|discriminate].
    destruct (fd_budgetLevel formData); [|discriminate].
    destruct (fd_mainFear formData); [|discriminate].
    injection Hs as <-. reflexivity. }
  assert (fd_confidenceLevel formData
          <= capacityOf (sp_confidenceLevel profile)) as Hcap
    by (rewrite Eb; apply confidenceBand_capacity; lia).
  split; [destruct (sp_confidenceLevel profile); reflexivity|].
  split; [exact Hcap|].
  split.
  - intros Hle.
    assert (gtb (workloadIntensity u)
                (lookupLevel capacityMap (confidenceLevel profile))
            = false) as O.
    { cbn [confidenceLevel asObject]. rewrite capacityMap_capacityOf.
      apply leb_gtb_trans with (y := of_Z (fd_confidenceLevel formData));
        [exact Hle|].
      rewrite leb_of_Z_scale; [now apply Z.leb_le|lia|].
      destruct (sp_confidenceLevel profile); cbn; lia. }
    unfold assessAcademicRisk. cbn [severity likelihood]. rewrite O.
    split; reflexivity.
  - rewrite Eb. unfold confidenceBand.
    destruct (fd_confidenceLevel formData <=? 3) eqn:A;
      [apply Z.leb_le in A|apply Z.leb_gt in A].
    + split; split; intros; try reflexivity; try discriminate; lia.
    + destruct (fd_confidenceLevel formData <=? 7) eqn:B;
        [apply Z.leb_le in B|apply Z.leb_gt in B];
        split; split; intros; try reflexivity; try discriminate; lia.
Qed.

Lemma sameKey_spec (n u : University) :
  sameKey n u = true <-> keyOf u = keyOf n.
Proof.
  unfold sameKey, keyOf. rewrite andb_true_iff, !String.eqb_eq.
  split; [intros [-> ->]; reflexivity|intros [= -> ->]; auto].
Qed.

Lemma sameKey_key (n n' u : University) :
  keyOf n = keyOf n' -> sameKey n u = sameKey n' u.
Proof. unfold sameKey, keyOf. intros [= -> ->]. reflexivity. Qed.

Lemma sameKey_key_r (n u u' : University) :
  keyOf u = keyOf u' -> sameKey n u = sameKey n u'.
Proof. unfold sameKey, keyOf. intros [= -> ->]. reflexivity. Qed.

Lemma sameKey_refl (n : University) : sameKey n n = true.
Proof. apply sameKey_spec. reflexivity. Qed.

Lemma keyOf_spread (old n : University) : keyOf (spread old n) = keyOf n.
Proof. reflexivity. Qed.

Lemma spread_assoc (a b c : University) :
  spread (spread a b) c = spread a (spread b c).
Proof.
  unfold spread; cbn. f_equal.
  - destruct (imageUrl c); reflexivity.
  - destruct (dataSource c); reflexivity.
Qed.

Lemma spread_idem (a : University) : spread a a = a.
Proof.
  destruct a as [? ? ? ? ? ? ? ? ? ? ? ? ? i d ?]. unfold spread; cbn.
  destruct i, d; reflexivity.
Qed.

(** The indexed update of the source is the recursive one. *)
Lemma mergeStep_upsert (merged : list University) (n : University) :
  mergeStep merged n = upsert n merged.
Proof.
  unfold mergeStep, push.
  induction merged as [|u rest IH]; [reflexivity|].
  cbn [findIndex upsert]. destruct (sameKey n u); [reflexivity|].
  destruct (findIndex (sameKey n) rest) as [i|]; cbn [option_map nth_error].
  - destruct (nth_error rest i); cbn [updateAt]; [now rewrite IH|].
    now rewrite <- IH.
  - cbn [app]. now rewrite IH.
Qed.

Lemma merge_fold (existing newData : list University) :
  mergeUniversityData existing newData
  = fold_left (fun m n => upsert n m) newData existing.
Proof.
  unfold mergeUniversityData. revert existing.
  induction newData as [|n rest IH]; intros existing; [reflexivity|].
  cbn [fold_left]. rewrite mergeStep_upsert. apply IH.
Qed.

Lemma fold_spread_assoc (l : list University) (a b : University) :
  fold_left spread l (spread a b) = spread a (fold_left spread l b).
Proof.
  revert b. induction l as [|x l IH]; intros b; [reflexivity|].
  cbn [fold_left]. rewrite spread_assoc. apply IH.
Qed.

Lemma fold_spread_twice_head (l : list University) (n : University) :
  fold_left spread (n :: l) (fold_left spread l n) = fold_left spread l n.
Proof.
  cbn [fold_left]. rewrite fold_spread_assoc. apply spread_idem.
Qed.

Lemma fold_spread_twice (l : list University) (b : University) :
  fold_left spread l (fold_left spread l b) = fold_left spread l b.
Proof.
  destruct l as [|x l]; [reflexivity|].
  cbn [fold_left]. rewrite (fold_spread_assoc l b x).
  rewrite spread_assoc, fold_spread_assoc. f_equal.
  apply (fold_spread_twice_head l x).
Qed.

Lemma keyOf_fold_spread (l : list University) (b : University) :
  Forall (fun n => keyOf n = keyOf b) l ->
  keyOf (fold_left spread l b) = keyOf b.
Proof.
  revert b. induction l as [|x l IH]; intros b F; [reflexivity|].
  inversion F as [|? ? Hx Hl]; subst. cbn [fold_left].
  rewrite IH; [rewrite keyOf_spread; exact Hx|].
  rewrite keyOf_spread. eapply Forall_impl; [|exact Hl].
  cbn. intros a Ha. congruence.
Qed.

(** The merge, one slot of the array at a time: a slot takes every new
    entry of its key, in order; the others go on to the rest. *)
Lemma merge_cons (u : University) (rest newData : list University) :
  fold_left (fun m n => upsert n m) newData (u :: rest)
  = fold_left spread (filter (fun n => sameKey n u) newData) u
    :: fold_left (fun m n => upsert n m)
         (filter (fun n => negb (sameKey n u)) newData) rest.
Proof.
  revert u rest. induction newData as [|n l IH]; intros u rest;
    [reflexivity|].
  cbn [fold_left upsert filter].
  destruct (sameKey n u) eqn:K; cbn [negb fold_left].
  - rewrite IH.
    assert (forall x, sameKey x (spread u n) = sameKey x u) as Q.
    { intros x. apply sameKey_key_r. rewrite keyOf_spread.
      symmetry. now apply sameKey_spec. }
    f_equal.
    + f_equal. apply filter_ext. exact Q.
    + f_equal. apply filter_ext. intros x. now rewrite Q.
  - rewrite IH. reflexivity.
Qed.

Lemma filter_length_le {A} (f : A -> bool) (l : list A) :
  (length (filter f l) <= length l)%nat.
Proof.
  induction l as [|x l IH]; cbn; [lia|]. destruct (f x); cbn; lia.
Qed.

Lemma merge_nil_cons (n : University) (l : list University) :
  fold_left (fun m n => upsert n m) (n :: l) []
  = fold_left spread (filter (fun x => sameKey x n) l) n
    :: fold_left (fun m n => upsert n m)
         (filter (fun x => negb (sameKey x n)) l) [].
Proof. cbn [fold_left upsert]. apply merge_cons. Qed.

Lemma merge_twice_nil (fuel : nat) (newData : list University) :
  (length newData <= fuel)%nat ->
  fold_left (fun m n => upsert n m) newData
    (fold_left (fun m n => upsert n m) newData [])
  = fold_left (fun m n => upsert n m) newData [].
Proof.
  revert newData. induction fuel as [|fuel IH]; intros newData L.
  - destruct newData; [reflexivity|cbn in L; lia].
  - destruct newData as [|n l]; [reflexivity|].
    rewrite merge_nil_cons.
    set (head := fold_left spread (filter (fun x => sameKey x n) l) n).
    set (others := filter (fun x => negb (sameKey x n)) l).
    assert (keyOf head = keyOf n) as Kh.
    { apply keyOf_fold_spread. apply Forall_forall. intros x Hx.
      apply filter_In in Hx as [_ Hx]. apply sameKey_spec in Hx.
      now symmetry. }
    rewrite merge_cons.
    assert (forall x, sameKey x head = sameKey x n) as Q
      by (intros x; now apply sameKey_key_r).
    rewrite (filter_ext _ _ Q).
    rewrite (filter_ext (fun x => negb (sameKey x head))
               (fun x => negb (sameKey x n)))
      by (intros x; now rewrite Q).
    cbn [filter]. rewrite sameKey_refl. cbn [negb].
    fold others. f_equal.
    + apply fold_spread_twice_head.
    + (* the other keys: the same statement on a shorter list *)
      assert (fold_left (fun m n0 => upsert n0 m) others
                (fold_left (fun m n0 => upsert n0 m) others [])
              = fold_left (fun m n0 => upsert n0 m) others []) as R.
      { apply IH. unfold others.
        pose proof (filter_length_le (fun x => negb (sameKey x n)) l).
        cbn in L. lia. }
      exact R.
Qed.

Lemma merge_twice (existing newData : list University) :
  fold_left (fun m n => upsert n m) newData
    (fold_left (fun m n => upsert n m) newData existing)
  = fold_left (fun m n => upsert n m) newData existing.
Proof.
  revert newData. induction existing as [|u rest IH]; intros newData.
  - apply (@merge_twice_nil (length newData) newData). apply le_n.
  - rewrite merge_cons.
    set (head := fold_left spread (filter (fun n => sameKey n u) newData) u).
    assert (keyOf head = keyOf u) as Kh.
    { apply keyOf_fold_spread. apply Forall_forall. intros x Hx.
      apply filter_In in Hx as [_ Hx]. apply sameKey_spec in Hx.
      now symmetry. }
    rewrite merge_cons.
    assert (forall x, sameKey x head = sameKey x u) as Q
      by (intros x; now apply sameKey_key_r).
    rewrite (filter_ext _ _ Q).
    rewrite (filter_ext (fun x => negb (sameKey x head))
               (fun x => negb (sameKey x u)))
      by (intros x; now rewrite Q).
    f_equal.
    + apply fold_spread_twice.
    + apply IH.
Qed.

(** X22. Merging is idempotent: merging the same new data a second time
    changes nothing, whatever duplicates either list contains. Merging no
    new data returns the existing list. *)
Theorem mergeUniversityData_idempotent (existing newData : list University) :
  mergeUniversityData (mergeUniversityData existing newData) newData
  = mergeUniversityData existing newData
  /\ mergeUniversityData existing [] = existing.
Proof.
  split; [|reflexivity].
  rewrite !merge_fold. apply merge_twice.
Qed.

Lemma upsert_keys (n : University) (merged : list University) :
  map keyOf (upsert n merged)
  = if existsb (sameKey n) merged then map keyOf merged
    else (map keyOf merged ++ [keyOf n])%list.
Proof.
  induction merged as [|u rest IH]; [reflexivity|].
  cbn [upsert existsb]. destruct (sameKey n u) eqn:K; cbn [orb map].
  - rewrite keyOf_spread. f_equal. symmetry. now apply sameKey_spec.
  - rewrite IH. destruct (existsb (sameKey n) rest); reflexivity.
Qed.

Lemma existsb_sameKey (n : University) (merged : list University) :
  existsb (sameKey n) merged = true <-> In (keyOf n) (map keyOf merged).
Proof.
  rewrite existsb_exists, in_map_iff. split.
  - intros (u & Hu & K). exists u. split; [now apply sameKey_spec|exact Hu].
  - intros (u & K & Hu). exists u. split; [exact Hu|now apply sameKey_spec].
Qed.

Lemma key_eq_dec (a b : string * string) : {a = b} + {a <> b}.
Proof. decide equality; apply string_dec. Qed.

Lemma merge_keys (newData existing : list University) :
  exists added,
    map keyOf (fold_left (fun m n => upsert n m) newData existing)
    = (map keyOf existing ++ added)%list
    /\ NoDup added
    /\ (length added <= length newData)%nat
    /\ forall k, In k added
                 <-> In k (map keyOf newData) /\ ~ In k (map keyOf existing).
Proof.
  revert existing. induction newData as [|n rest IH]; intros existing.
  - exists []. rewrite app_nil_r. split; [reflexivity|].
    split; [constructor|]. split; [cbn; lia|]. cbn. tauto.
  - cbn [fold_left].
    destruct (IH (upsert n existing)) as (added & E & ND & L & I).
    rewrite upsert_keys in E, I.
    destruct (existsb (sameKey n) existing) eqn:X.
    + apply existsb_sameKey in X.
      exists added. split; [exact E|]. split; [exact ND|].
      split; [cbn [length]; lia|].
      intros k. rewrite I. cbn [map In]. split; [tauto|].
      intros [[<- | Hk] Hn]; [contradiction|tauto].
    + assert (~ In (keyOf n) (map keyOf existing)) as Hn.
      { intros C. apply existsb_sameKey in C. congruence. }
      exists (keyOf n :: added).
      split; [rewrite E, <- app_assoc; reflexivity|].
      split.
      { constructor; [|exact ND]. intros C. apply I in C as [_ C].
        apply C. apply in_or_app. right. left. reflexivity. }
      split; [cbn [length]; lia|].
      intros k. cbn [map In]. rewrite I. split.
      * intros [<- | [Hk Hm]]; [tauto|].
        split; [tauto|]. intros C. apply Hm. apply in_or_app. now left.
      * intros [[<- | Hk] Hm]; [now left|].
        destruct (key_eq_dec (keyOf n) k) as [A|A]; [now left|].
        right. split; [exact Hk|]. intros C.
        apply in_app_or in C as [C | [C | []]]; tauto.
Qed.

(** X23. The universities of the merged list, identified by name and
    country, are those of the existing list, at their positions, followed
    by the keys that occur in the new data and not in the existing list,
    each once. So the merged list has at least as many entries as the
    existing list and at most as many as both lists together, and when the
    existing list has no two entries of the same key the merged list has
    none either, even if the new data repeats a key. *)
Theorem mergeUniversityData_keys (existing newData : list University) :
  exists added,
    map keyOf (mergeUniversityData existing newData)
    = (map keyOf existing ++ added)%list
    /\ NoDup added
    /\ (forall k, In k added
                  <-> In k (map keyOf newData) /\ ~ In k (map keyOf existing))
    /\ (length existing <= length (mergeUniversityData existing newData)
        <= length existing + length newData)%nat
    /\ (NoDup (map keyOf existing) ->
        NoDup (map keyOf (mergeUniversityData existing newData))).
Proof.
  rewrite merge_fold.
  destruct (merge_keys newData existing) as (added & E & ND & L & I).
  exists added. split; [exact E|]. split; [exact ND|]. split; [exact I|].
  assert (length (fold_left (fun m n => upsert n m) newData existing)
          = (length existing + length added)%nat) as Len.
  { rewrite <- (length_map keyOf), E, length_app, length_map. reflexivity. }
  split; [lia|].
  intros NE. rewrite E.
  clear Len E L. induction existing as [|u rest IH]; [exact ND|].
  cbn [map app]. inversion NE as [|? ? Hu Hr]; subst.
  constructor.
  - intros C. apply in_app_or in C as [C | C]; [contradiction|].
    apply I in C as [_ C]. apply C. now left.
  - clear IH. revert Hr.
    assert (forall k, In k added -> ~ In k (map keyOf rest)) as D.
    { intros k Hk C. apply I in Hk as [_ Hk]. apply Hk. now right. }
    clear I Hu NE. induction (map keyOf rest) as [|x l IHl]; intros Hr;
      [exact ND|].
    cbn [app]. inversion Hr as [|? ? Hx Hl]; subst. constructor.
    + intros C. apply in_app_or in C as [C | C]; [contradiction|].
      apply (D x C). now left.
    + apply IHl; [|exact Hl]. intros k Hk C. apply (D k Hk). now right.
Qed.

Lemma upsert_nth_other (n u : University) (merged : list University)
    (i : nat) :
  nth_error merged i = Some u -> sameKey n u = false ->
  nth_error (upsert n merged) i = Some u.
Proof.
  revert i. induction merged as [|x rest IH]; intros i Hi K.
  - destruct i; discriminate Hi.
  - cbn [upsert]. destruct (sameKey n x) eqn:Kx.
    + destruct i as [|i]; cbn [nth_error] in *; [|exact Hi].
      injection Hi as ->. congruence.
    + destruct i as [|i]; cbn [nth_error] in *; [exact Hi|].
      now apply IH.
Qed.

Lemma upsert_find_same (n : University) (merged : list University) :
  exists m, find (sameKey n) (upsert n merged) = Some m /\ spread m n = m.
Proof.
  induction merged as [|u rest IH]; cbn [upsert find].
  - rewrite sameKey_refl. exists n. split; [reflexivity|apply spread_idem].
  - destruct (sameKey n u) eqn:K; cbn [find].
    + assert (sameKey n (spread u n) = true) as ->
        by (apply sameKey_spec; reflexivity).
      exists (spread u n). split; [reflexivity|].
      now rewrite spread_assoc, spread_idem.
    + rewrite K. exact IH.
Qed.

Lemma upsert_find_other (n n' : University) (merged : list University) :
  sameKey n n' = false ->
  find (sameKey n) (upsert n' merged) = find (sameKey n) merged.
Proof.
  intros K. induction merged as [|u rest IH]; cbn [upsert find].
  - now rewrite K.
  - destruct (sameKey n' u) eqn:Ku; cbn [find].
    + assert (keyOf u = keyOf n') as E by now apply sameKey_spec.
      rewrite (@sameKey_key_r n (spread u n') n' (keyOf_spread u n')).
      rewrite (@sameKey_key_r n u n' E). now rewrite K.
    + now rewrite IH.
Qed.

(** X24. An entry of the existing list whose key does not occur in the
    new data stays unchanged at its position. For the last entry of the new
    data with a given key, the first entry of that key in the merged list
    has every property of it (id, tuition, ranking, scraping date, ...),
    and its image and data sources when it has them: the last write
    wins. *)
Theorem mergeUniversityData_entries (existing newData : list University) :
  (forall i u,
      nth_error existing i = Some u ->
      (forall n, In n newData -> sameKey n u = false) ->
      nth_error (mergeUniversityData existing newData) i = Some u)
  /\ (forall before n after,
        newData = (before ++ n :: after)%list ->
        (forall n', In n' after -> sameKey n n' = false) ->
        exists m,
          find (sameKey n) (mergeUniversityData existing newData) = Some m
          /\ spread m n = m
          /\ uni_id m = uni_id n
          /\ tuition m = tuition n
          /\ ranking m = ranking n
          /\ uni_scrapedAt m = uni_scrapedAt n
          /\ (imageUrl n <> None -> imageUrl m = imageUrl n)
          /\ (dataSource n <> None -> dataSource m = dataSource n)).
Proof.
  rewrite merge_fold. split.
  - revert existing. induction newData as [|x rest IH];
      intros existing i u Hi Hn; [exact Hi|].
    cbn [fold_left]. apply IH.
    + apply upsert_nth_other; [exact Hi|]. apply Hn. now left.
    + intros n Hin. apply Hn. now right.
  - intros before n after -> Hafter.
    rewrite fold_left_app. cbn [fold_left].
    set (M := fold_left (fun m x => upsert x m) before existing).
    destruct (upsert_find_same n M) as (m & Fm & Sm).
    assert (find (sameKey n) (fold_left (fun m x => upsert x m) after
                                (upsert n M)) = Some m) as F.
    { clear Sm. revert Fm. generalize (upsert n M) as L.
      induction after as [|x rest IH]; intros L Fm; [exact Fm|].
      cbn [fold_left]. apply IH.
      - intros n' Hin. apply Hafter. now right.
      - rewrite upsert_find_other; [exact Fm|]. apply Hafter. now left. }
    exists m. split; [exact F|]. split; [exact Sm|].
    rewrite <- Sm. cbn [spread uni_id tuition ranking uni_scrapedAt imageUrl
                        dataSource].
    repeat split.
    + destruct (imageUrl n); [reflexivity|contradiction].
    + destruct (dataSource n); [reflexivity|contradiction].
Qed.

(** X25. The tier the scraper derives from a tuition amount and the cost
    table of the engine are consistent: of two universities whose tiers are
    derived from amounts [0 <= c <= c'], the cheaper one gets a cost fit at
    least as high, both within 10..100. The tier is free exactly for the
    amount 0 and high exactly from 30000 on; a university scraped at 30000
    or more is not eligible for a profile of low budget; an amount that
    does not parse to a number gets the tier high. *)
Theorem scrapedTier_cost_fit (p : StudentProfile) (u u' : University)
    (c c' : Z) :
  0 <= c <= c' ->
  tier (tuition u) = scrapedTier (Some c) ->
  tier (tuition u') = scrapedTier (Some c') ->
  (exists f f',
      calculateCostFit p u = Normal (of_Z f)
      /\ calculateCostFit p u' = Normal (of_Z f')
      /\ 10 <= f' <= f /\ f <= 100)
  /\ (scrapedTier (Some c) = tier_free <-> c = 0)
  /\ (scrapedTier (Some c) = tier_high <-> 30000 <= c)
  /\ (sp_budgetLevel p = low -> 30000 <= c -> eligible p u = false)
  /\ scrapedTier None = tier_high.
Proof.
  intros Hc Eu Eu'.
  destruct (cost_value p u) as (f & _ & Cf & Ef).
  destruct (cost_value p u') as (f' & _ & Cf' & Ef').
  rewrite Eu in Cf. rewrite Eu' in Cf'.
  assert (Tc : (scrapedTier (Some c) = tier_free /\ c = 0)
               \/ (scrapedTier (Some c) = tier_low /\ 0 < c < 10000)
               \/ (scrapedTier (Some c) = tier_medium /\ 10000 <= c < 30000)
               \/ (scrapedTier (Some c) = tier_high /\ 30000 <= c)).
  { unfold scrapedTier.
    destruct (c =? 0) eqn:A; [apply Z.eqb_eq in A; auto|].
    apply Z.eqb_neq in A.
    destruct (c <? 10000) eqn:B;
      [apply Z.ltb_lt in B; right; left; split; [reflexivity|lia]|].
    apply Z.ltb_ge in B.
    destruct (c <? 30000) eqn:C; [apply Z.ltb_lt in C|apply Z.ltb_ge in C];
      right; right; [left|right]; (split; [reflexivity|lia]). }
  assert (Tc' : (scrapedTier (Some c') = tier_free /\ c' = 0)
               \/ (scrapedTier (Some c') = tier_low /\ 0 < c' < 10000)
               \/ (scrapedTier (Some c') = tier_medium
                   /\ 10000 <= c' < 30000)
               \/ (scrapedTier (Some c') = tier_high /\ 30000 <= c')).
  { unfold scrapedTier.
    destruct (c' =? 0) eqn:A; [apply Z.eqb_eq in A; auto|].
    apply Z.eqb_neq in A.
    destruct (c' <? 10000) eqn:B;
      [apply Z.ltb_lt in B; right; left; split; [reflexivity|lia]|].
    apply Z.ltb_ge in B.
    destruct (c' <? 30000) eqn:C; [apply Z.ltb_lt in C|apply Z.ltb_ge in C];
      right; right; [left|right]; (split; [reflexivity|lia]). }
  split; [|split; [|split; [|split; [|reflexivity]]]].
  - exists f, f'. split; [exact Ef|]. split; [exact Ef'|].
    destruct Tc as [[T R] | [[T R] | [[T R] | [T R]]]];
      destruct Tc' as [[T' R'] | [[T' R'] | [[T' R'] | [T' R']]]];
      try lia; rewrite T in Cf; rewrite T' in Cf';
      destruct (sp_budgetLevel p); vm_compute in Cf, Cf';
      injection Cf as <-; injection Cf' as <-; lia.
  - destruct Tc as [[T R] | [[T R] | [[T R] | [T R]]]]; rewrite T;
      split; intros; try discriminate; try reflexivity; lia.
  - destruct Tc as [[T R] | [[T R] | [[T R] | [T R]]]]; rewrite T;
      split; intros; try discriminate; try reflexivity; lia.
  - intros Hb Hh.
    destruct (eligible p u) eqn:El; [|reflexivity].
    apply eligible_spec in El. destruct El as (_ & Hbud & _).
    exfalso. apply Hbud. split; [exact Hb|].
    rewrite Eu.
    destruct Tc as [[T R] | [[T R] | [[T R] | [T R]]]]; try lia. exact T.
Qed.

Lemma sampleCatalog_inScale : Forall inScale [mit; tum; nus].
Proof.
  repeat constructor; [exists 10, 9|exists 8, 8|exists 9, 9];
    unfold holds; repeat split; try reflexivity; lia.
Qed.

(** The ranking on the three curated universities. *)
Lemma generatePaths_ranked_witness :
  Forall inScale [mit; tum; nus]
  /\ exists paths scores,
       generatePaths [mit; tum; nus] [] [] (clockAt 0) sampleProfile
       = Normal paths
       /\ map pathScore paths = map Some scores
       /\ Forall percent scores
       /\ StronglySorted Z.ge scores.
Proof.
  split; [exact sampleCatalog_inScale|].
  apply (@generatePaths_ranked [mit; tum; nus] [] [] (clockAt 0)
           sampleProfile).
  exact sampleCatalog_inScale.
Defined.

(** The best match among the three curated universities. *)
Lemma generatePaths_best_first_witness :
  Forall inScale [mit; tum; nus]
  /\ filterEligibleUniversities [mit; tum; nus] sampleProfile <> []
  /\ exists pre u post path rest o,
       filterEligibleUniversities [mit; tum; nus] sampleProfile
       = (pre ++ u :: post)%list
       /\ generatePaths [mit; tum; nus] [] [] (clockAt 0) sampleProfile
          = Normal (path :: rest)
       /\ details path = u
       /\ pathScore path = Some o
       /\ overallOf sampleProfile u = Some o
       /\ (forall v, In v pre ->
             exists ov, overallOf sampleProfile v = Some ov /\ ov < o)
       /\ (forall v, In v post ->
             exists ov, overallOf sampleProfile v = Some ov /\ ov <= o).
Proof.
  split; [exact sampleCatalog_inScale|].
  split; [vm_compute; discriminate|].
  apply (@generatePaths_best_first [mit; tum; nus] [] [] (clockAt 0)
           sampleProfile).
  - exact sampleCatalog_inScale.
  - vm_compute. discriminate.
Defined.

(** The sample profile fears the visa. *)
Lemma visa_fear_never_high_visa_risk_witness :
  sp_mainFear sampleProfile = visa
  /\ exists paths,
       generatePaths [mit; tum; usUniversity] [] [] (clockAt 0) sampleProfile
       = Normal paths
       /\ forall path, In path paths ->
            severity (risk_visa (risks path)) <> high
            /\ likelihood (risk_visa (risks path)) <= 30
            /\ (bd_visa (breakdown (fitScore path)) = of_Z 100
                \/ bd_visa (breakdown (fitScore path)) = of_Z 60).
Proof.
  split; [reflexivity|].
  apply (@visa_fear_never_high_visa_risk [mit; tum; usUniversity] [] []
           (clockAt 0) sampleProfile).
  reflexivity.
Defined.

(** The thrifty profile is of low confidence. *)
Lemma low_confidence_never_intense_witness :
  sp_confidenceLevel thriftyProfile = low
  /\ exists paths,
       generatePaths [mit; tum; fractionalUniversity] [] [] (clockAt 0)
         thriftyProfile
       = Normal paths
       /\ forall path, In path paths ->
            geb (workloadIntensity (details path)) (of_Z 9) = false
            /\ (forall z, holds (workloadIntensity (details path)) z ->
                          -1000 <= z <= 1000 -> z <= 8)
            /\ ~ In "you prefer a relaxed academic environment"
                   (notForYouIf path).
Proof.
  split; [reflexivity|].
  apply (@low_confidence_never_intense [mit; tum; fractionalUniversity] [] []
           (clockAt 0) thriftyProfile).
  reflexivity.
Defined.

(** The two paths of that run: the workload intensities are 8 and 8.4. *)
Example thrifty_fractional_paths :
  mapCompletion
    (map (fun path => Number_toString (workloadIntensity (details path))))
    (generatePaths [mit; tum; fractionalUniversity] [] [] (clockAt 0)
       thriftyProfile)
  = Normal ["8"; "8.4"].
Proof. vm_compute. reflexivity. Qed.

(** The thrifty profile at the Technical University of Munich (workload 8,
    capacity 3). *)
Lemma assessAcademicRisk_spec_witness :
  holds (workloadIntensity tum) 8
  /\ 1 <= 8 <= 10
  /\ (severity (assessAcademicRisk thriftyProfile tum) = high
      <-> capacityOf (sp_confidenceLevel thriftyProfile) < 8).
Proof.
  split; [reflexivity|]. split; [lia|].
  apply (@assessAcademicRisk_spec thriftyProfile tum 8); [reflexivity|lia].
Defined.

(** The workload fit of the thrifty profile at the Technical University of
    Munich. *)
Lemma calculateWorkloadFit_closed_witness :
  holds (workloadIntensity tum) 8
  /\ -100 <= 8 <= 100
  /\ calculateWorkloadFit thriftyProfile tum
     = of_Z (workloadSpec (toleratedWorkload (sp_confidenceLevel thriftyProfile))
               8).
Proof.
  split; [reflexivity|]. split; [lia|].
  apply (@calculateWorkloadFit_closed thriftyProfile tum 8); [reflexivity|lia].
Defined.

(** The sample profile and its twin that fears for the money, at MIT. *)
Lemma visa_fear_lowers_score_witness :
  inScale mit
  /\ sp_confidenceLevel sampleProfile = sp_confidenceLevel moneyFearProfile
  /\ sp_budgetLevel sampleProfile = sp_budgetLevel moneyFearProfile
  /\ sp_mainFear sampleProfile = visa
  /\ exists o o',
       overallOf sampleProfile mit = Some o
       /\ overallOf moneyFearProfile mit = Some o'
       /\ o <= o'
       /\ (visaDifficulty mit = easy -> o = o').
Proof.
  split; [exact mit_inScale|].
  split; [reflexivity|]. split; [reflexivity|]. split; [reflexivity|].
  apply (@visa_fear_lowers_score sampleProfile moneyFearProfile mit).
  - exact mit_inScale.
  - reflexivity.
  - reflexivity.
  - reflexivity.
Defined.

(** The timelines at time 0. *)
Lemma generatePaths_timelines_witness :
  (forall k, 0 <= clockAt 0 k <= 8640000000000000 - 365 * day)
  /\ exists paths,
       generatePaths [mit; tum; nus] [] [] (clockAt 0) sampleProfile
       = Normal paths
       /\ forall k path,
            nth_error paths k = Some path ->
            map evt_id (timeline path) = ["evt-1"; "evt-2"; "evt-3"]
            /\ map title (timeline path)
               = ["Application Deadline"; "Visa Application";
                  "Program Starts"]
            /\ map date (timeline path)
               = [Some (clockAt 0 k + 15552000000);
                  Some (clockAt 0 k + 23328000000);
                  Some (clockAt 0 k + 31536000000)]
            /\ Forall (fun e => importance e = high /\ completed e = None)
                 (timeline path).
Proof.
  split; [intros k; unfold clockAt, day; lia|].
  apply (@generatePaths_timelines [mit; tum; nus] [] [] (clockAt 0)
           sampleProfile).
  intros k; unfold clockAt, day; lia.
Defined.

(** The curated universities have distinct ids. *)
Lemma generatePaths_distinct_ids_witness :
  NoDup (map uni_id [mit; tum; nus])
  /\ exists paths,
       generatePaths [mit; tum; nus] [] [] (clockAt 0) sampleProfile
       = Normal paths
       /\ NoDup (map path_id paths)
       /\ NoDup (map (fun path => uni_id (details path)) paths).
Proof.
  assert (NoDup (map uni_id [mit; tum; nus])) as N.
  { repeat constructor; simpl; intuition discriminate. }
  split; [exact N|].
  apply (@generatePaths_distinct_ids [mit; tum; nus] [] [] (clockAt 0)
           sampleProfile).
  exact N.
Defined.

(** A pass through the form: the eleven clicks lead to step 6, where Next
    submits the profile. *)
Lemma form_submits_complete_profile_witness :
  run study_abroad (clockAt 0) initialWizard sampleClicks = Some sampleWizard
  /\ handle study_abroad (clockAt 0) sampleWizard ClickNext
     = Navigated submittedProfile
  /\ 1 <= wz_step sampleWizard <= 6.
Proof.
  split; [reflexivity|]. split; [reflexivity|].
  apply (@form_submits_complete_profile study_abroad (clockAt 0)
           [mit; tum; nus] [] [] (clockAt 0) sampleClicks sampleWizard).
  reflexivity.
Defined.

(** The slider at 3 gives low confidence, of capacity 3. *)
Lemma slider_position_is_sustained_witness :
  handleSubmit study_abroad (clockAt 0) sampleForm = Some submittedProfile
  /\ 1 <= fd_confidenceLevel sampleForm <= 10
  /\ fd_confidenceLevel sampleForm
     <= capacityOf (sp_confidenceLevel submittedProfile).
Proof.
  split; [reflexivity|]. split; [simpl; lia|].
  refine (proj1 (proj2 (@slider_position_is_sustained study_abroad
                          (clockAt 0) sampleForm submittedProfile tum
                          _ _))).
  - reflexivity.
  - simpl; lia.
Defined.

(** The free Technical University of Munich against MIT at 53790. *)
Lemma scrapedTier_cost_fit_witness :
  0 <= annualCost (tuition tum) <= annualCost (tuition mit)
  /\ tier (tuition tum) = scrapedTier (Some (annualCost (tuition tum)))
  /\ tier (tuition mit) = scrapedTier (Some (annualCost (tuition mit)))
  /\ exists f f',
       calculateCostFit thriftyProfile tum = Normal (of_Z f)
       /\ calculateCostFit thriftyProfile mit = Normal (of_Z f')
       /\ 10 <= f' <= f /\ f <= 100.
Proof.
  split; [simpl; lia|]. split; [reflexivity|]. split; [reflexivity|].
  apply (@scrapedTier_cost_fit thriftyProfile tum mit
           (annualCost (tuition tum)) (annualCost (tuition mit))).
  - simpl; lia.
  - reflexivity.
  - reflexivity.
Defined.
